(** * cloudify-puppet-plugin: the retrying lock and the Puppet manager

    A shallow embedding of [puppet_plugin/retrying_lock.py] and
    [puppet_plugin/manager.py], and the properties of
    locking, environment normalisation, command construction, package
    URL resolution, the facts bundle, the run script and its exit code.

    Conventions of the embedding.
    - Python [str] is [string]; Python [int] is [Z]; [None]-able arguments
      are [option]; dictionaries with string keys are [gmap string _].
    - A method that may raise returns a [result]; a method with effects is
      a function [World -> result _ * World].  Effects persist when an
      exception is raised, as in Python.
    - Everything the process cannot decide by itself (the outcome of a lock
      attempt, of a sudo command, the run script included, of an HTTP
      request, the clock, the random part of a temporary file name) is read
      from a [Host], whose answers
      may depend on the history of external interactions so far.  The host
      always answers: a request that never returns or a connection error
      is not modelled.
    - [ctx.logger] calls of [manager.py] are left out: they return [None]
      and never influence control flow.  Those of [retrying_lock.py] are
      kept in [log]. *)

From Stdlib Require Import ZArith Ascii String DecimalString Lia.
From stdpp Require Import base option list strings gmap fin_maps.

Set Warnings "-register-all,-clear-no-such-hyp".
Local Open Scope Z_scope.

(* ===================================================================== *)
(** * Strings *)
(* ===================================================================== *)

Definition nl : string := String "010"%char "".
Definition dquote : string := String "034"%char "".
Definition squote_char : ascii := "039"%char.

(** [sep.join(l)] *)
Definition join (sep : string) (l : list string) : string := String.concat sep l.

(** [s.startswith(p)] and [s.endswith(p)] *)
Definition startswith (p s : string) : bool := String.prefix p s.
Fixpoint endswith (p s : string) : bool :=
  String.eqb s p ||
  match s with
  | EmptyString => false
  | String _ s' => endswith p s'
  end.

(** [s.replace(c, r)] for a one-character pattern [c] *)
Fixpoint replace_char (c : ascii) (r : string) (s : string) : string :=
  match s with
  | EmptyString => EmptyString
  | String a s' =>
      if Ascii.eqb a c then r +:+ replace_char c r s'
      else String a (replace_char c r s')
  end.

(** [s.lower()] on ASCII *)
Definition lower_char (a : ascii) : ascii :=
  let n := N_of_ascii a in
  if ((65 <=? n) && (n <=? 90))%N then ascii_of_N (n + 32) else a.

Fixpoint lower (s : string) : string :=
  match s with
  | EmptyString => EmptyString
  | String a s' => String (lower_char a) (lower s')
  end.

Fixpoint string_forallb (p : ascii -> bool) (s : string) : bool :=
  match s with
  | EmptyString => true
  | String a s' => p a && string_forallb p s'
  end.

(** ['{0}'.format(n)] for an integer *)
Definition str_of_Z (z : Z) : string := NilZero.string_of_int (Z.to_int z).

(** The [width] low decimal digits of [n], most significant first: what
    [strftime] prints for a field that fits its width. *)
Definition digit_char (d : Z) : ascii := ascii_of_N (48 + Z.to_N (d mod 10)).

Fixpoint fixed_digits (width : nat) (n : Z) (acc : string) : string :=
  match width with
  | O => acc
  | S w => fixed_digits w (n / 10) (String (digit_char n) acc)
  end.

Definition is_digit (a : ascii) : bool :=
  let n := N_of_ascii a in ((48 <=? n) && (n <=? 57))%N.

Definition is_lower_alpha (a : ascii) : bool :=
  let n := N_of_ascii a in ((97 <=? n) && (n <=? 122))%N.

(** [posixpath.join(a, b)] *)
Definition path_join (a b : string) : string :=
  if startswith "/" b then b
  else if (String.eqb a "" || endswith "/" a)%bool then a +:+ b
  else a +:+ "/" +:+ b.

(** [needle in haystack] for strings, as a proposition *)
Definition contains (needle haystack : string) : Prop :=
  exists pre post, haystack = pre +:+ needle +:+ post.

(* ===================================================================== *)
(** * Python values, exceptions, results *)
(* ===================================================================== *)

(** JSON-like values: what a blueprint puts in node properties. *)
Inductive value : Type :=
| VNone
| VBool (b : bool)
| VInt (z : Z)
| VStr (s : string)
| VList (l : list value)
| VDict (d : gmap string value).

Abbreviation dict := (gmap string value).

(** Python truth value *)
Definition truthy (v : value) : bool :=
  match v with
  | VNone => false
  | VBool b => b
  | VInt z => negb (z =? 0)
  | VStr s => negb (String.eqb s "")
  | VList l => match l with [] => false | _ => true end
  | VDict d => negb (bool_decide (d = ∅))
  end.

Definition str_truthy (o : option string) : bool :=
  match o with
  | Some s => negb (String.eqb s "")
  | None => false
  end.

Inductive exn : Type :=
| RuntimeError (msg : string)
| PuppetError (msg : string)                 (* PuppetError(RuntimeError) *)
| SudoError (cmd : list string) (status : Z) (out err : string)
                                             (* SudoError(PuppetError) *)
| PuppetInternalLogicError (msg : string)    (* (PuppetError) *)
| PuppetParamsError (msg : string)           (* (PuppetError) *)
| NotImplementedError
| LockError (cls : string)                   (* lockfile errors but LockTimeout *)
| Builtin (cls : string).                    (* TypeError, KeyError, ... *)

Inductive result (A : Type) : Type :=
| Ok (a : A)
| Raise (e : exn).
Arguments Ok {A} a.
Arguments Raise {A} e.

Definition is_ok {A} (r : result A) : bool :=
  match r with Ok _ => true | Raise _ => false end.

(** The pure error monad *)
Definition rbind {A B} (r : result A) (f : A -> result B) : result B :=
  match r with
  | Ok a => f a
  | Raise e => Raise e
  end.

(* ===================================================================== *)
(** * The world outside the process *)
(* ===================================================================== *)

Inductive event : Type :=
| EAcquire (path : string) (timeout : Z)   (* LockFile.acquire(timeout=) *)
| ERelease (path : string)                 (* LockFile.release() *)
| EWhich (prog : string)                   (* sudo which prog *)
| ESudo (argv : list string)               (* subprocess.check_call *)
| EHead (url : value)                      (* requests.head *)
| EGet (url : value)                       (* requests.get *)
| EUrlToDir (url : value) (dst : string).  (* download and unpack *)

Inductive acquire_outcome : Type :=
| Locked
| LockTimeout
| LockFailure (cls : string).

Record datetime : Type := {
  year : Z; month : Z; day : Z; hour : Z; minute : Z
}.

(** The text of the generated run script, kept structured; [render_script]
    below gives the bytes written to the file. *)
Record RunScript : Type := {
  rs_facterlib : string;
  rs_facts_file : string;
  rs_environ : list (string * string);
  rs_cmd : string
}.

Inductive content : Type :=
| CText (s : string)
| CJson (v : value)            (* json.dump(v, f, indent=4) *)
| CPartialJson                 (* a dump cut short by an exception *)
| CScript (s : RunScript).

Record World : Type := {
  fs : gmap string content;   (* the files this process wrote or moved *)
  held : gset string;         (* lock paths held through lockfile *)
  trace : list event;         (* external interactions, oldest first *)
  log : list string;          (* ctx.logger.info of the lock *)
  ntemp : nat                 (* temporary files created so far *)
}.

Definition emit (e : event) (w : World) : World :=
  {| fs := fs w; held := held w; trace := trace w ++ [e];
     log := log w; ntemp := ntemp w |}.

Definition logger_info (msg : string) (w : World) : World :=
  {| fs := fs w; held := held w; trace := trace w;
     log := log w ++ [msg]; ntemp := ntemp w |}.

Definition set_held (h : gset string) (w : World) : World :=
  {| fs := fs w; held := h; trace := trace w; log := log w; ntemp := ntemp w |}.

Definition set_fs (f : gmap string content) (w : World) : World :=
  {| fs := f; held := held w; trace := trace w; log := log w; ntemp := ntemp w |}.

Record Host : Type := {
  env_TMPDIR : option string;                 (* os.environ.get('TMPDIR') *)
  gettempdir : string;                        (* tempfile.gettempdir() *)
  getpid : Z;                                 (* os.getpid() *)
  local_repo : string;        (* os.path.expanduser('~/cloudify/puppet') *)
  plugin_dir : string;        (* os.path.dirname(os.path.realpath(__file__)) *)
  linux_distribution : string * string * string;
                              (* platform.linux_distribution() *)
  utcnow : list event -> datetime;            (* datetime.datetime.utcnow() *)
  acquire_result : list event -> string -> Z -> acquire_outcome;
                              (* how acquire(timeout) on a lock path ends *)
  which_status : list event -> string -> Z;   (* exit status of sudo which *)
  sudo_result : list event -> list string -> Z * string * string;
                              (* exit status, stdout, stderr of a command *)
  puppet_result : list event -> string -> Z * string * string;
                              (* the same for the agent's command line, run
                                 as one command *)
  head_status : list event -> value -> Z;     (* requests.head(url).status_code *)
  get_content : list event -> value -> string;  (* requests.get(url).content *)
  url_path_basename : value -> string;
                              (* os.path.basename(urlparse(url).path) *)
  url_to_dir_result : list event -> value -> string -> option exn;
                              (* the error, if any, of fetching and unpacking *)
  temp_random : nat -> string;  (* random part of the n-th temporary name *)
  properties_shared : bool
      (* whether ctx.properties hands out the same mapping object each time *)
}.

(** The effect monad: state is the world, exceptions are results. *)
Definition M (A : Type) : Type := World -> result A * World.

Definition ret {A} (a : A) : M A := fun w => (Ok a, w).
Definition raise {A} (e : exn) : M A := fun w => (Raise e, w).
Definition bind {A B} (m : M A) (f : A -> M B) : M B := fun w =>
  match m w with
  | (Ok a, w') => f a w'
  | (Raise e, w') => (Raise e, w')
  end.
Definition lift {A} (r : result A) : M A := fun w => (r, w).

Notation "'let!' x ':=' m 'in' k" := (bind m (fun x => k))
  (at level 10, x pattern, m at level 100, k at level 200).
Notation "'do!' m 'in' k" := (bind m (fun _ => k))
  (at level 10, m at level 100, k at level 200).

Fixpoint for_each {A} (l : list A) (body : A -> M unit) : M unit :=
  match l with
  | [] => ret tt
  | x :: l' => do! body x in for_each l' body
  end.

(* ===================================================================== *)
(** * retrying_lock.py *)
(* ===================================================================== *)

Module RetryingLock.

Record t : Type := {
  path : string;
  retries : Z;
  sleep : Z;
  acquired : bool
}.

Definition set_acquired (b : bool) (l : t) : t :=
  {| path := path l; retries := retries l; sleep := sleep l; acquired := b |}.

(** [__init__] *)
Definition init (h : Host) (lock_name : string) (retries sleep : Z) : t :=
  let tmp_dir := default "/tmp" (env_TMPDIR h) in
  {| path := path_join tmp_dir lock_name;
     retries := retries; sleep := sleep; acquired := false |}.

(** [self.file.acquire(timeout=self.sleep)] *)
Definition file_acquire (h : Host) (l : t) (w : World)
  : acquire_outcome * World :=
  let o := acquire_result h (trace w) (path l) (sleep l) in
  let w1 := emit (EAcquire (path l) (sleep l)) w in
  match o with
  | Locked => (o, set_held ({[ path l ]} ∪ held w1) w1)
  | _ => (o, w1)
  end.

(** [self.file.release()] *)
Definition file_release (l : t) : M unit := fun w =>
  if bool_decide (path l ∈ held w)
  then (Ok tt, set_held (held w ∖ {[ path l ]}) (emit (ERelease (path l)) w))
  else (Raise (LockError "NotLocked"), w).

(** The [for i in range(0, self.retries)] loop with [n] rounds left *)
Fixpoint enter_loop (h : Host) (n : nat) (l : t) (w : World)
  : result unit * t * World :=
  match n with
  | O => (Raise (RuntimeError
                   ("Failed to lock the file '" +:+ path l +:+ "'.")), l, w)
  | S n' =>
      match file_acquire h l w with
      | (LockTimeout, w1) =>
          enter_loop h n' l
            (logger_info ("Could not lock the file '" +:+ path l +:+ "'. " +:+
                          "Will sleep for " +:+ str_of_Z (sleep l) +:+
                          " seconds and then try again.") w1)
      | (Locked, w1) =>
          (Ok tt, set_acquired true l,
           logger_info ("Acquired lock the file '" +:+ path l +:+ "'.") w1)
      | (LockFailure cls, w1) => (Raise (LockError cls), l, w1)
      end
  end.

(** [__enter__] *)
Definition enter (h : Host) (l : t) (w : World) : result unit * t * World :=
  enter_loop h (Z.to_nat (retries l)) l
    (logger_info ("Using lock file " +:+ path l) w).

(** [__exit__]; its arguments are ignored and it returns [None], so an
    exception of the body is not swallowed. *)
Definition exit (l : t) (w : World) : result unit * t * World :=
  if negb (acquired l) then (Ok tt, l, w)
  else
    match file_release l w with
    | (Raise e, w1) => (Raise e, l, w1)
    | (Ok _, w1) =>
        (Ok tt, set_acquired false l,
         logger_info ("Released lock the file '" +:+ path l +:+ "'.") w1)
    end.

(** The interaction one attempt of [l] leaves in the trace, and the
    message of the error when all attempts failed. *)
Definition attempt (l : t) : event := EAcquire (path l) (sleep l).

Definition failure_message (l : t) : string :=
  "Failed to lock the file '" +:+ path l +:+ "'.".

(** [with l: body], returning the handle as it is left behind. *)
Definition scope {A} (h : Host) (l : t) (body : M A)
  : World -> result A * t * World := fun w =>
  match enter h l w with
  | (Raise e, l1, w1) => (Raise e, l1, w1)
  | (Ok _, l1, w1) =>
      let '(r, w2) := body w1 in
      match exit l1 w2 with
      | (Raise e, l2, w3) => (Raise e, l2, w3)
      | (Ok _, l2, w3) => (r, l2, w3)
      end
  end.

End RetryingLock.

(** [with RetryingLock(ctx, *spec): body] when the handle is not kept. *)
Definition with_lock {A} (h : Host) (spec : string * Z * Z) (body : M A) : M A :=
  fun w =>
    let '(name, retries, sleep) := spec in
    let '(r, _, w') :=
      RetryingLock.scope h (RetryingLock.init h name retries sleep) body w in
    (r, w').

(* ===================================================================== *)
(** * manager.py: constants and pure helpers *)
(* ===================================================================== *)

(** (lock_name, retries, sleep) *)
Definition PUPPET_INSTALL_LOCK : string * Z * Z := ("puppet-install.lock", 30, 10).
Definition PUPPET_CONFIG_LOCK : string * Z * Z := ("puppet-config.lock", 30, 10).

(** [PUPPET_CONF_TPL.format(environment=, modulepath=, server=, certname=,
    node_name=)] *)
Definition PUPPET_CONF_TPL
  (environment modulepath server certname node_name : string) : string :=
  "# This file was generated by Cloudify" +:+ nl +:+
  "[main]" +:+ nl +:+
  "    ssldir = /var/lib/puppet/ssl" +:+ nl +:+
  "    environment = " +:+ environment +:+ nl +:+
  "    pluginsync = true" +:+ nl +:+
  "    logdir = /var/log/puppet" +:+ nl +:+
  "    vardir = /var/lib/puppet" +:+ nl +:+
  "    classfile = $vardir/classes.txt" +:+ nl +:+
  "    factpath = /opt/cloudify/puppet/facts:$vardir/lib/facter:$vardir/facts" +:+ nl +:+
  "    modulepath = " +:+ modulepath +:+ nl +:+
  nl +:+
  "[agent]" +:+ nl +:+
  "    server = " +:+ server +:+ nl +:+
  "    certname = " +:+ certname +:+ nl +:+
  "    node_name_value = " +:+ node_name +:+ nl.

Definition PUPPET_CONF_MODULE_PATH : list string :=
  [ "/etc/puppet/modules";
    "/usr/share/puppet/modules";
    "/opt/cloudify/puppet/modules" ].

(** [PUPPET_TAG_RE = re.compile('\A[a-z0-9_][a-z0-9_:\.\-]*\Z')] *)
Definition tag_first_char (a : ascii) : bool :=
  is_lower_alpha a || is_digit a || Ascii.eqb a "_".
Definition tag_next_char (a : ascii) : bool :=
  is_lower_alpha a || is_digit a || Ascii.eqb a "_" ||
  Ascii.eqb a ":" || Ascii.eqb a "." || Ascii.eqb a "-".
Definition PUPPET_TAG_RE_match (s : string) : bool :=
  match s with
  | EmptyString => false
  | String a s' => tag_first_char a && string_forallb tag_next_char s'
  end.

(** [PUPPET_ENV_RE = re.compile('\A[a-z0-9]+\Z')] *)
Definition env_char (a : ascii) : bool := is_lower_alpha a || is_digit a.
Definition PUPPET_ENV_RE_match (s : string) : bool :=
  match s with
  | EmptyString => false
  | String _ _ => string_forallb env_char s
  end.

(** [re.sub('[- .]', '_', e)], the first line of [set_environment] *)
Definition env_sub_char (a : ascii) : ascii :=
  if Ascii.eqb a "-" || Ascii.eqb a " " || Ascii.eqb a "." then "_"%char else a.
Fixpoint normalize_environment (e : string) : string :=
  match e with
  | EmptyString => EmptyString
  | String a e' => String (env_sub_char a) (normalize_environment e')
  end.

(** [quote_shell_arg] *)
Definition quote_shell_arg (s : string) : string :=
  "'" +:+ replace_char squote_char ("'" +:+ dquote +:+ "'" +:+ dquote +:+ "'") s
      +:+ "'".

(** [v.get(k, dflt)]: only mappings have [get]. *)
Definition value_get (v : value) (k : string) (dflt : value) : result value :=
  match v with
  | VDict d => Ok (default dflt (d !! k))
  | _ => Raise (Builtin "AttributeError")
  end.

(** A value used where only a string works (concatenation, a URL, a
    command argument). *)
Definition as_str (v : value) : result string :=
  match v with
  | VStr s => Ok s
  | _ => Raise (Builtin "TypeError")
  end.

(** [str(v)] and ['{0}'.format(v)].  The text Python prints for a list or
    a mapping depends on its hash order and is not modelled: such a value
    is reported as an error here. *)
Definition py_str (v : value) : result string :=
  match v with
  | VNone => Ok "None"
  | VBool true => Ok "True"
  | VBool false => Ok "False"
  | VInt z => Ok (str_of_Z z)
  | VStr s => Ok s
  | VList _ | VDict _ => Raise (Builtin "repr of a container is not modelled")
  end.

(** [d.strftime('%Y%m%d%H%M')]; Python 2 refuses years before 1900. *)
Definition strftime_YmdHM (d : datetime) : result string :=
  if year d <? 1900 then Raise (Builtin "ValueError")
  else Ok (fixed_digits 4 (year d) "" +:+ fixed_digits 2 (month d) "" +:+
           fixed_digits 2 (day d) "" +:+ fixed_digits 2 (hour d) "" +:+
           fixed_digits 2 (minute d) "").

(** What the [datetime] type guarantees of [utcnow()] (without the check of
    the day against the month's length). *)
Definition valid_datetime (d : datetime) : Prop :=
  1 <= year d <= 9999 /\ 1 <= month d <= 12 /\ 1 <= day d <= 31 /\
  0 <= hour d <= 23 /\ 0 <= minute d <= 59.

(** Reading a time stamp back: the number a string of decimal digits
    stands for, and what it means for a string to be the time [d] written
    as [YYYYMMDDHHMM]. *)
Definition digit_value (a : ascii) : Z := Z.of_N (N_of_ascii a) - 48.

Fixpoint decimal_from (acc : Z) (s : string) : Z :=
  match s with
  | EmptyString => acc
  | String a s' => decimal_from (acc * 10 + digit_value a) s'
  end.

Definition decimal_value (s : string) : Z := decimal_from 0 s.

Definition is_YmdHM (stamp : string) (d : datetime) : Prop :=
  exists yyyy mm dd hh mi : string,
    stamp = yyyy +:+ mm +:+ dd +:+ hh +:+ mi /\
    String.length yyyy = 4%nat /\ decimal_value yyyy = year d /\
    String.length mm = 2%nat /\ decimal_value mm = month d /\
    String.length dd = 2%nat /\ decimal_value dd = day d /\
    String.length hh = 2%nat /\ decimal_value hh = hour d /\
    String.length mi = 2%nat /\ decimal_value mi = minute d.

(* ===================================================================== *)
(** * The workflow context *)
(* ===================================================================== *)

Record Related : Type := {
  rel_node_id : string;
  rel_properties : dict;
  rel_runtime_properties : dict;
  rel_host_ip : option string        (* None: NonRecoverableError *)
}.

Record Ctx : Type := {
  node_id : string;
  node_name : string;
  blueprint_id : string;
  deployment_id : string;
  properties : dict;
  runtime_properties : dict;
  capabilities : option dict;        (* None: no such attribute *)
  host_ip : option string;           (* None: NonRecoverableError *)
  related : option Related
}.

(** [_try_extract_capabilities], [_try_extract_host_ip] *)
Definition _try_extract_capabilities (c : Ctx) : value :=
  VDict (default ∅ (capabilities c)).
Definition _try_extract_host_ip (ip : option string) : value :=
  match ip with Some s => VStr s | None => VNone end.

(** [_context_to_struct] *)
Definition _context_to_struct (c : Ctx) : dict :=
  <["node_id" := VStr (node_id c)]>
  (<["node_name" := VStr (node_name c)]>
  (<["blueprint_id" := VStr (blueprint_id c)]>
  (<["deployment_id" := VStr (deployment_id c)]>
  (<["properties" := VDict (properties c)]>
  (<["runtime_properties" := VDict (runtime_properties c)]>
  (<["capabilities" := _try_extract_capabilities c]>
  (<["host_ip" := _try_extract_host_ip (host_ip c)]> ∅))))))).

(** [_related_to_struct] *)
Definition _related_to_struct (r : Related) : dict :=
  <["node_id" := VStr (rel_node_id r)]>
  (<["properties" := VDict (rel_properties r)]>
  (<["runtime_properties" := VDict (rel_runtime_properties r)]>
  (<["host_ip" := _try_extract_host_ip (rel_host_ip r)]> ∅))).

(** [ctx.properties['puppet_config']], for a configuration that is a
    mapping.  One that is not is outside of what is modelled: the code goes
    on with it ([in] is a search in a string or a list) and fails later,
    with another error than the [TypeError] given here at once. *)
Definition puppet_config (c : Ctx) : result dict :=
  match properties c !! "puppet_config" with
  | None => Raise (Builtin "KeyError")
  | Some (VDict p) => Ok p
  | Some _ => Raise (Builtin "TypeError")
  end.

(* ===================================================================== *)
(** * The manager: class selection and construction *)
(* ===================================================================== *)

Inductive runner_class : Type := PuppetAgentRunner | PuppetStandaloneRunner.
Inductive installer_class : Type := PuppetDebianInstaller | PuppetRHELInstaller.

(** The object [PuppetManager(ctx)] returns: an instance of the class
    assembled from a runner and an installer, with its attributes. *)
Record Manager : Type := {
  runner : runner_class;
  installer : installer_class;
  ctx : Ctx;
  props : dict;
  environment : option string;
  execute : option string;
  manifest : option string
}.

(** [PuppetRunner.get_runner_class] *)
Definition get_runner_class (c : Ctx) : result runner_class :=
  rbind (puppet_config c) (fun p =>
    if bool_decide (is_Some (p !! "server"))
    then Ok PuppetAgentRunner else Ok PuppetStandaloneRunner).

(** [_installer_handles] of each subclass of [PuppetInstaller] *)
Definition _installer_handles (h : Host) (i : installer_class) : bool :=
  let distname := (linux_distribution h).1.1 in
  match i with
  | PuppetDebianInstaller =>
      bool_decide (lower distname ∈ ["debian"; "ubuntu"; "mint"])
  | PuppetRHELInstaller =>
      bool_decide (distname ∈ ["redhat"; "centos"; "fedora"])
  end.

(** [PuppetInstaller.get_installer_class] *)
Definition get_installer_class (h : Host) : result installer_class :=
  let classes := [PuppetDebianInstaller; PuppetRHELInstaller] in
  let classes := List.filter (_installer_handles h) classes in
  match classes with
  | [c] => Ok c
  | _ => Raise (PuppetInternalLogicError "Failed to find correct PuppetInstaller")
  end.

Definition with_environment (env : string) (m : Manager) : Manager :=
  {| runner := runner m; installer := installer m; ctx := ctx m;
     props := props m; environment := Some env;
     execute := execute m; manifest := manifest m |}.

(** [PuppetRunner.set_environment] *)
Definition set_environment (m : Manager) (e : value) : result Manager :=
  match e with
  | VStr e =>
      let env := normalize_environment e in
      if negb (PUPPET_ENV_RE_match env) then
        Raise (PuppetParamsError
                 ("puppet_config.environment must contain only alphanumeric " +:+
                  "characters, you gave '" +:+ env +:+ "'"))
      else Ok (with_environment env m)
  | _ => Raise (Builtin "TypeError")
  end.

Definition is_list (v : value) : bool :=
  match v with VList _ => true | _ => false end.

(** [process_properties] of the two runners *)
Definition process_properties (m : Manager) : result Manager :=
  let p := props m in
  match runner m with
  | PuppetAgentRunner =>
      match p !! "environment" with
      | None => Raise (PuppetParamsError "puppet_config.environment is missing")
      | Some e => set_environment m e
      end
  | PuppetStandaloneRunner =>
      rbind (match p !! "environment" with
             | Some e => set_environment m e
             | None => Ok m
             end) (fun m =>
      rbind (match p !! "modules" with
             | Some v =>
                 if negb (is_list v)
                 then Raise (RuntimeError "puppet_config.modules must be a list")
                 else Ok tt
             | None => Ok tt
             end) (fun _ =>
      if bool_decide (p !! "execute" = None) && bool_decide (p !! "manifest" = None)
      then Raise (PuppetParamsError
                    ("Either 'execute' or 'manifest' " +:+
                     "must be specified under 'puppet_config'." +:+
                     "None are specified."))
      else Ok m))
  end.

(** [PuppetManager(ctx)]: [__new__] picks the classes, [__init__] reads
    the configuration and validates it. *)
Definition PuppetManager (h : Host) (c : Ctx) : result Manager :=
  rbind (get_runner_class c) (fun r =>
  rbind (get_installer_class h) (fun i =>
  rbind (puppet_config c) (fun p =>
  process_properties
    {| runner := r; installer := i; ctx := c; props := p;
       environment := None; execute := None; manifest := None |}))).

(* ===================================================================== *)
(** * The run script and its exit code *)
(* ===================================================================== *)

(** The last three lines of the script, as a small shell fragment. *)
Inductive sh_expr : Type :=
| ShE                    (* $e *)
| ShAndE (n : Z).        (* $(($e & n)) *)

Inductive sh_stmt : Type :=
| ShIfEqExit (x : sh_expr) (n code : Z)   (* if [ x -eq n ];then exit code;fi *)
| ShExit (code : Z).                      (* exit code *)

Definition script_trailer : list sh_stmt :=
  [ ShIfEqExit ShE 1 1;
    ShIfEqExit (ShAndE 4) 4 4;
    ShExit 0 ].

Definition render_sh_expr (x : sh_expr) : string :=
  match x with
  | ShE => "$e"
  | ShAndE n => "$(($e & " +:+ str_of_Z n +:+ "))"
  end.

Definition render_sh_stmt (s : sh_stmt) : string :=
  match s with
  | ShIfEqExit x n code =>
      "if [ " +:+ render_sh_expr x +:+ " -eq " +:+ str_of_Z n +:+
      " ];then exit " +:+ str_of_Z code +:+ ";fi" +:+ nl
  | ShExit code => "exit " +:+ str_of_Z code +:+ nl
  end.

Definition sh_eval (x : sh_expr) (e : Z) : Z :=
  match x with
  | ShE => e
  | ShAndE n => Z.land e n
  end.

(** The exit status of the fragment when [$e] is [e]; a fragment that
    runs off its end exits with the status of its last test, 0. *)
Fixpoint sh_run (l : list sh_stmt) (e : Z) : Z :=
  match l with
  | [] => 0
  | ShIfEqExit x n code :: l' => if sh_eval x e =? n then code else sh_run l' e
  | ShExit code :: _ => code
  end.

(** The status the script exits with when the agent command exited
    with [e]. *)
Definition script_exit (e : Z) : Z := sh_run script_trailer e.

(** The text written to the run file (lines 405-416). *)
Definition render_environ (environ : list (string * string)) : string :=
  join "" (List.map (fun kv => "export " +:+ kv.1 +:+ "='" +:+ kv.2 +:+ "'" +:+ nl)
             environ).

Definition render_script (s : RunScript) : string :=
  "#!/bin/bash -e" +:+ nl +:+
  "export FACTERLIB=" +:+ rs_facterlib s +:+ nl +:+
  "export CLOUDIFY_FACTS_FILE=" +:+ rs_facts_file s +:+ nl +:+
  render_environ (rs_environ s) +:+
  "e=0" +:+ nl +:+
  rs_cmd s +:+ " || e=$?" +:+ nl +:+
  "echo Exit code: $e" +:+ nl +:+
  join "" (List.map render_sh_stmt script_trailer).



(* ===================================================================== *)
(** * Helpers with effects *)
(* ===================================================================== *)

(** What a successful command does to the files the model follows. *)
Definition sudo_effect (args : list string) (w : World) : World :=
  match args with
  | [prog; src; dst] =>
      if String.eqb prog "mv" then
        match fs w !! src with
        | Some c => set_fs (<[dst := c]> (delete src (fs w))) w
        | None => w
        end
      else w
  | _ => w
  end.

(** [_sudo]: [subprocess.check_call] of [sudo] and the arguments.  The
    outcome of the command, a run script included, is the host's. *)
Definition _sudo (h : Host) (args : list string) : M (string * string) := fun w =>
  let cmd := "/usr/bin/sudo" :: args in
  let '(status, out, err) := sudo_result h (trace w) cmd in
  let w1 := emit (ESudo cmd) w in
  if status =? 0 then (Ok (out, err), sudo_effect args w1)
  else (Raise (SudoError cmd status out err), w1).

(** [tempfile.NamedTemporaryFile(prefix=, suffix=, delete=False)]: a new,
    empty file in the temporary directory.  [temp_random] is the random
    part of the name that [tempfile] settles on.  The file is opened as
    [dir/prefix+random+suffix]; a prefix with a slash in it names a
    directory that is not there, and the call raises [OSError].  The
    suffixes of this program are constants or a base name and hold no
    slash. *)
Definition has_slash (s : string) : bool :=
  negb (string_forallb (fun c => negb (Ascii.eqb c "/")) s).

Definition temp_file (h : Host) (prefix suffix : string) : M string := fun w =>
  if has_slash prefix then (Raise (Builtin "OSError"), w)
  else
    let name := path_join (gettempdir h)
                  (prefix +:+ temp_random h (ntemp w) +:+ suffix) in
    (Ok name,
     {| fs := <[name := CText ""]> (fs w); held := held w; trace := trace w;
        log := log w; ntemp := S (ntemp w) |}).

(** [f.write(c)] and [f.close()] on the file named [name] *)
Definition file_write (name : string) (c : content) : M unit := fun w =>
  (Ok tt, set_fs (<[name := c]> (fs w)) w).

(** [os.remove] *)
Definition os_remove (name : string) : M unit := fun w =>
  match fs w !! name with
  | Some _ => (Ok tt, set_fs (delete name (fs w)) w)
  | None => (Raise (Builtin "OSError"), w)
  end.

(** [_sudo_write_file] *)
Definition _sudo_write_file (h : Host) (filename contents : string) : M unit :=
  let! temp_name := temp_file h "tmp" "" in
  do! file_write temp_name (CText contents) in
  do! _sudo h ["mv"; temp_name; filename] in
  ret tt.

(** [_prog_available_for_root] *)
Definition _prog_available_for_root (h : Host) (prog : string) : M bool := fun w =>
  let which_exitcode := which_status h (trace w) prog in
  (Ok (which_exitcode =? 0), emit (EWhich prog) w).

(** [puppet_is_installed] *)
Definition puppet_is_installed (h : Host) : M bool :=
  _prog_available_for_root h "puppet".

(** [requests.head(url).status_code], [requests.get(url).content] *)
Definition requests_head (h : Host) (url : value) : M Z := fun w =>
  (Ok (head_status h (trace w) url), emit (EHead url) w).
Definition requests_get (h : Host) (url : value) : M string := fun w =>
  (Ok (get_content h (trace w) url), emit (EGet url) w).

(* ===================================================================== *)
(** * Installer *)
(* ===================================================================== *)

Definition DEFAULT_VERSION : string := "3.5.1-1puppetlabs1".

Definition DIRS_local_repo (h : Host) : string := local_repo h.
Definition DIRS_local_custom_facts : string := "/opt/cloudify/puppet/facts".
Definition DIRS_cloudify_module : string := "/opt/cloudify/puppet/modules/cloudify".

(** [DIRS.values()], here in the order of the source text (CPython lists
    them in hash order; nothing below depends on the order). *)
Definition DIRS_values (h : Host) : list string :=
  [DIRS_local_repo h; DIRS_local_custom_facts; DIRS_cloudify_module].

(** [EXTRA_PACKAGES]: the RHEL installer takes it from the mixin. *)
Definition EXTRA_PACKAGES (i : installer_class) : list string :=
  match i with
  | PuppetDebianInstaller => []
  | PuppetRHELInstaller => ["rubygem-json"]
  end.

(** The version the Debian installer looks up, from
    [platform.linux_distribution()] (lines 279-286). *)
Definition debian_release (dist : string * string * string) : result string :=
  let '(_, ver1, ver2) := dist in
  if negb (String.eqb ver2 "") then Ok ver2
  else if endswith "/sid" ver1 then Ok "sid"
  else Raise (PuppetError "Fail to detect Linux distro version").

Definition default_repo_url (ver : string) : string :=
  "http://apt.puppetlabs.com/puppetlabs-release-" +:+ ver +:+ ".deb".

(** [self.props.get('repos', {}).get('deb', {}).get(ver)] *)
Definition repo_override (p : dict) (ver : string) : result value :=
  rbind (value_get (VDict p) "repos" (VDict ∅)) (fun repos =>
  rbind (value_get repos "deb" (VDict ∅)) (fun deb =>
  value_get deb ver VNone)).

(** [get_repo_package_url] *)
Definition get_repo_package_url (h : Host) (m : Manager) : result value :=
  match installer m with
  | PuppetDebianInstaller =>
      rbind (debian_release (linux_distribution h)) (fun ver =>
      rbind (repo_override (props m) ver) (fun url =>
      Ok (if truthy url then url else VStr (default_repo_url ver))))
  | PuppetRHELInstaller => Raise NotImplementedError
  end.

(** [install_package_from_url] *)
Definition install_package_from_url (h : Host) (m : Manager) (url : value)
  : M unit :=
  match installer m with
  | PuppetDebianInstaller =>
      let name := url_path_basename h url in
      let! pkg_file := temp_file h "tmp" ("." +:+ name) in
      let! body := requests_get h url in
      do! file_write pkg_file (CText body) in
      do! _sudo h ["dpkg"; "-i"; pkg_file] in
      os_remove pkg_file
  | PuppetRHELInstaller =>
      let! u := lift (as_str url) in
      do! _sudo h ["rpm"; "-ivh"; u] in
      ret tt
  end.

(** [refresh_packages_cache]: the Debian installer overrides the empty
    method of [PuppetManager]. *)
Definition refresh_packages_cache (h : Host) (m : Manager) : M unit :=
  match installer m with
  | PuppetDebianInstaller => do! _sudo h ["apt-get"; "update"] in ret tt
  | PuppetRHELInstaller => ret tt
  end.

(** [install_package(package_name, package_version)] *)
Definition install_package (h : Host) (m : Manager)
  (package_name : string) (package_version : value) : M unit :=
  let sep := match installer m with
             | PuppetDebianInstaller => "="
             | PuppetRHELInstaller => "-"
             end in
  let tool := match installer m with
              | PuppetDebianInstaller => "apt-get"
              | PuppetRHELInstaller => "yum"
              end in
  let! p := lift (match package_version with
                  | VNone => Ok package_name
                  | v => rbind (py_str v) (fun s => Ok (package_name +:+ sep +:+ s))
                  end) in
  do! _sudo h [tool; "install"; "-y"; p] in
  ret tt.

(** [install_custom_facts] *)
Definition install_custom_facts (h : Host) : M unit :=
  let facts_source_path :=
    path_join (path_join (path_join (plugin_dir h) "puppet") "facts")
      "cloudify_facts.rb" in
  let facts_destination_path := DIRS_local_custom_facts in
  do! _sudo h ["cp"; facts_source_path; facts_destination_path] in
  ret tt.

(** [PuppetManager.install] *)
Definition install (h : Host) (m : Manager) : M unit :=
  with_lock h PUPPET_INSTALL_LOCK (
    let! installed := puppet_is_installed h in
    if installed then ret tt
    else
      let! url := lift (get_repo_package_url h m) in
      let! status_code := requests_head h url in
      if negb (status_code =? 200) then
        let! u := lift (py_str url) in
        raise (PuppetError ("Repo package is not available (at " +:+ u +:+ ")"))
      else
        do! install_package_from_url h m url in
        do! refresh_packages_cache h m in
        do! for_each ["puppet-common"; "puppet"] (fun p =>
              install_package h m p
                (default (VStr DEFAULT_VERSION) (props m !! "version"))) in
        do! for_each (EXTRA_PACKAGES (installer m)) (fun package_name =>
              install_package h m package_name VNone) in
        do! _sudo h ("mkdir" :: "-p" :: DIRS_values h) in
        do! _sudo h ("chmod" :: "700" :: DIRS_values h) in
        install_custom_facts h).

(* ===================================================================== *)
(** * Runner *)
(* ===================================================================== *)

(** [get_modules_path] *)
Definition get_modules_path (h : Host) : string :=
  let local_modules_path := path_join (DIRS_local_repo h) "modules" in
  join ":" (PUPPET_CONF_MODULE_PATH ++ [local_modules_path]).

(** [get_run_env_vars] *)
Definition get_run_env_vars (h : Host) (m : Manager) : list (string * string) :=
  match runner m with
  | PuppetAgentRunner => []
  | PuppetStandaloneRunner => [("FACTER_CLOUDIFY_LOCAL_REPO", DIRS_local_repo h)]
  end.

(** [PuppetAgentRunner._get_config_file_contents], at the time [now] *)
Definition _get_config_file_contents (h : Host) (m : Manager) (now : datetime)
  : result string :=
  let p := props m in
  rbind (as_str (default (VStr "") (p !! "node_name_prefix"))) (fun prefix =>
  rbind (as_str (default (VStr "") (p !! "node_name_suffix"))) (fun suffix =>
  let node_name := prefix +:+ node_id (ctx m) +:+ suffix in
  rbind (strftime_YmdHM now) (fun stamp =>
  let certname := stamp +:+ "-" +:+ node_name in
  rbind (py_str (match environment m with Some e => VStr e | None => VNone end))
    (fun env =>
  rbind (match p !! "server" with
         | Some v => py_str v
         | None => Raise (Builtin "KeyError")
         end) (fun server =>
  Ok (PUPPET_CONF_TPL env (get_modules_path h) server certname node_name)))))).

(** [PuppetStandaloneRunner.get_installed_modules] *)
Fixpoint installed_modules_loop (out : list string) (prev : option string)
  (ret : list (option string)) : list (option string) :=
  match out with
  | [] => ret
  | cur :: out' =>
      installed_modules_loop out' (Some cur)
        (if startswith "(" cur then prev :: ret else ret)
  end.

Definition get_installed_modules (h : Host) : M (list (option string)) :=
  let! oe := _sudo h ["puppet"; "module"; "list"; "--modulepath";
                      get_modules_path h] in
  ret (installed_modules_loop (String.words oe.1) None []).

(** [_url_to_dir]: fetching the archive and unpacking it with [tar] is one
    interaction with the host, which may fail. *)
Definition _url_to_dir (h : Host) (url : value) (dst_dir : string) : M unit :=
  match url with
  | VNone => ret tt
  | _ => fun w =>
      let w1 := emit (EUrlToDir url dst_dir) w in
      match url_to_dir_result h (trace w) url dst_dir with
      | None => (Ok tt, w1)
      | Some e => (Raise e, w1)
      end
  end.

(** One round of [for module in modules] *)
Definition configure_module (h : Host) (module : value) : M unit :=
  let! installed_modules := get_installed_modules h in
  match module with
  | VStr name =>
      if bool_decide (Some name ∈ installed_modules) then ret tt
      else do! _sudo h ["puppet"; "module"; "install"; name] in ret tt
  | VNone =>
      if bool_decide (None ∈ installed_modules) then ret tt
      else raise (Builtin "TypeError")
  | _ => raise (Builtin "TypeError")
  end.

(** [configure] of the two runners *)
Definition configure (h : Host) (m : Manager) : M unit :=
  match runner m with
  | PuppetAgentRunner => fun w =>
      (let! contents := lift (_get_config_file_contents h m (utcnow h (trace w))) in
       _sudo_write_file h "/etc/puppet/puppet.conf" contents) w
  | PuppetStandaloneRunner =>
      with_lock h PUPPET_CONFIG_LOCK (
        let p := props m in
        let! modules := lift (match default (VList []) (p !! "modules") with
                              | VList l => Ok l
                              | _ => Raise (Builtin "TypeError")
                              end) in
        do! for_each modules (configure_module h) in
        (* Download after modules allows overriding *)
        match p !! "download" with
        | Some download =>
            let download := match download with
                            | VList l => l
                            | d => [d]
                            end in
            for_each download (fun dl => _url_to_dir h dl (DIRS_local_repo h))
        | None => ret tt
        end)
  end.

(** [get_runner_cmd] of the two runners *)
Definition get_runner_cmd (h : Host) (m : Manager) : result (list string) :=
  match runner m with
  | PuppetAgentRunner => Ok ["agent"; "--onetime"; "--no-daemonize"]
  | PuppetStandaloneRunner =>
      let cmd := ["apply"; "--modulepath=" +:+ get_modules_path h] in
      let cmd := if str_truthy (environment m)
                 then cmd ++ ["--environment"; default "" (environment m)]
                 else cmd in
      let cmd_done := false in
      let e := execute m in
      let '(cmd, cmd_done) :=
        if str_truthy e
        then (cmd ++ ["--execute"; quote_shell_arg (default "" e)], true)
        else (cmd, cmd_done) in
      let mf := manifest m in
      let '(cmd, cmd_done) :=
        if str_truthy mf
        then (cmd ++ [quote_shell_arg (path_join (DIRS_local_repo h) (default "" mf))],
              true)
        else (cmd, cmd_done) in
      if negb cmd_done then
        Raise (PuppetParamsError ("Either 'execute' or 'manifest' " +:+
                                  "must be specified. None are specified"))
      else Ok cmd
  end.

(** The facts bundle (lines 374-379).  [facts] is the operator's mapping;
    the result is what [facts] holds after the two assignments. *)
Definition facts_bundle (c : Ctx) (facts : dict) : result dict :=
  if bool_decide (is_Some (facts !! "cloudify")) then
    Raise (PuppetError "Puppet attributes must not contain 'cloudify'")
  else
    let cloudify := _context_to_struct c in
    let cloudify := match related c with
                    | Some r => <["related" := VDict (_related_to_struct r)]> cloudify
                    | None => cloudify
                    end in
    Ok (<["cloudify" := VDict cloudify]> facts).

(** The agent command line (lines 387-398) *)
Definition build_cmd (runner_cmd : list string) (tags : option (list string))
  : string :=
  let cmd := ["puppet"] ++ runner_cmd ++
             ["--detailed-exitcodes"; "--logdest"; "console"; "--logdest"; "syslog"] in
  let cmd := match tags with
             | Some (t :: ts) => cmd ++ ["--tags"; join "," (t :: ts)]
             | _ => cmd
             end in
  join " " cmd.

Definition with_run_args (execute manifest : option string) (m : Manager)
  : Manager :=
  {| runner := runner m; installer := installer m; ctx := ctx m;
     props := props m; environment := environment m;
     execute := execute; manifest := manifest |}.

Definition with_props (p : dict) (m : Manager) : Manager :=
  {| runner := runner m; installer := installer m; ctx := ctx m;
     props := p; environment := environment m;
     execute := execute m; manifest := manifest m |}.

(** [t = 'puppet.{0}.{1}.{2}.'.format(ctx.node_name, ctx.node_id,
    os.getpid())] *)
Definition temp_prefix (h : Host) (c : Ctx) : string :=
  "puppet." +:+ node_name c +:+ "." +:+ node_id c +:+ "." +:+
  str_of_Z (getpid h) +:+ ".".

(** [json.dump(facts, facts_file, indent=4)] and [facts_file.close()].
    When the configuration has a [facts] entry and [ctx.properties] is the
    very mapping the manager reads it from, the bundle contains itself
    (facts, cloudify, properties, puppet_config, facts) and [json.dump]
    stops with a [ValueError]. *)
Definition json_dump (h : Host) (m : Manager) (bundle : dict) (name : string)
  : M unit :=
  if properties_shared h && bool_decide (is_Some (props m !! "facts")) then
    do! file_write name CPartialJson in
    raise (Builtin "ValueError")
  else file_write name (CJson (VDict bundle)).

(** [facts = self.props.get('facts', {})] when it goes through lines 375-377
    as a mapping.  For a string or a list the test [in] of line 375 is a
    search, and a hit raises the error of line 376; without a hit the
    assignment of line 377 is a [TypeError], as is the test itself on any
    other value. *)
Fixpoint str_contains (needle s : string) : bool :=
  String.prefix needle s ||
  match s with
  | String _ s' => str_contains needle s'
  | EmptyString => false
  end.

Definition list_contains_str (k : string) (l : list value) : bool :=
  existsb (fun v => match v with VStr x => String.eqb x k | _ => false end) l.

Definition facts_mapping (v : value) : result dict :=
  match v with
  | VDict d => Ok d
  | VStr s =>
      if str_contains "cloudify" s
      then Raise (PuppetError "Puppet attributes must not contain 'cloudify'")
      else Raise (Builtin "TypeError")
  | VList l =>
      if list_contains_str "cloudify" l
      then Raise (PuppetError "Puppet attributes must not contain 'cloudify'")
      else Raise (Builtin "TypeError")
  | _ => Raise (Builtin "TypeError")
  end.

(** What [run] has at hand when it starts the script. *)
Record Prepared : Type := {
  pr_self : Manager;
  pr_facts_file : string;
  pr_run_file : string;
  pr_cmd : string
}.

(** [PuppetRunner.run], lines 369-419: everything up to the execution of
    the run script.  [facts] is the mapping inside [self.props] when the
    key is there: the assignment of line 377 is then seen through
    [self.props] too.  The changed manager is handed back by a run that
    returns; what a run that raises has done to [self] by then (the
    arguments stored at lines 370-371, the assignment of line 377) is not
    followed. *)
Definition run_prepare (h : Host) (m : Manager)
  (tags : option (list string)) (execute manifest : option string)
  : M Prepared :=
  let c := ctx m in
  let m := with_run_args execute manifest m in
  do! install h m in
  do! configure h m in
  let! facts := lift (facts_mapping (default (VDict ∅) (props m !! "facts"))) in
  let! bundle := lift (facts_bundle c facts) in
  let m' := if bool_decide (is_Some (props m !! "facts"))
            then with_props (<["facts" := VDict bundle]> (props m)) m
            else m in
  let t := temp_prefix h c in
  let! facts_file := temp_file h t ".facts_in.json" in
  do! json_dump h m bundle facts_file in
  let! runner_cmd := lift (get_runner_cmd h m) in
  let cmd := build_cmd runner_cmd tags in
  let environ := get_run_env_vars h m in
  let! run_file := temp_file h t ".run.sh" in
  do! file_write run_file
        (CScript {| rs_facterlib := DIRS_local_custom_facts;
                    rs_facts_file := facts_file;
                    rs_environ := environ;
                    rs_cmd := cmd |}) in
  do! _sudo h ["chmod"; "+x"; run_file] in
  ret {| pr_self := m'; pr_facts_file := facts_file;
         pr_run_file := run_file; pr_cmd := cmd |}.

(** [PuppetRunner.run], lines 421-423: the script is executed and the facts
    file removed. *)
Definition run_execute (h : Host) (p : Prepared) : M Manager :=
  do! _sudo h [pr_run_file p] in
  do! os_remove (pr_facts_file p) in
  ret (pr_self p).

(** [PuppetRunner.run] *)
Definition run (h : Host) (m : Manager)
  (tags : option (list string)) (execute manifest : option string)
  : M Manager :=
  let! p := run_prepare h m tags execute manifest in
  run_execute h p.

(* ===================================================================== *)
(** * What a successful preparation of [run] leaves behind *)
(* ===================================================================== *)

(** The names [tempfile] gives to the facts file and to the run script
    when [n] temporary files were created before. *)
Definition facts_file_name (h : Host) (c : Ctx) (n : nat) : string :=
  path_join (gettempdir h) (temp_prefix h c +:+ temp_random h n +:+ ".facts_in.json").
Definition run_file_name (h : Host) (c : Ctx) (n : nat) : string :=
  path_join (gettempdir h) (temp_prefix h c +:+ temp_random h n +:+ ".run.sh").

(** [install] and [configure], the first two steps of [run]. *)
Definition install_and_configure (h : Host) (m : Manager) : M unit :=
  do! install h m in configure h m.

(** The script [run] writes when the runner's command is [rc]. *)
Definition run_script_of (h : Host) (m : Manager) (facts_file : string)
  (rc : list string) (tags : option (list string)) : RunScript :=
  {| rs_facterlib := DIRS_local_custom_facts;
     rs_facts_file := facts_file;
     rs_environ := get_run_env_vars h m;
     rs_cmd := build_cmd rc tags |}.

(** The conditions under which the preparation goes through, from the
    world [w0] that [install] and [configure] leave. *)
Definition prepare_conditions (h : Host) (m : Manager)
  (execute manifest : option string) (w w0 : World)
  (facts bundle : dict) (rc : list string) : Prop :=
  let m0 := with_run_args execute manifest m in
  install_and_configure h m0 w = (Ok tt, w0) /\
  default (VDict ∅) (props m !! "facts") = VDict facts /\
  facts_bundle (ctx m) facts = Ok bundle /\
  has_slash (temp_prefix h (ctx m)) = false /\
  properties_shared h && bool_decide (is_Some (props m !! "facts")) = false /\
  get_runner_cmd h m0 = Ok rc /\
  (sudo_result h (trace w0)
     ["/usr/bin/sudo"; "chmod"; "+x"; run_file_name h (ctx m) (S (ntemp w0))]).1.1 = 0.

Definition prepared (h : Host) (m : Manager)
  (tags : option (list string)) (execute manifest : option string)
  (w0 : World) (bundle : dict) (rc : list string) : Prepared :=
  let m0 := with_run_args execute manifest m in
  {| pr_self := if bool_decide (is_Some (props m !! "facts"))
                then with_props (<["facts" := VDict bundle]> (props m)) m0
                else m0;
     pr_facts_file := facts_file_name h (ctx m) (ntemp w0);
     pr_run_file := run_file_name h (ctx m) (S (ntemp w0));
     pr_cmd := build_cmd rc tags |}.

Definition prepared_world (h : Host) (m : Manager)
  (tags : option (list string)) (execute manifest : option string)
  (w0 : World) (bundle : dict) (rc : list string) : World :=
  let ff := facts_file_name h (ctx m) (ntemp w0) in
  let rf := run_file_name h (ctx m) (S (ntemp w0)) in
  {| fs := <[rf := CScript (run_script_of h (with_run_args execute manifest m)
                              ff rc tags)]>
           (<[rf := CText ""]>
           (<[ff := CJson (VDict bundle)]>
           (<[ff := CText ""]> (fs w0))));
     held := held w0;
     trace := trace w0 ++ [ESudo ["/usr/bin/sudo"; "chmod"; "+x"; rf]];
     log := log w0;
     ntemp := S (S (ntemp w0)) |}.

(** The last character of a string. *)
Fixpoint last_char (s : string) : option ascii :=
  match s with
  | EmptyString => None
  | String a EmptyString => Some a
  | String _ s' => last_char s'
  end.

(* ===================================================================== *)
(** * Notions used to state the properties *)
(* ===================================================================== *)

(** The part of the standalone command before [--execute] and the
    manifest. *)
Definition standalone_base (h : Host) (m : Manager) : list string :=
  ["apply"; "--modulepath=" +:+ get_modules_path h] ++
  (if str_truthy (environment m)
   then ["--environment"; default "" (environment m)] else []).

(** [props['repos']['deb']] has the entry [u] for [ver]. *)
Definition override_entry (p : dict) (ver : string) (u : value) : Prop :=
  exists repos deb,
    p !! "repos" = Some (VDict repos) /\ repos !! "deb" = Some (VDict deb) /\
    deb !! ver = Some u.

(** The override map has no entry for [ver]: there is no [repos], or no
    [deb] in it, or no [ver] in that. *)
Definition no_override_entry (p : dict) (ver : string) : Prop :=
  p !! "repos" = None \/
  exists repos,
    p !! "repos" = Some (VDict repos) /\
    (repos !! "deb" = None \/
     exists deb, repos !! "deb" = Some (VDict deb) /\ deb !! ver = None).

(** A computation that leaves the set of held locks as it found it. *)
Definition preserves_held {A} (m : M A) : Prop :=
  forall w, held (m w).2 = held w.

(* ===================================================================== *)
(** * Concrete hosts, contexts and worlds, for the examples *)
(* ===================================================================== *)

Definition world0 : World :=
  {| fs := ∅; held := ∅; trace := []; log := []; ntemp := 0%nat |}.

(** [os.path.basename(urlparse.urlparse(url).path)] for a plain URL
    ([scheme://host/path], with or without a query or a fragment). *)
Fixpoint cut_at (stop : ascii -> bool) (s : string) : string :=
  match s with
  | EmptyString => EmptyString
  | String c s' => if stop c then EmptyString else String c (cut_at stop s')
  end.

Fixpoint from_slash (s : string) : string :=
  match s with
  | EmptyString => EmptyString
  | String c s' => if Ascii.eqb c "/" then s else from_slash s'
  end.

Fixpoint after_scheme (s : string) : option string :=
  match s with
  | EmptyString => None
  | String c s' =>
      if String.prefix "://" s
      then Some (String.substring 3 (String.length s - 3) s)
      else after_scheme s'
  end.

Fixpoint path_basename (s : string) : string :=
  match s with
  | EmptyString => EmptyString
  | String c s' =>
      if has_slash s' then path_basename s'
      else if Ascii.eqb c "/" then s' else s
  end.

Definition plain_url_basename (url : value) : string :=
  match url with
  | VStr u =>
      let u := cut_at (fun c => Ascii.eqb c "?" || Ascii.eqb c "#") u in
      path_basename (match after_scheme u with
                     | Some rest => from_slash rest
                     | None => u
                     end)
  | _ => ""
  end.

(** A host on which every command succeeds, the agent exits with
    [agent_status] and a run script (the one command of a single word)
    runs as written; lock attempts answer as [acq] says. *)
Definition example_host (dist : string * string * string)
  (acq : list event -> acquire_outcome) (agent_status : Z) : Host :=
  {| env_TMPDIR := None;
     gettempdir := "/tmp";
     getpid := 4242;
     local_repo := "/home/ubuntu/cloudify/puppet";
     plugin_dir := "/opt/plugins/puppet_plugin";
     linux_distribution := dist;
     utcnow := fun _ =>
       {| year := 2014; month := 6; day := 3; hour := 9; minute := 5 |};
     acquire_result := fun hist _ _ => acq hist;
     which_status := fun _ _ => 0;
     sudo_result := fun _ argv =>
       match argv with
       | [_; _] => (script_exit agent_status,
                    "Exit code: " +:+ str_of_Z agent_status +:+ nl, "")
       | _ => (0, "", "")
       end;
     puppet_result := fun _ _ => (agent_status, "", "");
     head_status := fun _ _ => 200;
     get_content := fun _ _ => "";
     url_path_basename := plain_url_basename;
     url_to_dir_result := fun _ _ _ => None;
     temp_random := fun n => "r" +:+ str_of_Z (Z.of_nat n);
     properties_shared := false |}.

Definition host_ubuntu : Host :=
  example_host ("Ubuntu", "precise", "12.04") (fun _ => Locked) 0.

(** The agent reports failed changes. *)
Definition host_agent_fails : Host :=
  example_host ("Ubuntu", "precise", "12.04") (fun _ => Locked) 4.

(** Somebody else keeps the lock. *)
Definition host_busy : Host :=
  example_host ("Ubuntu", "precise", "12.04") (fun _ => LockTimeout) 0.

(** The lock is free at the third attempt. *)
Definition host_third_time : Host :=
  example_host ("Ubuntu", "precise", "12.04")
    (fun hist => if (length hist =? 2)%nat then Locked else LockTimeout) 0.

(** The node [web-3] with the given [puppet_config]. *)
Definition ctx_web3 (config : dict) : Ctx :=
  {| node_id := "web-3";
     node_name := "web";
     blueprint_id := "bp";
     deployment_id := "dep";
     properties := <["puppet_config" := VDict config]> ∅;
     runtime_properties := ∅;
     capabilities := None;
     host_ip := None;
     related := None |}.

Definition agent_config (env : string) : dict :=
  <["environment" := VStr env]> (<["server" := VStr "puppetmaster.example"]> ∅).

Definition standalone_manager (env execute manifest : option string) : Manager :=
  {| runner := PuppetStandaloneRunner;
     installer := PuppetDebianInstaller;
     ctx := ctx_web3 ∅;
     props := ∅;
     environment := env;
     execute := execute;
     manifest := manifest |}.

Definition agent_manager (config : dict) : Manager :=
  {| runner := PuppetAgentRunner;
     installer := PuppetDebianInstaller;
     ctx := ctx_web3 config;
     props := config;
     environment := Some "prod1";
     execute := None;
     manifest := None |}.

Definition example_time : datetime :=
  {| year := 2014; month := 6; day := 3; hour := 9; minute := 5 |}.

(** An override of the repository package for release 12.04. *)
Definition override_12_04 : dict :=
  <["repos" :=
      VDict (<["deb" :=
                 VDict (<["12.04" := VStr "http://mirror.example/puppet.deb"]> ∅)]>
             ∅)]> ∅.

(* ===================================================================== *)
(** * Further notions used to state properties *)
(* ===================================================================== *)

(** How the shell reads a word that is made of quoted parts only: a part
    in single quotes stands for its characters as they are, and so does a
    part in double quotes that has no backslash, dollar or backquote.
    [None]: the word has a character outside quotes, a quote that is not
    closed, or one of these three characters in double quotes. *)
Inductive quoting : Type := Unquoted | InSingle | InDouble.

Fixpoint sh_word_value_from (q : quoting) (s : string) : option string :=
  match s with
  | EmptyString =>
      match q with Unquoted => Some EmptyString | _ => None end
  | String c s' =>
      match q with
      | Unquoted =>
          if Ascii.eqb c "'" then sh_word_value_from InSingle s'
          else if Ascii.eqb c "034" then sh_word_value_from InDouble s'
          else None
      | InSingle =>
          if Ascii.eqb c "'" then sh_word_value_from Unquoted s'
          else String c <$> sh_word_value_from InSingle s'
      | InDouble =>
          if Ascii.eqb c "034" then sh_word_value_from Unquoted s'
          else if Ascii.eqb c "\" || Ascii.eqb c "$" || Ascii.eqb c "`" then None
          else String c <$> sh_word_value_from InDouble s'
      end
  end.

Definition sh_word_value (s : string) : option string :=
  sh_word_value_from Unquoted s.

(** In the list of words [out], [name] stands right before a word that
    begins with an opening parenthesis. *)
Definition followed_by_paren (out : list string) (name : string) : Prop :=
  exists i t, out !! i = Some name /\ out !! S i = Some t /\
              startswith "(" t = true.

(** The two lock files of the manager. *)
Definition install_lock_path (h : Host) : string :=
  path_join (default "/tmp" (env_TMPDIR h)) "puppet-install.lock".
Definition config_lock_path (h : Host) : string :=
  path_join (default "/tmp" (env_TMPDIR h)) "puppet-config.lock".

(** The commands of [get_installed_modules] and of the installation of a
    module. *)
Definition module_list_cmd (h : Host) : list string :=
  ["/usr/bin/sudo"; "puppet"; "module"; "list"; "--modulepath";
   get_modules_path h].
Definition module_install_cmd (name : string) : list string :=
  ["/usr/bin/sudo"; "puppet"; "module"; "install"; name].

(** A host like [h] but for its distribution and for the answers to
    [which], to [requests.head] and to sudo commands. *)
Definition host_variant (dist : string * string * string) (which head : Z)
  (sudo : list string -> Z * string * string) (h : Host) : Host :=
  {| env_TMPDIR := env_TMPDIR h;
     gettempdir := gettempdir h;
     getpid := getpid h;
     local_repo := local_repo h;
     plugin_dir := plugin_dir h;
     linux_distribution := dist;
     utcnow := utcnow h;
     acquire_result := acquire_result h;
     which_status := fun _ _ => which;
     sudo_result := fun _ argv => sudo argv;
     puppet_result := puppet_result h;
     head_status := fun _ _ => head;
     get_content := get_content h;
     url_path_basename := url_path_basename h;
     url_to_dir_result := url_to_dir_result h;
     temp_random := temp_random h;
     properties_shared := properties_shared h |}.

(** Ubuntu without Puppet, whose repository package cannot be reached. *)
Definition host_repo_down : Host :=
  host_variant ("Ubuntu", "precise", "12.04") 1 404 (fun _ => (0, "", ""))
    host_ubuntu.

(** A Red Hat host without Puppet. *)
Definition host_redhat : Host :=
  host_variant ("redhat", "6.5", "Santiago") 1 200 (fun _ => (0, "", ""))
    host_ubuntu.

(** A host on which every sudo command fails. *)
Definition host_sudo_fails : Host :=
  host_variant ("Ubuntu", "precise", "12.04") 1 200 (fun _ => (1, "", "denied"))
    host_ubuntu.

(** A host whose module list shows [puppetlabs-apt]. *)
Definition host_with_apt : Host :=
  host_variant ("Ubuntu", "precise", "12.04") 0 200
    (fun _ => (0, "/etc/puppet/modules puppetlabs-apt (v1.4.0)", ""))
    host_ubuntu.

(** The lock directory cannot be written: the second attempt fails for
    good. *)
Definition host_lock_broken : Host :=
  example_host ("Ubuntu", "precise", "12.04")
    (fun hist => if (length hist =? 1)%nat then LockFailure "LockFailed"
                 else LockTimeout) 0.


(* ===================================================================== *)
(** * Properties *)
(* ===================================================================== *)

Example path_join_tmp : path_join "/tmp" "puppet-install.lock" = "/tmp/puppet-install.lock".
Proof. reflexivity. Qed.

(** ** Strings *)

Lemma string_app_cons (x : ascii) (a b : string) :
  String x a +:+ b = String x (a +:+ b).
Proof. reflexivity. Qed.

Lemma string_app_assoc (a b c : string) : (a +:+ b) +:+ c = a +:+ (b +:+ c).
Proof.
  induction a as [|x a IH]; [reflexivity|].
  by rewrite !string_app_cons, IH.
Qed.

Lemma string_app_nil_r (a : string) : a +:+ "" = a.
Proof.
  induction a as [|x a IH]; [reflexivity|].
  by rewrite string_app_cons, IH.
Qed.

Lemma string_app_length (a b : string) :
  String.length (a +:+ b) = (String.length a + String.length b)%nat.
Proof.
  induction a as [|x a IH]; [reflexivity|].
  rewrite string_app_cons. cbn. by rewrite IH.
Qed.

Lemma contains_app_l (n a b : string) : contains n a -> contains n (a +:+ b).
Proof.
  intros (pre & post & ->). exists pre, (post +:+ b).
  by rewrite !string_app_assoc.
Qed.

Lemma contains_app_r (n a b : string) : contains n b -> contains n (a +:+ b).
Proof.
  intros (pre & post & ->). exists (a +:+ pre), post.
  by rewrite !string_app_assoc.
Qed.

Lemma contains_here (n post : string) : contains n (n +:+ post).
Proof. exists "", post. reflexivity. Qed.

(** Skip the parts of a text up to the one that begins with the needle. *)
Ltac find_in_text :=
  first
    [ solve [ eexists "", _; rewrite ?string_app_assoc; reflexivity ]
    | apply contains_app_r; find_in_text ].

(** ** The exit code of the run script *)

Lemma script_trailer_text :
  join "" (List.map render_sh_stmt script_trailer) =
  "if [ $e -eq 1 ];then exit 1;fi" +:+ nl +:+
  "if [ $(($e & 4)) -eq 4 ];then exit 4;fi" +:+ nl +:+
  "exit 0" +:+ nl.
Proof. reflexivity. Qed.

Lemma render_script_trailer (s : RunScript) :
  exists head,
    render_script s =
    head +:+ rs_cmd s +:+ " || e=$?" +:+ nl +:+ "echo Exit code: $e" +:+ nl +:+
    join "" (List.map render_sh_stmt script_trailer).
Proof.
  eexists. unfold render_script.
  rewrite <- !string_app_assoc. reflexivity.
Qed.

(** The script of a standalone run, as it is written to the file. *)
Example run_script_example :
  render_script
    {| rs_facterlib := "/opt/cloudify/puppet/facts";
       rs_facts_file := "/tmp/puppet.web.web-3.4242.r1.facts_in.json";
       rs_environ := [("FACTER_CLOUDIFY_LOCAL_REPO", "/home/ubuntu/cloudify/puppet")];
       rs_cmd := "puppet apply --modulepath=/etc/puppet/modules --execute 'include x' --detailed-exitcodes --logdest console --logdest syslog" |} =
  "#!/bin/bash -e" +:+ nl +:+
  "export FACTERLIB=/opt/cloudify/puppet/facts" +:+ nl +:+
  "export CLOUDIFY_FACTS_FILE=/tmp/puppet.web.web-3.4242.r1.facts_in.json" +:+ nl +:+
  "export FACTER_CLOUDIFY_LOCAL_REPO='/home/ubuntu/cloudify/puppet'" +:+ nl +:+
  "e=0" +:+ nl +:+
  "puppet apply --modulepath=/etc/puppet/modules --execute 'include x' --detailed-exitcodes --logdest console --logdest syslog || e=$?" +:+ nl +:+
  "echo Exit code: $e" +:+ nl +:+
  "if [ $e -eq 1 ];then exit 1;fi" +:+ nl +:+
  "if [ $(($e & 4)) -eq 4 ];then exit 4;fi" +:+ nl +:+
  "exit 0" +:+ nl.
Proof. reflexivity. Qed.

(** C1.  The exit-code translation of the run script: when the agent
    command exits with [e], the script exits with 1 if [e = 1], else with 4
    if [e & 4 = 4], else with 0; so 0 and 2 are successes and 1, 4, 5 and 6
    are failures.  The translation is the last three lines of every
    generated script. *)
Theorem script_exit_translation :
  (forall e : Z, 0 <= e ->
     script_exit e = if e =? 1 then 1 else if Z.land e 4 =? 4 then 4 else 0) /\
  (script_exit 0 = 0 /\ script_exit 2 = 0) /\
  (script_exit 1 <> 0 /\ script_exit 4 <> 0 /\
   script_exit 5 <> 0 /\ script_exit 6 <> 0) /\
  (forall s : RunScript,
     exists head,
       render_script s =
       head +:+ "if [ $e -eq 1 ];then exit 1;fi" +:+ nl +:+
       "if [ $(($e & 4)) -eq 4 ];then exit 4;fi" +:+ nl +:+
       "exit 0" +:+ nl).
Proof.
  split; [|split; [|split]].
  - intros e _. reflexivity.
  - split; reflexivity.
  - repeat split; discriminate.
  - intros s. destruct (render_script_trailer s) as [head Hs].
    exists (head +:+ rs_cmd s +:+ " || e=$?" +:+ nl +:+
            "echo Exit code: $e" +:+ nl).
    rewrite Hs, script_trailer_text, !string_app_assoc. reflexivity.
Qed.

Lemma script_exit_translation_witness :
  0 <= 6 /\
  script_exit 6 = if 6 =? 1 then 1 else if Z.land 6 4 =? 4 then 4 else 0.
Proof.
  split; [lia|]. apply (proj1 script_exit_translation 6). lia.
Defined.


(** ** The retrying lock *)

Section LockProperties.

Import RetryingLock.

Variable h : Host.

Lemma repeat_shift {A} (x : A) (l : list A) (j : nat) :
  (l ++ [x]) ++ repeat x j = l ++ repeat x (S j).
Proof. by rewrite <- app_assoc. Qed.

(** [n] attempts that all time out: the loop gives up after exactly
    [n] attempts and the handle is as it was. *)
Lemma enter_loop_timeouts (n : nat) (l : t) (w : World) :
  (forall j, (j < n)%nat ->
     acquire_result h (trace w ++ repeat (attempt l) j) (path l) (sleep l)
     = LockTimeout) ->
  exists w',
    enter_loop h n l w = (Raise (RuntimeError (failure_message l)), l, w') /\
    trace w' = trace w ++ repeat (attempt l) n /\
    held w' = held w /\ fs w' = fs w.
Proof.
  revert w. induction n as [|n IH]; intros w Hall.
  - exists w. cbn. by rewrite app_nil_r.
  - cbn [enter_loop]. unfold file_acquire.
    pose proof (Hall 0%nat ltac:(lia)) as H0. cbn in H0.
    rewrite app_nil_r in H0. rewrite H0.
    match goal with |- context [enter_loop h n l ?w1] =>
      destruct (IH w1) as (w' & Hrun & Htr & Hheld & Hfs) end.
    { intros j Hj. cbn [trace logger_info emit].
      fold (attempt l). rewrite repeat_shift. apply Hall. lia. }
    exists w'. rewrite Hrun. cbn [trace logger_info emit] in Htr.
    fold (attempt l) in Htr. rewrite repeat_shift in Htr.
    repeat split; done.
Qed.

(** Attempt number [k] is the first that succeeds: the loop stops
    there. *)
Lemma enter_loop_success (n k : nat) (l : t) (w : World) :
  (k < n)%nat ->
  (forall j, (j < k)%nat ->
     acquire_result h (trace w ++ repeat (attempt l) j) (path l) (sleep l)
     = LockTimeout) ->
  acquire_result h (trace w ++ repeat (attempt l) k) (path l) (sleep l)
  = Locked ->
  exists w',
    enter_loop h n l w = (Ok tt, set_acquired true l, w') /\
    trace w' = trace w ++ repeat (attempt l) (S k) /\
    held w' = {[ path l ]} ∪ held w /\ fs w' = fs w.
Proof.
  revert n w. induction k as [|k IH]; intros n w Hk Hpre Hk_ok.
  - destruct n as [|n]; [lia|].
    cbn [enter_loop]. unfold file_acquire.
    cbn in Hk_ok. rewrite app_nil_r in Hk_ok. rewrite Hk_ok.
    eexists. split; [reflexivity|]. cbn. done.
  - destruct n as [|n]; [lia|].
    cbn [enter_loop]. unfold file_acquire.
    pose proof (Hpre 0%nat ltac:(lia)) as H0. cbn in H0.
    rewrite app_nil_r in H0. rewrite H0.
    match goal with |- context [enter_loop h n l ?w1] =>
      destruct (IH n w1) as (w' & Hrun & Htr & Hheld & Hfs) end.
    { lia. }
    { intros j Hj. cbn [trace logger_info emit].
      fold (attempt l). rewrite repeat_shift. apply Hpre. lia. }
    { cbn [trace logger_info emit].
      fold (attempt l). rewrite repeat_shift. apply Hk_ok. }
    exists w'. rewrite Hrun. cbn [trace logger_info emit] in Htr.
    fold (attempt l) in Htr. rewrite repeat_shift in Htr.
    repeat split; done.
Qed.

(** C2.  A lock with [max_retries = N], [N >= 0]: when every attempt
    times out, entering the scope makes exactly [N] acquisition attempts
    and then raises the error whose message names the lock file path, and
    the handle's [acquired] flag is false afterwards; when some attempt
    succeeds, entering returns at once with [acquired] true and no further
    attempt is made. *)
Theorem enter_retries (lock_name : string) (N timeout : Z) (w : World) :
  0 <= N ->
  let l := init h lock_name N timeout in
  ((forall j, (j < Z.to_nat N)%nat ->
      acquire_result h (trace w ++ repeat (attempt l) j) (path l) timeout
      = LockTimeout) ->
   exists l' w' attempts,
     enter h l w =
       (Raise (RuntimeError ("Failed to lock the file '" +:+ path l +:+ "'.")),
        l', w') /\
     trace w' = trace w ++ attempts /\
     attempts = repeat (EAcquire (path l) timeout) (Z.to_nat N) /\
     Z.of_nat (length attempts) = N /\
     acquired l' = false /\
     held w' = held w)
  /\
  (forall k : nat,
     (k < Z.to_nat N)%nat ->
     (forall j, (j < k)%nat ->
        acquire_result h (trace w ++ repeat (attempt l) j) (path l) timeout
        = LockTimeout) ->
     acquire_result h (trace w ++ repeat (attempt l) k) (path l) timeout
     = Locked ->
     exists l' w',
       enter h l w = (Ok tt, l', w') /\
       trace w' = trace w ++ repeat (EAcquire (path l) timeout) (S k) /\
       acquired l' = true /\
       path l ∈ held w').
Proof.
  intros HN l. split.
  - intros Hall.
    destruct (enter_loop_timeouts (Z.to_nat N) l
                (logger_info ("Using lock file " +:+ path l) w))
      as (w' & Hrun & Htr & Hheld & _); [exact Hall|].
    exists l, w', (repeat (EAcquire (path l) timeout) (Z.to_nat N)).
    repeat split; try done.
    rewrite repeat_length. lia.
  - intros k Hk Hpre Hok.
    destruct (enter_loop_success (Z.to_nat N) k l
                (logger_info ("Using lock file " +:+ path l) w))
      as (w' & Hrun & Htr & Hheld & _); [exact Hk|exact Hpre|exact Hok|].
    exists (set_acquired true l), w'.
    repeat split; try done.
    rewrite Hheld. set_solver.
Qed.

(** Leaving with a handle that was never acquired does nothing. *)
Lemma exit_unacquired (l : t) (w : World) :
  acquired l = false -> exit l w = (Ok tt, l, w).
Proof. intros Hl. unfold exit. by rewrite Hl. Qed.

(** Leaving with an acquired handle releases the file lock. *)
Lemma exit_acquired (l : t) (w : World) :
  acquired l = true -> path l ∈ held w ->
  exists w',
    exit l w = (Ok tt, set_acquired false l, w') /\
    trace w' = trace w ++ [ERelease (path l)] /\
    held w' = held w ∖ {[ path l ]} /\ fs w' = fs w.
Proof.
  intros Hl Hheld. unfold exit, file_release. rewrite Hl. cbn [negb].
  rewrite bool_decide_eq_true_2 by done.
  eexists. split; [reflexivity|]. done.
Qed.

(** C3.  Leaving the scope when the lock was never acquired performs no
    release and raises nothing: handle and world are unchanged.  Leaving
    the scope of an acquired handle releases the file lock, whether the
    guarded body returned or raised (the body's own outcome [r] is what the
    [with] statement yields), and the [acquired] flag is false
    afterwards. *)
Theorem exit_releases (l : t) (w : World) :
  (acquired l = false -> exit l w = (Ok tt, l, w)) /\
  (acquired l = true -> path l ∈ held w ->
   exists l' w',
     exit l w = (Ok tt, l', w') /\
     acquired l' = false /\
     trace w' = trace w ++ [ERelease (path l)] /\
     path l ∉ held w') /\
  (forall (A : Type) (body : M A) (l1 : t) (w1 : World),
     enter h l w = (Ok tt, l1, w1) ->
     held (body w1).2 = held w1 ->
     exists l2 w3,
       scope h l body w = ((body w1).1, l2, w3) /\
       acquired l2 = false /\
       trace w3 = trace (body w1).2 ++ [ERelease (path l)] /\
       path l ∉ held w3).
Proof.
  split; [apply exit_unacquired|split].
  - intros Hl Hheld.
    destruct (exit_acquired l w Hl Hheld) as (w' & Hex & Htr & Hh & _).
    exists (set_acquired false l), w'. repeat split; try done.
    rewrite Hh. set_solver.
  - intros A body l1 w1 Henter Hbody.
    assert (acquired l1 = true /\ path l1 = path l /\ path l ∈ held w1)
      as (Hl1 & Hp & Hheld).
    { unfold enter in Henter.
      revert Henter. generalize (logger_info ("Using lock file " +:+ path l) w).
      induction (Z.to_nat (retries l)) as [|n IH]; intros w0; [discriminate|].
      cbn [enter_loop]. unfold file_acquire.
      destruct (acquire_result h (trace w0) (path l) (sleep l)).
      - intros [= <- <-]. cbn. split; [done|split; [done|set_solver]].
      - apply IH.
      - discriminate. }
    unfold scope. rewrite Henter.
    destruct (body w1) as [r w2] eqn:Hb. cbn [fst snd] in *.
    destruct (exit_acquired l1 w2 Hl1) as (w3 & Hex & Htr & Hh & _).
    { rewrite Hp, Hbody. exact Hheld. }
    rewrite Hex. exists (set_acquired false l1), w3.
    rewrite <- Hp. repeat split; try done.
    rewrite Hh. set_solver.
Qed.

End LockProperties.

Lemma enter_retries_witness :
  0 <= 3 /\
  (exists l' w' attempts,
     RetryingLock.enter host_busy
       (RetryingLock.init host_busy "puppet-install.lock" 3 10) world0 =
       (Raise (RuntimeError "Failed to lock the file '/tmp/puppet-install.lock'."),
        l', w') /\
     trace w' = trace world0 ++ attempts /\
     attempts = repeat (EAcquire "/tmp/puppet-install.lock" 10) (Z.to_nat 3) /\
     Z.of_nat (length attempts) = 3 /\
     RetryingLock.acquired l' = false /\
     held w' = held world0) /\
  (exists l' w',
     RetryingLock.enter host_third_time
       (RetryingLock.init host_third_time "puppet-install.lock" 3 10) world0 =
       (Ok tt, l', w') /\
     trace w' = trace world0 ++ repeat (EAcquire "/tmp/puppet-install.lock" 10) 3 /\
     RetryingLock.acquired l' = true /\
     "/tmp/puppet-install.lock" ∈ held w').
Proof.
  split; [lia|split].
  - apply (proj1 (enter_retries host_busy "puppet-install.lock" 3 10 world0
                    ltac:(lia))).
    intros j _. reflexivity.
  - apply (proj2 (enter_retries host_third_time "puppet-install.lock" 3 10 world0
                    ltac:(lia)) 2%nat).
    + vm_compute. lia.
    + intros j Hj. destruct j as [|[|j]]; [reflexivity|reflexivity|lia].
    + reflexivity.
Defined.

Lemma exit_releases_witness :
  let l0 := RetryingLock.init host_ubuntu "puppet-config.lock" 30 10 in
  let l := RetryingLock.set_acquired true l0 in
  let w := set_held {[ "/tmp/puppet-config.lock" ]} world0 in
  (RetryingLock.acquired l0 = false /\
   RetryingLock.exit l0 world0 = (Ok tt, l0, world0)) /\
  (RetryingLock.acquired l = true /\ RetryingLock.path l ∈ held w /\
   exists l' w',
     RetryingLock.exit l w = (Ok tt, l', w') /\
     RetryingLock.acquired l' = false /\
     trace w' = trace w ++ [ERelease (RetryingLock.path l)] /\
     RetryingLock.path l ∉ held w') /\
  (let body : M nat := raise (PuppetError "the body fails") in
   exists l1 w1 l2 w3,
     RetryingLock.enter host_ubuntu l0 world0 = (Ok tt, l1, w1) /\
     held (body w1).2 = held w1 /\
     RetryingLock.scope host_ubuntu l0 body world0 = ((body w1).1, l2, w3) /\
     RetryingLock.acquired l2 = false /\
     trace w3 = trace (body w1).2 ++ [ERelease (RetryingLock.path l0)] /\
     RetryingLock.path l0 ∉ held w3).
Proof.
  intros l0 l w.
  assert (H0 : RetryingLock.acquired l0 = false) by reflexivity.
  assert (Hl : RetryingLock.acquired l = true) by reflexivity.
  assert (Hw : RetryingLock.path l ∈ held w) by (vm_compute; reflexivity).
  split; [|split].
  - split; [exact H0|].
    exact (proj1 (exit_releases host_ubuntu l0 world0) H0).
  - split; [exact Hl|split; [exact Hw|]].
    exact (proj1 (proj2 (exit_releases host_ubuntu l w)) Hl Hw).
  - intros body. subst body.
    destruct (RetryingLock.enter host_ubuntu l0 world0) as [[r l1] w1] eqn:He.
    assert (Hr : r = Ok tt) by (vm_compute in He; congruence). subst r.
    assert (Hb : held ((raise (A:=nat) (PuppetError "the body fails")) w1).2
                 = held w1) by reflexivity.
    exists l1, w1.
    destruct (proj2 (proj2 (exit_releases host_ubuntu l0 world0)) nat
                (raise (PuppetError "the body fails")) l1 w1 He Hb)
      as (l2 & w3 & H).
    exists l2, w3. split; [reflexivity|split; [exact Hb|exact H]].
Defined.

(** *** The locks of [install] and [configure] are given back *)

Lemma preserves_held_ret {A} (a : A) : preserves_held (ret a).
Proof. by intros w. Qed.

Lemma preserves_held_raise {A} (e : exn) : preserves_held (raise (A:=A) e).
Proof. by intros w. Qed.

Lemma preserves_held_lift {A} (r : result A) : preserves_held (lift r).
Proof. by intros w. Qed.

Lemma preserves_held_bind {A B} (m : M A) (f : A -> M B) :
  preserves_held m -> (forall a, preserves_held (f a)) ->
  preserves_held (bind m f).
Proof.
  intros Hm Hf w. unfold bind. specialize (Hm w).
  destruct (m w) as [[a|e] w1]; cbn [snd] in *; [|exact Hm].
  by rewrite Hf.
Qed.

Lemma preserves_held_for_each {A} (l : list A) (body : A -> M unit) :
  (forall a, preserves_held (body a)) -> preserves_held (for_each l body).
Proof.
  intros Hb. induction l as [|x l IH]; [apply preserves_held_ret|].
  cbn [for_each]. by apply preserves_held_bind.
Qed.

Lemma sudo_effect_held (args : list string) (w : World) :
  held (sudo_effect args w) = held w.
Proof.
  unfold sudo_effect.
  destruct args as [|? [|? [|? [|? ?]]]]; try reflexivity.
  destruct (String.eqb _ _); [|reflexivity]. by destruct (fs w !! _).
Qed.

Lemma preserves_held_sudo (h : Host) (args : list string) :
  preserves_held (_sudo h args).
Proof.
  intros w. unfold _sudo.
  destruct (sudo_result h (trace w) ("/usr/bin/sudo" :: args)) as [[st out] err].
  destruct (st =? 0); cbn [snd]; [|reflexivity].
  by rewrite sudo_effect_held.
Qed.

Lemma preserves_held_temp_file (h : Host) (prefix suffix : string) :
  preserves_held (temp_file h prefix suffix).
Proof. intros w. unfold temp_file. by destruct (has_slash prefix). Qed.

Lemma preserves_held_file_write (name : string) (c : content) :
  preserves_held (file_write name c).
Proof. by intros w. Qed.

Lemma preserves_held_os_remove (name : string) : preserves_held (os_remove name).
Proof. intros w. unfold os_remove. by destruct (fs w !! name). Qed.

Create HintDb held discriminated.
#[local] Hint Resolve preserves_held_ret preserves_held_raise preserves_held_lift
  preserves_held_for_each preserves_held_sudo preserves_held_temp_file
  preserves_held_file_write preserves_held_os_remove : held.

(** Splits a chain of [bind]s and closes the leaves with the hints. *)
Ltac held_steps :=
  repeat first
    [ apply preserves_held_bind; [|intros ?]
    | solve [ auto with held ]
    | match goal with
      | |- preserves_held (if ?b then _ else _) => destruct b
      | |- preserves_held (match ?x with _ => _ end) => destruct x
      end ].

Lemma preserves_held_install_body (h : Host) (m : Manager) :
  preserves_held (
    let! installed := puppet_is_installed h in
    if installed then ret tt
    else
      let! url := lift (get_repo_package_url h m) in
      let! status_code := requests_head h url in
      if negb (status_code =? 200) then
        let! u := lift (py_str url) in
        raise (PuppetError ("Repo package is not available (at " +:+ u +:+ ")"))
      else
        do! install_package_from_url h m url in
        do! refresh_packages_cache h m in
        do! for_each ["puppet-common"; "puppet"] (fun p =>
              install_package h m p
                (default (VStr DEFAULT_VERSION) (props m !! "version"))) in
        do! for_each (EXTRA_PACKAGES (installer m)) (fun package_name =>
              install_package h m package_name VNone) in
        do! _sudo h ("mkdir" :: "-p" :: DIRS_values h) in
        do! _sudo h ("chmod" :: "700" :: DIRS_values h) in
        install_custom_facts h).
Proof.
  assert (Hpkg : forall name v, preserves_held (install_package h m name v)).
  { intros name v. unfold install_package. held_steps. }
  unfold puppet_is_installed, install_package_from_url, refresh_packages_cache,
    install_custom_facts.
  held_steps; try (by intros w).
  all: apply preserves_held_for_each; intros ?; apply Hpkg.
Qed.

(** What [__enter__] does to the set of held locks. *)
Lemma enter_held (h : Host) (l : RetryingLock.t) (w : World) :
  match RetryingLock.enter h l w with
  | (Ok _, l1, w1) =>
      RetryingLock.acquired l1 = true /\
      RetryingLock.path l1 = RetryingLock.path l /\
      held w1 = {[ RetryingLock.path l ]} ∪ held w
  | (Raise _, _, w1) => held w1 = held w
  end.
Proof.
  unfold RetryingLock.enter.
  change (held w) with (held (logger_info ("Using lock file " +:+ RetryingLock.path l) w)).
  generalize (logger_info ("Using lock file " +:+ RetryingLock.path l) w).
  induction (Z.to_nat (RetryingLock.retries l)) as [|n IH]; intros w0;
    [reflexivity|].
  cbn [RetryingLock.enter_loop]. unfold RetryingLock.file_acquire.
  destruct (acquire_result h (trace w0) _ _); [done| |done].
  match goal with
  | |- context [RetryingLock.enter_loop h n l ?w1] => exact (IH w1)
  end.
Qed.

(** A [with RetryingLock(...)] block whose body leaves the locks alone
    gives its own lock back, however the block ends. *)
Lemma with_lock_held {A} (h : Host) (name : string) (retries sleep : Z)
  (body : M A) (w : World) :
  preserves_held body ->
  RetryingLock.path (RetryingLock.init h name retries sleep) ∉ held w ->
  held (with_lock h (name, retries, sleep) body w).2 = held w.
Proof.
  intros Hbody Hfree. unfold with_lock, RetryingLock.scope.
  set (l := RetryingLock.init h name retries sleep) in *.
  pose proof (enter_held h l w) as He.
  destruct (RetryingLock.enter h l w) as [[[[]|e] l1] w1]; [|exact He].
  destruct He as (Hacq & Hpath & Hheld).
  specialize (Hbody w1). destruct (body w1) as [r w2]. cbn [snd] in Hbody.
  unfold RetryingLock.exit, RetryingLock.file_release.
  rewrite Hacq, Hpath. cbn [negb].
  rewrite bool_decide_eq_true_2 by (rewrite Hbody, Hheld; set_solver).
  cbn [snd held set_held logger_info emit].
  rewrite Hbody, Hheld. set_solver.
Qed.

(** [install] never keeps the install lock: not when it returns and not
    when it raises. *)
Lemma install_gives_lock_back (h : Host) (m : Manager) (w : World) :
  path_join (default "/tmp" (env_TMPDIR h)) "puppet-install.lock" ∉ held w ->
  held (install h m w).2 = held w.
Proof.
  intros Hfree. unfold install, PUPPET_INSTALL_LOCK.
  apply with_lock_held; [apply preserves_held_install_body|exact Hfree].
Qed.

Lemma preserves_held_url_to_dir (h : Host) (url : value) (dst : string) :
  preserves_held (_url_to_dir h url dst).
Proof.
  intros w. unfold _url_to_dir.
  destruct url; try reflexivity;
    by destruct (url_to_dir_result h (trace w) _ dst).
Qed.

Lemma preserves_held_configure_module (h : Host) (module : value) :
  preserves_held (configure_module h module).
Proof. unfold configure_module, get_installed_modules. held_steps. Qed.

(** [configure] never keeps the configure lock (the agent runner does
    not take it at all). *)
Lemma configure_gives_lock_back (h : Host) (m : Manager) (w : World) :
  path_join (default "/tmp" (env_TMPDIR h)) "puppet-config.lock" ∉ held w ->
  held (configure h m w).2 = held w.
Proof.
  intros Hfree. unfold configure. destruct (runner m).
  - assert (Hp : forall r : result string, preserves_held (
      let! contents := lift r in
      _sudo_write_file h "/etc/puppet/puppet.conf" contents))
      by (intros r; unfold _sudo_write_file; held_steps).
    apply (Hp (_get_config_file_contents h m (utcnow h (trace w)))).
  - unfold PUPPET_CONFIG_LOCK. apply with_lock_held; [|exact Hfree].
    held_steps.
    all: try (apply preserves_held_for_each; intros ?).
    all: first [ apply preserves_held_configure_module
               | apply preserves_held_url_to_dir ].
Qed.

(** ** The environment name *)

Lemma env_sub_char_spec (a : ascii) :
  env_sub_char a =
  if bool_decide (a ∈ ["-"; "."; " "]%char) then "_"%char else a.
Proof.
  unfold env_sub_char.
  destruct (Ascii.eqb_spec a "-") as [->|H1]; [reflexivity|].
  destruct (Ascii.eqb_spec a " ") as [->|H2]; [reflexivity|].
  destruct (Ascii.eqb_spec a ".") as [->|H3]; [reflexivity|].
  cbn [orb]. rewrite bool_decide_eq_false_2; [reflexivity|].
  rewrite !elem_of_cons, elem_of_nil. tauto.
Qed.

Lemma normalize_environment_get (s : string) (i : nat) :
  String.get i (normalize_environment s) = env_sub_char <$> String.get i s.
Proof.
  revert i. induction s as [|a s IH]; intros i; [reflexivity|].
  destruct i as [|i]; [reflexivity|]. cbn. apply IH.
Qed.

Lemma normalize_environment_length (s : string) :
  String.length (normalize_environment s) = String.length s.
Proof. induction s as [|a s IH]; [reflexivity|]. cbn. by rewrite IH. Qed.

Lemma env_sub_char_idem (a : ascii) : env_sub_char (env_sub_char a) = env_sub_char a.
Proof.
  unfold env_sub_char.
  destruct (Ascii.eqb a "-" || Ascii.eqb a " " || Ascii.eqb a ".") eqn:E;
    [reflexivity|].
  by rewrite E.
Qed.

Lemma normalize_environment_idem (s : string) :
  normalize_environment (normalize_environment s) = normalize_environment s.
Proof.
  induction s as [|a s IH]; [reflexivity|].
  cbn. by rewrite env_sub_char_idem, IH.
Qed.

Lemma string_forallb_get (p : ascii -> bool) (s : string) :
  string_forallb p s = true <->
  forall i a, String.get i s = Some a -> p a = true.
Proof.
  induction s as [|x s IH]; cbn.
  - split; [intros _ i a|]; done.
  - rewrite andb_true_iff, IH. split.
    + intros [Hx Hs] [|i] a; cbn; [by intros [= <-]|apply Hs].
    + intros H. split; [apply (H 0%nat); reflexivity|].
      intros i a Hi. apply (H (S i)). exact Hi.
Qed.

Lemma PUPPET_ENV_RE_match_spec (s : string) :
  PUPPET_ENV_RE_match s = true <->
  s <> "" /\ forall i a, String.get i s = Some a -> env_char a = true.
Proof.
  rewrite <- string_forallb_get.
  destruct s as [|x s]; cbn; [split; [done|by intros [? _]]|].
  split; [by intros ->|by intros [_ ->]].
Qed.

(** A name that matches is left alone by the normalisation: none of its
    characters is one of the three that are replaced. *)
Lemma env_char_fixed (a : ascii) : env_char a = true -> env_sub_char a = a.
Proof.
  unfold env_sub_char.
  destruct (Ascii.eqb_spec a "-") as [->|_]; [discriminate|].
  destruct (Ascii.eqb_spec a " ") as [->|_]; [discriminate|].
  destruct (Ascii.eqb_spec a ".") as [->|_]; [discriminate|].
  reflexivity.
Qed.

Lemma normalize_environment_fixed (s : string) :
  string_forallb env_char s = true -> normalize_environment s = s.
Proof.
  induction s as [|a s IH]; [reflexivity|]. cbn.
  rewrite andb_true_iff. intros [Ha Hs].
  by rewrite env_char_fixed, IH.
Qed.

(** A replaced character makes the name invalid: an underscore is not
    in [[a-z0-9]]. *)
Lemma replaced_is_rejected (s : string) (i : nat) (a : ascii) :
  String.get i s = Some a -> a ∈ ["-"; "."; " "]%char ->
  PUPPET_ENV_RE_match (normalize_environment s) = false.
Proof.
  intros Hi Ha.
  destruct (PUPPET_ENV_RE_match (normalize_environment s)) eqn:E; [|reflexivity].
  apply PUPPET_ENV_RE_match_spec in E as [_ E].
  specialize (E i (env_sub_char a)).
  rewrite normalize_environment_get, Hi in E. specialize (E eq_refl).
  rewrite env_sub_char_spec, bool_decide_eq_true_2 in E by done.
  discriminate.
Qed.

(** C4.  Environment normalisation replaces every ['-'], ['.'] and space
    by ['_'] and leaves the other characters alone; [set_environment]
    rejects the configuration with a parameter error unless the normalised
    name is a non-empty string of [[a-z0-9]], and stores the normalised name
    otherwise; the normalisation is idempotent. *)
Theorem environment_normalization :
  (forall s : string,
     String.length (normalize_environment s) = String.length s /\
     forall i a, String.get i s = Some a ->
       String.get i (normalize_environment s) =
       Some (if bool_decide (a ∈ ["-"; "."; " "]%char) then "_"%char else a)) /\
  (forall (m : Manager) (s : string),
     (PUPPET_ENV_RE_match (normalize_environment s) = false ->
      exists msg, set_environment m (VStr s) = Raise (PuppetParamsError msg)) /\
     (PUPPET_ENV_RE_match (normalize_environment s) = true ->
      exists m', set_environment m (VStr s) = Ok m' /\
                 environment m' = Some (normalize_environment s))) /\
  (forall s : string,
     PUPPET_ENV_RE_match s = true <->
     s <> "" /\
     forall i a, String.get i s = Some a ->
       is_lower_alpha a = true \/ is_digit a = true) /\
  (forall s : string,
     normalize_environment (normalize_environment s) = normalize_environment s).
Proof.
  split; [|split; [|split]].
  - intros s. split; [apply normalize_environment_length|].
    intros i a Hi.
    by rewrite normalize_environment_get, Hi, <- env_sub_char_spec.
  - intros m s. unfold set_environment. split; intros ->; cbn [negb]; eauto.
  - intros s. rewrite PUPPET_ENV_RE_match_spec.
    unfold env_char. setoid_rewrite orb_true_iff. reflexivity.
  - apply normalize_environment_idem.
Qed.

Lemma environment_normalization_witness :
  (String.get 2 "my-env.1 x" = Some "-"%char /\
   String.get 2 (normalize_environment "my-env.1 x") = Some "_"%char) /\
  (PUPPET_ENV_RE_match (normalize_environment "my-env.1 x") = false /\
   exists msg,
     set_environment (standalone_manager None None None) (VStr "my-env.1 x")
     = Raise (PuppetParamsError msg)) /\
  (PUPPET_ENV_RE_match (normalize_environment "prod1") = true /\
   exists m',
     set_environment (standalone_manager None None None) (VStr "prod1") = Ok m' /\
     environment m' = Some (normalize_environment "prod1")).
Proof.
  split; [|split].
  - split; [reflexivity|].
    exact (proj2 (proj1 environment_normalization "my-env.1 x") 2%nat "-"%char
             eq_refl).
  - split; [reflexivity|].
    exact (proj1 (proj1 (proj2 environment_normalization)
                    (standalone_manager None None None) "my-env.1 x") eq_refl).
  - split; [reflexivity|].
    exact (proj2 (proj1 (proj2 environment_normalization)
                    (standalone_manager None None None) "prod1") eq_refl).
Defined.

(** ** The agent's configuration file *)

Lemma fixed_digits_length (width : nat) (n : Z) (acc : string) :
  String.length (fixed_digits width n acc) = (width + String.length acc)%nat.
Proof.
  revert n acc. induction width as [|width IH]; intros n acc; [reflexivity|].
  cbn [fixed_digits]. rewrite IH. cbn. lia.
Qed.

Lemma digit_char_is_digit (d : Z) : is_digit (digit_char d) = true.
Proof.
  unfold is_digit, digit_char.
  assert (0 <= d mod 10 < 10) as Hd by (apply Z.mod_pos_bound; lia).
  rewrite N_ascii_embedding by lia.
  apply andb_true_iff. split; apply N.leb_le; lia.
Qed.

Lemma fixed_digits_digits (width : nat) (n : Z) (acc : string) :
  string_forallb is_digit acc = true ->
  string_forallb is_digit (fixed_digits width n acc) = true.
Proof.
  revert n acc. induction width as [|width IH]; intros n acc Hacc; [exact Hacc|].
  cbn [fixed_digits]. apply IH. cbn. by rewrite digit_char_is_digit, Hacc.
Qed.

Lemma string_forallb_app (p : ascii -> bool) (a b : string) :
  string_forallb p (a +:+ b) = string_forallb p a && string_forallb p b.
Proof.
  induction a as [|x a IH]; [reflexivity|].
  rewrite string_app_cons. cbn. by rewrite IH, andb_assoc.
Qed.

Lemma fixed_digits_acc (width : nat) (n : Z) (acc : string) :
  fixed_digits width n acc = fixed_digits width n "" +:+ acc.
Proof.
  revert n acc. induction width as [|width IH]; intros n acc; [reflexivity|].
  cbn [fixed_digits]. rewrite (IH _ (String _ acc)), (IH _ (String _ "")).
  by rewrite string_app_assoc, string_app_cons.
Qed.

Lemma decimal_from_app (acc : Z) (a b : string) :
  decimal_from acc (a +:+ b) = decimal_from (decimal_from acc a) b.
Proof.
  revert acc. induction a as [|x a IH]; intros acc; [reflexivity|].
  rewrite string_app_cons. cbn [decimal_from]. apply IH.
Qed.

Lemma digit_value_digit_char (d : Z) : digit_value (digit_char d) = d mod 10.
Proof.
  unfold digit_value, digit_char.
  assert (0 <= d mod 10 < 10) as Hd by (apply Z.mod_pos_bound; lia).
  rewrite N_ascii_embedding by lia. lia.
Qed.

(** Reading [n] written on [width] digits gives [n] back, up to the
    digits that do not fit. *)
Lemma decimal_value_fixed_digits (width : nat) (n : Z) :
  decimal_value (fixed_digits width n "") = n mod 10 ^ Z.of_nat width.
Proof.
  unfold decimal_value. revert n.
  induction width as [|width IH]; intros n.
  - cbn. by rewrite Z.mod_1_r.
  - cbn [fixed_digits]. rewrite fixed_digits_acc, decimal_from_app, IH.
    cbn [decimal_from]. rewrite digit_value_digit_char.
    rewrite Nat2Z.inj_succ, Z.pow_succ_r by lia.
    rewrite (Z.rem_mul_r n 10 (10 ^ Z.of_nat width)) by lia. lia.
Qed.

(** The time stamp of the certificate name is twelve digits, and they
    read as the year, month, day, hour and minute of the time. *)
Lemma strftime_YmdHM_digits (d : datetime) :
  1900 <= year d ->
  exists stamp,
    strftime_YmdHM d = Ok stamp /\
    String.length stamp = 12%nat /\ string_forallb is_digit stamp = true.
Proof.
  intros Hy. unfold strftime_YmdHM.
  destruct (Z.ltb_spec (year d) 1900) as [?|_]; [lia|].
  eexists. split; [reflexivity|]. split.
  - rewrite !string_app_length, !fixed_digits_length. reflexivity.
  - rewrite !string_forallb_app, !fixed_digits_digits; reflexivity.
Qed.

Lemma strftime_YmdHM_reads_back (d : datetime) (stamp : string) :
  valid_datetime d ->
  strftime_YmdHM d = Ok stamp ->
  is_YmdHM stamp d.
Proof.
  intros (Hy & Hmo & Hd & Hh & Hmi). unfold strftime_YmdHM.
  destruct (year d <? 1900); [discriminate|]. intros [= <-].
  exists (fixed_digits 4 (year d) ""), (fixed_digits 2 (month d) ""),
         (fixed_digits 2 (day d) ""), (fixed_digits 2 (hour d) ""),
         (fixed_digits 2 (minute d) "").
  rewrite !fixed_digits_length, !decimal_value_fixed_digits.
  split; [reflexivity|].
  change (10 ^ Z.of_nat 4) with 10000. change (10 ^ Z.of_nat 2) with 100.
  rewrite !Z.mod_small by lia. repeat split; reflexivity.
Qed.

Lemma puppet_config_web3 (config : dict) :
  puppet_config (ctx_web3 config) = Ok config.
Proof. unfold puppet_config, ctx_web3. cbn. by rewrite lookup_insert_eq. Qed.

Lemma agent_config_lookup (env : string) :
  agent_config env !! "server" = Some (VStr "puppetmaster.example") /\
  agent_config env !! "environment" = Some (VStr env) /\
  agent_config env !! "node_name_prefix" = None /\
  agent_config env !! "node_name_suffix" = None.
Proof. unfold agent_config. repeat split; by simplify_map_eq. Qed.

Lemma agent_runner_selected (env : string) :
  get_runner_class (ctx_web3 (agent_config env)) = Ok PuppetAgentRunner.
Proof.
  unfold get_runner_class. rewrite puppet_config_web3. cbn [rbind].
  destruct (agent_config_lookup env) as (Hs & _).
  rewrite Hs. by rewrite bool_decide_eq_true_2 by eauto.
Qed.

Lemma PuppetManager_agent (h : Host) (i : installer_class) (env : string) :
  get_installer_class h = Ok i ->
  PuppetManager h (ctx_web3 (agent_config env)) =
  set_environment
    {| runner := PuppetAgentRunner; installer := i;
       ctx := ctx_web3 (agent_config env); props := agent_config env;
       environment := None; execute := None; manifest := None |}
    (VStr env).
Proof.
  intros Hi. unfold PuppetManager.
  rewrite agent_runner_selected, Hi, puppet_config_web3. cbn [rbind].
  unfold process_properties. cbn [runner props].
  destruct (agent_config_lookup env) as (_ & He & _). by rewrite He.
Qed.

(** The configuration of C5 as the specification gives it: the
    environment [Prod-1] is turned into [Prod_1], which the check of
    [set_environment] refuses; no orchestrator is built and nothing is
    rendered. *)
Lemma Prod_1_is_rejected :
  get_runner_class (ctx_web3 (agent_config "Prod-1")) = Ok PuppetAgentRunner /\
  PuppetManager host_ubuntu (ctx_web3 (agent_config "Prod-1")) =
    Raise (PuppetParamsError
             ("puppet_config.environment must contain only alphanumeric " +:+
              "characters, you gave 'Prod_1'")) /\
  ~ (exists m now conf,
       PuppetManager host_ubuntu (ctx_web3 (agent_config "Prod-1")) = Ok m /\
       _get_config_file_contents host_ubuntu m now = Ok conf /\
       contains "environment = prod_1" conf).
Proof.
  assert (PuppetManager host_ubuntu (ctx_web3 (agent_config "Prod-1")) =
          Raise (PuppetParamsError
                   ("puppet_config.environment must contain only alphanumeric " +:+
                    "characters, you gave 'Prod_1'"))) as Hnew.
  { by rewrite (PuppetManager_agent host_ubuntu PuppetDebianInstaller). }
  split; [apply agent_runner_selected|split; [exact Hnew|]].
  intros (m & now & conf & Hm & _). rewrite Hnew in Hm. discriminate.
Qed.

Lemma PUPPET_ENV_RE_match_fixed (env : string) :
  PUPPET_ENV_RE_match env = true -> normalize_environment env = env.
Proof.
  intros H. apply normalize_environment_fixed.
  destruct env; [discriminate|exact H].
Qed.

(** C5, as the code has it.  With the configuration
    [{environment: "Prod-1", server: "puppetmaster.example"}] on node
    [web-3] the agent runner is selected and the construction is refused
    with a parameter error: the name is normalised to [Prod_1], never
    lowercased, and [Prod_1] is not in [[a-z0-9]+].  With an environment
    that passes the check (such as [prod1]) the orchestrator is an agent
    runner whose configure step renders, and on a successful [mv] installs
    as [/etc/puppet/puppet.conf], a file with the line
    [environment = <env>] and a [certname] line whose value is twelve digits
    followed by [-web-3]; the digits are the UTC time of the rendering as
    [YYYYMMDDHHMM]: read back four, two, two, two and two at a time they
    give its year, month, day, hour and minute. *)
Theorem agent_config_scenario (h : Host) (env : string) (now : datetime) :
  is_ok (get_installer_class h) = true ->
  PUPPET_ENV_RE_match env = true ->
  valid_datetime now -> 1900 <= year now ->
  (get_runner_class (ctx_web3 (agent_config "Prod-1")) = Ok PuppetAgentRunner /\
   exists msg,
     PuppetManager h (ctx_web3 (agent_config "Prod-1")) =
     Raise (PuppetParamsError msg)) /\
  exists m stamp conf,
    PuppetManager h (ctx_web3 (agent_config env)) = Ok m /\
    runner m = PuppetAgentRunner /\
    _get_config_file_contents h m now = Ok conf /\
    contains (nl +:+ "    environment = " +:+ env +:+ nl) conf /\
    contains (nl +:+ "    certname = " +:+ stamp +:+ "-web-3" +:+ nl) conf /\
    String.length stamp = 12%nat /\
    string_forallb is_digit stamp = true /\
    is_YmdHM stamp now /\
    (forall w : World,
       utcnow h (trace w) = now ->
       (forall argv, (sudo_result h (trace w) argv).1.1 = 0) ->
       exists w',
         configure h m w = (Ok tt, w') /\
         fs w' !! "/etc/puppet/puppet.conf" = Some (CText conf)).
Proof.
  intros Hinst Henv Hvalid Hyear.
  destruct (get_installer_class h) as [i|] eqn:Hi; [clear Hinst|discriminate].
  split.
  { split; [apply agent_runner_selected|].
    eexists. rewrite (PuppetManager_agent h i) by done. reflexivity. }
  destruct (agent_config_lookup env) as (Hs & He & Hpre & Hsuf).
  destruct (strftime_YmdHM_digits now Hyear) as (stamp & Hstamp & Hlen & Hdig).
  exists (with_environment env
            {| runner := PuppetAgentRunner; installer := i;
               ctx := ctx_web3 (agent_config env); props := agent_config env;
               environment := None; execute := None; manifest := None |}),
         stamp,
         (PUPPET_CONF_TPL env (get_modules_path h) "puppetmaster.example"
            (stamp +:+ "-web-3") "web-3").
  split; [|split; [|split]].
  - rewrite (PuppetManager_agent h i) by done. unfold set_environment.
    rewrite (PUPPET_ENV_RE_match_fixed env Henv), Henv. reflexivity.
  - reflexivity.
  - unfold _get_config_file_contents. cbn [props with_environment ctx environment].
    rewrite Hpre, Hsuf, Hs, Hstamp. reflexivity.
  - split; [|split; [|split; [exact Hlen|split; [exact Hdig|split]]]].
    + unfold PUPPET_CONF_TPL. find_in_text.
    + unfold PUPPET_CONF_TPL. find_in_text.
    + exact (strftime_YmdHM_reads_back now stamp Hvalid Hstamp).
    + intros w Hnow Hsudo.
      unfold configure. cbn [runner with_environment].
      rewrite Hnow.
      unfold _get_config_file_contents. cbn [props with_environment ctx environment].
      rewrite Hpre, Hsuf, Hs, Hstamp. cbn [rbind default as_str py_str].
      unfold _sudo_write_file, bind, lift, temp_file, file_write, _sudo, ret.
      change (has_slash "tmp") with false. cbv beta iota.
      cbn [fs trace set_fs emit].
      match goal with |- context [sudo_result h (trace w) ?argv] =>
        pose proof (Hsudo argv) as H0;
        destruct (sudo_result h (trace w) argv) as [[st out] err] end.
      cbn in H0. subst st. cbn [Z.eqb].
      eexists. split; [reflexivity|].
      unfold sudo_effect. change (String.eqb "mv" "mv") with true.
      cbn [fs set_fs emit].
      rewrite lookup_insert_eq. cbn [fs set_fs]. by rewrite lookup_insert_eq.
Qed.


Lemma agent_config_scenario_witness :
  is_ok (get_installer_class host_ubuntu) = true /\
  PUPPET_ENV_RE_match "prod1" = true /\
  valid_datetime example_time /\ 1900 <= year example_time /\
  exists m stamp conf,
    PuppetManager host_ubuntu (ctx_web3 (agent_config "prod1")) = Ok m /\
    runner m = PuppetAgentRunner /\
    _get_config_file_contents host_ubuntu m example_time = Ok conf /\
    contains (nl +:+ "    environment = " +:+ "prod1" +:+ nl) conf /\
    contains (nl +:+ "    certname = " +:+ stamp +:+ "-web-3" +:+ nl) conf /\
    String.length stamp = 12%nat /\
    string_forallb is_digit stamp = true /\
    is_YmdHM stamp example_time.
Proof.
  assert (H1 : is_ok (get_installer_class host_ubuntu) = true) by reflexivity.
  assert (H2 : PUPPET_ENV_RE_match "prod1" = true) by reflexivity.
  assert (H3 : valid_datetime example_time) by (vm_compute; intuition discriminate).
  assert (H4 : 1900 <= year example_time) by (vm_compute; discriminate).
  repeat (split; [assumption|]).
  destruct (agent_config_scenario host_ubuntu "prod1" example_time H1 H2 H3 H4)
    as (_ & m & stamp & conf & Hm & Hr & Hc & He & Hn & Hl & Hd & Ht & _).
  exists m, stamp, conf. repeat split; assumption.
Defined.

(** The rendered file of the example, in full. *)
Example puppet_conf_example :
  _get_config_file_contents host_ubuntu (agent_manager (agent_config "prod1"))
    example_time =
  Ok ("# This file was generated by Cloudify" +:+ nl +:+
      "[main]" +:+ nl +:+
      "    ssldir = /var/lib/puppet/ssl" +:+ nl +:+
      "    environment = prod1" +:+ nl +:+
      "    pluginsync = true" +:+ nl +:+
      "    logdir = /var/log/puppet" +:+ nl +:+
      "    vardir = /var/lib/puppet" +:+ nl +:+
      "    classfile = $vardir/classes.txt" +:+ nl +:+
      "    factpath = /opt/cloudify/puppet/facts:$vardir/lib/facter:$vardir/facts" +:+ nl +:+
      "    modulepath = /etc/puppet/modules:/usr/share/puppet/modules:/opt/cloudify/puppet/modules:/home/ubuntu/cloudify/puppet/modules" +:+ nl +:+
      nl +:+
      "[agent]" +:+ nl +:+
      "    server = puppetmaster.example" +:+ nl +:+
      "    certname = 201406030905-web-3" +:+ nl +:+
      "    node_name_value = web-3" +:+ nl).
Proof. vm_compute. reflexivity. Qed.

(** ** The standalone command *)


Lemma quote_shell_arg_example :
  quote_shell_arg "notify{'x':}" =
  "'notify{'" +:+ dquote +:+ "'" +:+ dquote +:+ "'x'" +:+ dquote +:+ "'" +:+
  dquote +:+ "':}'".
Proof. reflexivity. Qed.

Lemma get_runner_cmd_standalone (h : Host) (m : Manager) :
  runner m = PuppetStandaloneRunner ->
  get_runner_cmd h m =
  match str_truthy (execute m), str_truthy (manifest m) with
  | true, false =>
      Ok (standalone_base h m ++
          ["--execute"; quote_shell_arg (default "" (execute m))])
  | false, true =>
      Ok (standalone_base h m ++
          [quote_shell_arg (path_join (local_repo h) (default "" (manifest m)))])
  | true, true =>
      Ok (standalone_base h m ++
          ["--execute"; quote_shell_arg (default "" (execute m));
           quote_shell_arg (path_join (local_repo h) (default "" (manifest m)))])
  | false, false =>
      Raise (PuppetParamsError ("Either 'execute' or 'manifest' " +:+
                                "must be specified. None are specified"))
  end.
Proof.
  intros Hr. unfold get_runner_cmd, standalone_base, DIRS_local_repo. rewrite Hr.
  destruct (str_truthy (environment m)), (str_truthy (execute m)),
    (str_truthy (manifest m)); cbn [negb]; try reflexivity;
    by rewrite <- ?app_assoc.
Qed.

(** Both [execute] and [manifest] given: the command carries both. *)
Lemma execute_and_manifest_both_appear :
  let m := standalone_manager None (Some "include x") (Some "site.pp") in
  get_runner_cmd host_ubuntu m =
    Ok ["apply";
        "--modulepath=/etc/puppet/modules:/usr/share/puppet/modules:/opt/cloudify/puppet/modules:/home/ubuntu/cloudify/puppet/modules";
        "--execute"; "'include x'";
        "'/home/ubuntu/cloudify/puppet/site.pp'"] /\
  ~ (forall cmd, get_runner_cmd host_ubuntu m = Ok cmd ->
       (("--execute" ∈ cmd) /\
        (quote_shell_arg (path_join (local_repo host_ubuntu) "site.pp") ∉ cmd)) \/
       (("--execute" ∉ cmd) /\
        (quote_shell_arg (path_join (local_repo host_ubuntu) "site.pp") ∈ cmd))).
Proof.
  intros m.
  assert (Hcmd : get_runner_cmd host_ubuntu m =
    Ok ["apply";
        "--modulepath=/etc/puppet/modules:/usr/share/puppet/modules:/opt/cloudify/puppet/modules:/home/ubuntu/cloudify/puppet/modules";
        "--execute"; "'include x'";
        "'/home/ubuntu/cloudify/puppet/site.pp'"]) by reflexivity.
  split; [exact Hcmd|].
  intros H. destruct (H _ Hcmd) as [[_ Hno]|[Hno _]]; apply Hno.
  - change (quote_shell_arg (path_join (local_repo host_ubuntu) "site.pp"))
      with "'/home/ubuntu/cloudify/puppet/site.pp'".
    rewrite !elem_of_cons. tauto.
  - rewrite !elem_of_cons. tauto.
Qed.

(** C7, as the code has it.  The standalone command is
    [apply --modulepath=<path>], then [--environment <env>] when an
    environment is set, then [--execute <quoted text>] when [execute] is
    given and the quoted manifest path when [manifest] is given: exactly one
    of the two when exactly one is given, both (in this order) when both are
    given.  With [execute = notify{'x':}] and no manifest the text is quoted
    with its single quotes escaped by the ['"'"'] idiom and there is no
    manifest argument; with neither, building the command raises a
    parameter error. *)
Theorem standalone_command (h : Host) (m : Manager) :
  runner m = PuppetStandaloneRunner ->
  let base :=
    ["apply"; "--modulepath=" +:+ get_modules_path h] ++
    match environment m with
    | Some env => if String.eqb env "" then [] else ["--environment"; env]
    | None => []
    end in
  (execute m = Some "notify{'x':}" -> str_truthy (manifest m) = false ->
   get_runner_cmd h m =
   Ok (base ++ ["--execute";
                "'notify{'" +:+ dquote +:+ "'" +:+ dquote +:+ "'x'" +:+
                dquote +:+ "'" +:+ dquote +:+ "':}'"])) /\
  (forall e, execute m = Some e -> e <> "" -> str_truthy (manifest m) = false ->
   get_runner_cmd h m = Ok (base ++ ["--execute"; quote_shell_arg e])) /\
  (forall f, str_truthy (execute m) = false -> manifest m = Some f -> f <> "" ->
   get_runner_cmd h m =
   Ok (base ++ [quote_shell_arg (path_join (local_repo h) f)])) /\
  (forall e f, execute m = Some e -> e <> "" -> manifest m = Some f -> f <> "" ->
   get_runner_cmd h m =
   Ok (base ++ ["--execute"; quote_shell_arg e;
                quote_shell_arg (path_join (local_repo h) f)])) /\
  (str_truthy (execute m) = false -> str_truthy (manifest m) = false ->
   exists msg, get_runner_cmd h m = Raise (PuppetParamsError msg)).
Proof.
  intros Hr base.
  assert (Hbase : standalone_base h m = base).
  { unfold standalone_base, base, str_truthy.
    destruct (environment m) as [env|]; [|reflexivity].
    by destruct (String.eqb env ""). }
  assert (Htruthy : forall s, s <> "" -> str_truthy (Some s) = true).
  { intros s Hs. cbn. by apply negb_true_iff, String.eqb_neq. }
  rewrite (get_runner_cmd_standalone h m Hr), Hbase.
  split; [|split; [|split; [|split]]].
  - intros -> ->. reflexivity.
  - intros e -> He ->. by rewrite Htruthy.
  - intros f -> -> Hf. by rewrite Htruthy.
  - intros e f -> He -> Hf. by rewrite !Htruthy.
  - intros -> ->. eauto.
Qed.

Lemma standalone_command_witness :
  let m := standalone_manager (Some "prod1") (Some "notify{'x':}") None in
  runner m = PuppetStandaloneRunner /\
  execute m = Some "notify{'x':}" /\ str_truthy (manifest m) = false /\
  get_runner_cmd host_ubuntu m =
  Ok (["apply"; "--modulepath=" +:+ get_modules_path host_ubuntu] ++
      ["--environment"; "prod1"] ++
      ["--execute";
       "'notify{'" +:+ dquote +:+ "'" +:+ dquote +:+ "'x'" +:+
       dquote +:+ "'" +:+ dquote +:+ "':}'"]).
Proof.
  intros m.
  split; [reflexivity|split; [reflexivity|split; [reflexivity|]]].
  exact (proj1 (standalone_command host_ubuntu m eq_refl) eq_refl eq_refl).
Defined.

(** ** The Debian repository package *)

Lemma endswith_spec (p s : string) :
  endswith p s = true <-> exists pre, s = pre +:+ p.
Proof.
  induction s as [|x s IH]; cbn [endswith].
  - rewrite orb_false_r, String.eqb_eq. split.
    + intros <-. by exists "".
    + intros (pre & H). destruct pre; [done|discriminate].
  - rewrite orb_true_iff, String.eqb_eq, IH. split.
    + intros [<-|(pre & ->)]; [by exists ""|by exists (String x pre)].
    + intros ([|y pre] & H); [by left|].
      rewrite string_app_cons in H. injection H as -> ->. right. by exists pre.
Qed.


Lemma repo_override_entry (p : dict) (ver : string) (u : value) :
  override_entry p ver u -> repo_override p ver = Ok u.
Proof.
  intros (repos & deb & Hr & Hd & Hv). unfold repo_override, value_get.
  rewrite Hr. cbn. rewrite Hd. cbn. by rewrite Hv.
Qed.

Lemma repo_override_none (p : dict) (ver : string) :
  no_override_entry p ver -> repo_override p ver = Ok VNone.
Proof.
  unfold repo_override, value_get.
  intros [Hr|(repos & Hr & [Hd|(deb & Hd & Hv)])]; rewrite Hr; cbn.
  - by rewrite lookup_empty.
  - rewrite Hd. cbn. by rewrite lookup_empty.
  - rewrite Hd. cbn. by rewrite Hv.
Qed.

(** C8.  The Debian repository package URL.  With the distribution
    [('Ubuntu', 'precise', '12.04')] and no entry for [12.04] in
    [props['repos']['deb']] the URL is
    [http://apt.puppetlabs.com/puppetlabs-release-12.04.deb]; with an entry,
    the entry is the URL.  When the third component is empty, a second
    component that ends in [/sid] makes the release [sid], and anything else
    raises the error of a distribution that cannot be detected. *)
Theorem debian_repo_package_url (h : Host) (m : Manager) :
  installer m = PuppetDebianInstaller ->
  (linux_distribution h = ("Ubuntu", "precise", "12.04") ->
   (no_override_entry (props m) "12.04" ->
    get_repo_package_url h m =
    Ok (VStr "http://apt.puppetlabs.com/puppetlabs-release-12.04.deb")) /\
   (forall u, u <> "" -> override_entry (props m) "12.04" (VStr u) ->
    get_repo_package_url h m = Ok (VStr u))) /\
  (forall distname codename,
     linux_distribution h = (distname, codename, "") ->
     ((exists pre, codename = pre +:+ "/sid") ->
      debian_release (linux_distribution h) = Ok "sid" /\
      (no_override_entry (props m) "sid" ->
       get_repo_package_url h m =
       Ok (VStr "http://apt.puppetlabs.com/puppetlabs-release-sid.deb")) /\
      (forall u, u <> "" -> override_entry (props m) "sid" (VStr u) ->
       get_repo_package_url h m = Ok (VStr u))) /\
     (~ (exists pre, codename = pre +:+ "/sid") ->
      get_repo_package_url h m =
      Raise (PuppetError "Fail to detect Linux distro version"))).
Proof.
  intros Hi. unfold get_repo_package_url. rewrite Hi.
  assert (Htruthy : forall u, u <> "" -> truthy (VStr u) = true).
  { intros u Hu. cbn. by apply negb_true_iff, String.eqb_neq. }
  split.
  - intros ->. cbn [debian_release String.eqb Ascii.eqb negb rbind]. split.
    + intros Hno. by rewrite (repo_override_none _ _ Hno).
    + intros u Hu He. rewrite (repo_override_entry _ _ _ He). cbn [rbind].
      by rewrite Htruthy.
  - intros distname codename ->. split.
    + intros Hsid. apply endswith_spec in Hsid.
      unfold debian_release. cbn [String.eqb negb]. rewrite Hsid.
      split; [reflexivity|]. cbn [rbind]. split.
      * intros Hno. by rewrite (repo_override_none _ _ Hno).
      * intros u Hu He. rewrite (repo_override_entry _ _ _ He). cbn [rbind].
        by rewrite Htruthy.
    + intros Hsid. unfold debian_release. cbn [String.eqb negb].
      destruct (endswith "/sid" codename) eqn:E; [|reflexivity].
      exfalso. by apply Hsid, endswith_spec.
Qed.


Lemma debian_repo_package_url_witness :
  let m := agent_manager (agent_config "prod1") in
  let m' := with_props override_12_04 m in
  installer m = PuppetDebianInstaller /\
  linux_distribution host_ubuntu = ("Ubuntu", "precise", "12.04") /\
  no_override_entry (props m) "12.04" /\
  get_repo_package_url host_ubuntu m =
    Ok (VStr "http://apt.puppetlabs.com/puppetlabs-release-12.04.deb") /\
  override_entry (props m') "12.04" (VStr "http://mirror.example/puppet.deb") /\
  get_repo_package_url host_ubuntu m' = Ok (VStr "http://mirror.example/puppet.deb").
Proof.
  intros m m'.
  assert (Hno : no_override_entry (props m) "12.04") by (left; reflexivity).
  assert (He : override_entry (props m') "12.04"
                 (VStr "http://mirror.example/puppet.deb")).
  { exists (<["deb" :=
               VDict (<["12.04" := VStr "http://mirror.example/puppet.deb"]> ∅)]>
            ∅),
           (<["12.04" := VStr "http://mirror.example/puppet.deb"]> ∅).
    split; [reflexivity|split; reflexivity]. }
  split; [reflexivity|split; [reflexivity|split; [exact Hno|split]]].
  - exact (proj1 (proj1 (debian_repo_package_url host_ubuntu m eq_refl) eq_refl)
             Hno).
  - split; [exact He|].
    exact (proj2 (proj1 (debian_repo_package_url host_ubuntu m' eq_refl) eq_refl)
             "http://mirror.example/puppet.deb" ltac:(discriminate) He).
Defined.

(** The function reads the tuple by position.  Python's
    [platform.linux_distribution()] answers (name, version, id), so on
    Ubuntu 12.04, where it is [('Ubuntu', '12.04', 'precise')], the third
    component is the code name and the package is the one for [precise]. *)
Example repo_url_by_position :
  get_repo_package_url
    (example_host ("Ubuntu", "12.04", "precise") (fun _ => Locked) 0)
    (agent_manager (agent_config "prod1")) =
  Ok (VStr "http://apt.puppetlabs.com/puppetlabs-release-precise.deb").
Proof. reflexivity. Qed.

(** ** The run *)

Lemma last_char_app (a b : string) :
  b <> "" -> last_char (a +:+ b) = last_char b.
Proof.
  intros Hb. induction a as [|x a IH]; [reflexivity|].
  rewrite string_app_cons. cbn [last_char].
  destruct (a +:+ b) eqn:E; [|exact IH].
  destruct a; [change ("" +:+ b) with b in E; congruence|discriminate].
Qed.

Lemma path_join_relative (d x : string) :
  startswith "/" x = false ->
  exists pre, path_join d x = pre +:+ x.
Proof.
  intros Hx. unfold path_join. rewrite Hx.
  destruct (String.eqb d "" || endswith "/" d).
  - by exists d.
  - exists (d +:+ "/"). by rewrite string_app_assoc.
Qed.

(** The facts file and the run script never have the same name: the one
    ends in [n], the other in [h]. *)
Lemma temp_names_distinct (h : Host) (c : Ctx) (n1 n2 : nat) :
  facts_file_name h c n1 <> run_file_name h c n2.
Proof.
  unfold facts_file_name, run_file_name.
  destruct (path_join_relative (gettempdir h)
              (temp_prefix h c +:+ temp_random h n1 +:+ ".facts_in.json"))
    as [p1 ->]; [reflexivity|].
  destruct (path_join_relative (gettempdir h)
              (temp_prefix h c +:+ temp_random h n2 +:+ ".run.sh"))
    as [p2 ->]; [reflexivity|].
  intros Heq. apply (f_equal last_char) in Heq.
  rewrite <- !string_app_assoc in Heq.
  rewrite !last_char_app in Heq by discriminate.
  discriminate.
Qed.

(** [run_prepare] succeeds exactly under [prepare_conditions], and then
    leaves [prepared] and [prepared_world]. *)
Lemma run_prepare_ok (h : Host) (m : Manager) (tags : option (list string))
  (execute manifest : option string) (w w1 : World) (p : Prepared) :
  run_prepare h m tags execute manifest w = (Ok p, w1) <->
  exists w0 facts bundle rc,
    prepare_conditions h m execute manifest w w0 facts bundle rc /\
    p = prepared h m tags execute manifest w0 bundle rc /\
    w1 = prepared_world h m tags execute manifest w0 bundle rc.
Proof.
  unfold prepare_conditions, install_and_configure, run_prepare.
  set (m0 := with_run_args execute manifest m).
  unfold bind, lift, ret.
  destruct (install h m0 w) as [[[]|e] wi].
  2:{ split; [intros H; discriminate H|].
      intros (? & ? & ? & ? & (H & _) & _). discriminate H. }
  destruct (configure h m0 wi) as [[[]|e] w0].
  2:{ split; [intros H; discriminate H|].
      intros (? & ? & ? & ? & (H & _) & _). discriminate H. }
  unfold temp_file, json_dump, file_write, bind, raise, _sudo.
  change (props m0) with (props m). change (ctx m0) with (ctx m).
  split.
  - destruct (default (VDict ∅) (props m !! "facts")) as [| | |s|l|facts] eqn:Hf;
      cbn [facts_mapping]; try (intros H; discriminate H).
    { destruct (str_contains _ s); intros H; discriminate H. }
    { destruct (list_contains_str _ l); intros H; discriminate H. }
    destruct (facts_bundle (ctx m) facts) as [bundle|] eqn:Hb;
      [|intros H; discriminate H].
    destruct (has_slash (temp_prefix h (ctx m))) eqn:Hsl;
      [intros H; discriminate H|].
    destruct (properties_shared h && bool_decide (is_Some (props m !! "facts")))
      eqn:Hsh; [intros H; discriminate H|].
    destruct (get_runner_cmd h m0) as [rc|] eqn:Hrc; [|intros H; discriminate H].
    cbn [fs trace ntemp held log set_fs emit sudo_effect].
    fold (facts_file_name h (ctx m) (ntemp w0)).
    fold (run_file_name h (ctx m) (S (ntemp w0))).
    destruct (sudo_result h (trace w0)
                ["/usr/bin/sudo"; "chmod"; "+x";
                 run_file_name h (ctx m) (S (ntemp w0))])
      as [[st out] err] eqn:Hs.
    destruct (Z.eqb_spec st 0) as [->|]; [|intros H; discriminate H].
    intros [= <- <-].
    exists w0, facts, bundle, rc. rewrite Hs. repeat split; done.
  - intros (w0' & facts & bundle & rc &
            (Hic & Hf & Hb & Hsl & Hsh & Hrc & Hs) & -> & ->).
    injection Hic as <-.
    rewrite Hf. cbn [facts_mapping]. rewrite Hb, Hsl, Hsh, Hrc.
    cbn [fs trace ntemp held log set_fs emit sudo_effect].
    fold (facts_file_name h (ctx m) (ntemp w0)).
    fold (run_file_name h (ctx m) (S (ntemp w0))).
    destruct (sudo_result h (trace w0)
                ["/usr/bin/sudo"; "chmod"; "+x";
                 run_file_name h (ctx m) (S (ntemp w0))])
      as [[st out] err] eqn:Hs'.
    cbn in Hs. subst st. reflexivity.
Qed.

Lemma prepared_world_files (h : Host) (m : Manager) (tags : option (list string))
  (execute manifest : option string) (w0 : World) (bundle : dict)
  (rc : list string) :
  let p := prepared h m tags execute manifest w0 bundle rc in
  let w1 := prepared_world h m tags execute manifest w0 bundle rc in
  pr_facts_file p <> pr_run_file p /\
  fs w1 !! pr_facts_file p = Some (CJson (VDict bundle)) /\
  fs w1 !! pr_run_file p =
    Some (CScript (run_script_of h (with_run_args execute manifest m)
                     (pr_facts_file p) rc tags)).
Proof.
  intros p w1.
  assert (Hne : pr_facts_file p <> pr_run_file p) by apply temp_names_distinct.
  split; [exact Hne|]. cbn [fs w1 prepared_world pr_facts_file pr_run_file p prepared] in *.
  split.
  - rewrite !lookup_insert_ne by done. by rewrite lookup_insert_eq.
  - by rewrite lookup_insert_eq.
Qed.



Lemma run_prepare_raises_on_cloudify (h : Host) (m : Manager)
  (tags : option (list string)) (execute manifest : option string) (w : World)
  (facts : dict) :
  default (VDict ∅) (props m !! "facts") = VDict facts ->
  is_Some (facts !! "cloudify") ->
  run_prepare h m tags execute manifest w =
  match install_and_configure h (with_run_args execute manifest m) w with
  | (Ok _, w0) =>
      (Raise (PuppetError "Puppet attributes must not contain 'cloudify'"), w0)
  | (Raise e, w0) => (Raise e, w0)
  end.
Proof.
  intros Hf Hc. unfold install_and_configure, run_prepare.
  set (m0 := with_run_args execute manifest m).
  unfold bind, lift.
  destruct (install h m0 w) as [[[]|e] wi]; [|reflexivity].
  destruct (configure h m0 wi) as [[[]|e] w0]; [|reflexivity].
  change (props m0) with (props m). change (ctx m0) with (ctx m).
  rewrite Hf. cbn [facts_mapping]. unfold facts_bundle.
  by rewrite bool_decide_eq_true_2.
Qed.

(** C6.  [facts] is the operator's facts mapping ([{}] when the
    configuration has none).  When it has the key [cloudify], [run] raises:
    the world is left as [install] and [configure] left it (no facts file
    was written and no agent was run), and when these two went through the
    error is the [PuppetError] of the reserved key.  When the key is absent,
    the bundle is [facts] with the one more entry [cloudify], a mapping that
    holds the workflow context: the node's id and name, the blueprint and
    deployment ids, the properties and runtime properties, the capabilities
    ([{}] when they cannot be read), the host address ([None] when it
    cannot be read) and, exactly when there is a related node, under
    [related] that node's id, properties, runtime properties and host
    address; it has no other key.  This bundle is what a run that gets that
    far writes to the facts file. *)
Theorem facts_bundle_reserved_key (h : Host) (m : Manager)
  (tags : option (list string)) (execute manifest : option string) (w : World)
  (facts : dict) :
  default (VDict ∅) (props m !! "facts") = VDict facts ->
  (is_Some (facts !! "cloudify") ->
   exists e,
     run h m tags execute manifest w =
       (Raise e, (install_and_configure h (with_run_args execute manifest m) w).2) /\
     (is_ok (install_and_configure h (with_run_args execute manifest m) w).1 = true ->
      e = PuppetError "Puppet attributes must not contain 'cloudify'")) /\
  (facts !! "cloudify" = None ->
   exists bundle cloudify,
     facts_bundle (ctx m) facts = Ok bundle /\
     bundle !! "cloudify" = Some (VDict cloudify) /\
     (forall k, k <> "cloudify" -> bundle !! k = facts !! k) /\
     (forall k v, _context_to_struct (ctx m) !! k = Some v ->
                  cloudify !! k = Some v) /\
     cloudify !! "related" =
       (fun r => VDict (_related_to_struct r)) <$> related (ctx m) /\
     (cloudify !! "node_id" = Some (VStr (node_id (ctx m))) /\
      cloudify !! "node_name" = Some (VStr (node_name (ctx m))) /\
      cloudify !! "blueprint_id" = Some (VStr (blueprint_id (ctx m))) /\
      cloudify !! "deployment_id" = Some (VStr (deployment_id (ctx m))) /\
      cloudify !! "properties" = Some (VDict (properties (ctx m))) /\
      cloudify !! "runtime_properties" =
        Some (VDict (runtime_properties (ctx m))) /\
      cloudify !! "capabilities" =
        Some (VDict (default ∅ (capabilities (ctx m)))) /\
      cloudify !! "host_ip" =
        Some (match host_ip (ctx m) with Some ip => VStr ip | None => VNone end)) /\
     (forall r, related (ctx m) = Some r ->
        exists rel : dict,
          cloudify !! "related" = Some (VDict rel) /\
          rel !! "node_id" = Some (VStr (rel_node_id r)) /\
          rel !! "properties" = Some (VDict (rel_properties r)) /\
          rel !! "runtime_properties" = Some (VDict (rel_runtime_properties r)) /\
          rel !! "host_ip" =
            Some (match rel_host_ip r with Some ip => VStr ip | None => VNone end) /\
          (forall k, k ∉ ["node_id"; "properties"; "runtime_properties"; "host_ip"] ->
                     rel !! k = None)) /\
     (related (ctx m) = None -> cloudify !! "related" = None) /\
     (forall k,
        k ∉ ["node_id"; "node_name"; "blueprint_id"; "deployment_id";
             "properties"; "runtime_properties"; "capabilities"; "host_ip";
             "related"] ->
        cloudify !! k = None) /\
     (forall p w1,
        run_prepare h m tags execute manifest w = (Ok p, w1) ->
        fs w1 !! pr_facts_file p = Some (CJson (VDict bundle)))).
Proof.
  intros Hf. split.
  - intros Hc. unfold run, bind.
    rewrite (run_prepare_raises_on_cloudify h m tags execute manifest w facts Hf Hc).
    destruct (install_and_configure h (with_run_args execute manifest m) w)
      as [[[]|e] w0]; cbn [fst snd is_ok]; eauto.
    eexists. split; [reflexivity|discriminate].
  - intros Hc. unfold facts_bundle. rewrite Hc.
    rewrite bool_decide_eq_false_2 by (by intros [? ?]).
    eexists _, _. split; [reflexivity|].
    split; [by rewrite lookup_insert_eq|].
    split; [by intros k Hk; rewrite lookup_insert_ne|].
    assert (Hctx : forall k v, _context_to_struct (ctx m) !! k = Some v ->
              match related (ctx m) with
              | Some r => <["related" := VDict (_related_to_struct r)]>
                            (_context_to_struct (ctx m))
              | None => _context_to_struct (ctx m)
              end !! k = Some v).
    { intros k v Hk. destruct (related (ctx m)); [|exact Hk].
      rewrite lookup_insert_ne; [exact Hk|].
      intros <-. unfold _context_to_struct in Hk.
      rewrite !lookup_insert_ne, lookup_empty in Hk by done. discriminate. }
    split; [exact Hctx|].
    split; [|split; [|split; [|split; [|split]]]].
    + destruct (related (ctx m)); cbn [fmap option_fmap option_map].
      * by rewrite lookup_insert_eq.
      * unfold _context_to_struct.
        by rewrite !lookup_insert_ne, lookup_empty by done.
    + repeat split; apply Hctx; unfold _context_to_struct,
        _try_extract_capabilities, _try_extract_host_ip;
        repeat first [ by rewrite lookup_insert_eq
                     | rewrite lookup_insert_ne by done ];
        by destruct (capabilities (ctx m)), (host_ip (ctx m)).
    + intros r ->. exists (_related_to_struct r).
      split; [by rewrite lookup_insert_eq|].
      unfold _related_to_struct.
      repeat split;
        try (repeat first [ by rewrite lookup_insert_eq
                          | rewrite lookup_insert_ne by done ];
             by destruct (rel_host_ip r)).
      intros k Hk. rewrite !lookup_insert_ne, lookup_empty; [done|..];
        intros <-; apply Hk; set_solver.
    + intros ->. unfold _context_to_struct.
      by rewrite !lookup_insert_ne, lookup_empty by done.
    + intros k Hk.
      assert (_context_to_struct (ctx m) !! k = None) as Hnone.
      { unfold _context_to_struct.
        rewrite !lookup_insert_ne, lookup_empty; [done|..];
          intros <-; apply Hk; set_solver. }
      destruct (related (ctx m)); [|exact Hnone].
      rewrite lookup_insert_ne; [exact Hnone|].
      intros <-; apply Hk; set_solver.
    + intros p w1 Hrun.
      apply run_prepare_ok in Hrun
        as (w0 & facts' & bundle & rc & (_ & Hf' & Hb & _) & -> & ->).
      rewrite Hf in Hf'. injection Hf' as <-.
      unfold facts_bundle in Hb. rewrite Hc in Hb.
      rewrite bool_decide_eq_false_2 in Hb by (by intros [? ?]).
      injection Hb as <-.
      apply prepared_world_files.
Qed.

Lemma facts_bundle_reserved_key_witness :
  let m := agent_manager (<["facts" := VDict (<["cloudify" := VInt 1]> ∅)]>
                            (agent_config "prod1")) in
  let facts : dict := <["cloudify" := VInt 1]> ∅ in
  let m2 := agent_manager (<["facts" := VDict (<["role" := VStr "web"]> ∅)]>
                             (agent_config "prod1")) in
  let facts2 : dict := <["role" := VStr "web"]> ∅ in
  (default (VDict ∅) (props m !! "facts") = VDict facts /\
   is_Some (facts !! "cloudify") /\
   exists e,
     run host_ubuntu m None None None world0 =
       (Raise e, (install_and_configure host_ubuntu
                    (with_run_args None None m) world0).2) /\
     (is_ok (install_and_configure host_ubuntu
               (with_run_args None None m) world0).1 = true ->
      e = PuppetError "Puppet attributes must not contain 'cloudify'")) /\
  (default (VDict ∅) (props m2 !! "facts") = VDict facts2 /\
   facts2 !! "cloudify" = None /\
   exists bundle cloudify,
     facts_bundle (ctx m2) facts2 = Ok bundle /\
     bundle !! "cloudify" = Some (VDict cloudify) /\
     bundle !! "role" = Some (VStr "web") /\
     cloudify !! "node_id" = Some (VStr "web-3") /\
     cloudify !! "node_name" = Some (VStr "web") /\
     cloudify !! "blueprint_id" = Some (VStr "bp") /\
     cloudify !! "deployment_id" = Some (VStr "dep") /\
     cloudify !! "capabilities" = Some (VDict ∅) /\
     cloudify !! "host_ip" = Some VNone /\
     cloudify !! "related" = None /\
     exists p w1,
       run_prepare host_ubuntu m2 None None None world0 = (Ok p, w1) /\
       fs w1 !! pr_facts_file p = Some (CJson (VDict bundle))).
Proof.
  intros m facts m2 facts2. split.
  - assert (H1 : default (VDict ∅) (props m !! "facts") = VDict facts) by reflexivity.
    assert (H2 : is_Some (facts !! "cloudify")) by (eexists; reflexivity).
    split; [exact H1|split; [exact H2|]].
    exact (proj1 (facts_bundle_reserved_key host_ubuntu m None None None world0
                    facts H1) H2).
  - assert (H1 : default (VDict ∅) (props m2 !! "facts") = VDict facts2)
      by reflexivity.
    assert (H2 : facts2 !! "cloudify" = None) by reflexivity.
    split; [exact H1|split; [exact H2|]].
    destruct (proj2 (facts_bundle_reserved_key host_ubuntu m2 None None None world0
                       facts2 H1) H2)
      as (bundle & cloudify & Hb & Hc & Hk & _ & _ &
          (Hid & Hname & Hbp & Hdep & _ & _ & Hcap & Hip) & _ & Hrel & _ & Hrun).
    exists bundle, cloudify.
    split; [exact Hb|]. split; [exact Hc|].
    split; [rewrite (Hk "role") by discriminate; reflexivity|].
    split; [exact Hid|]. split; [exact Hname|]. split; [exact Hbp|].
    split; [exact Hdep|]. split; [exact Hcap|]. split; [exact Hip|].
    split; [exact (Hrel eq_refl)|].
    destruct (run_prepare host_ubuntu m2 None None None world0)
      as [[p|e] w1] eqn:Hr; [|vm_compute in Hr; discriminate Hr].
    exists p, w1. split; [reflexivity|]. exact (Hrun p w1 eq_refl).
Defined.

(** [run] hands back the manager that the preparation left. *)
Lemma run_execute_self (h : Host) (p : Prepared) (w1 w2 : World) (m' : Manager) :
  run_execute h p w1 = (Ok m', w2) -> m' = pr_self p.
Proof.
  unfold run_execute, bind, ret.
  destruct (_sudo h [pr_run_file p] w1) as [[?|?] ?]; [|intros H; discriminate H].
  destruct (os_remove (pr_facts_file p) _) as [[?|?] ?]; [|intros H; discriminate H].
  by intros [= <- _].
Qed.

(** X17.  The assignment [facts['cloudify'] = ...] is made in the mapping
    that [self.props] holds: a manager whose configuration has a [facts]
    entry runs once, and raises at any later [run]. *)
Lemma second_run_raises (h : Host) (m m' : Manager) (tags : option (list string))
  (execute manifest : option string) (w w' : World) :
  is_Some (props m !! "facts") ->
  run h m tags execute manifest w = (Ok m', w') ->
  forall tags2 execute2 manifest2 w2,
  exists e w3, run h m' tags2 execute2 manifest2 w2 = (Raise e, w3).
Proof.
  intros Hfacts Hrun tags2 execute2 manifest2 w2.
  unfold run, bind in Hrun.
  destruct (run_prepare h m tags execute manifest w) as [[p|e] w1] eqn:Hp;
    [|discriminate Hrun].
  apply run_execute_self in Hrun. subst m'.
  apply run_prepare_ok in Hp
    as (w0 & facts & bundle & rc & (_ & _ & Hb & _) & -> & _).
  cbn [pr_self prepared]. rewrite bool_decide_eq_true_2 by done.
  unfold facts_bundle in Hb.
  destruct (bool_decide (is_Some (facts !! "cloudify"))); [discriminate Hb|].
  injection Hb as <-.
  unfold run, bind.
  erewrite run_prepare_raises_on_cloudify.
  - destruct (install_and_configure h _ w2) as [[[]|e] w3]; eauto.
  - cbn [props with_props]. by rewrite lookup_insert_eq.
  - by rewrite lookup_insert_eq.
Qed.

(** When [ctx.properties] is the mapping the manager reads its
    configuration from and there is a [facts] entry, the bundle is cyclic,
    [json.dump] fails and the run never gets to its script. *)
Lemma shared_facts_never_prepared (h : Host) (m : Manager)
  (tags : option (list string)) (execute manifest : option string)
  (w w1 : World) (p : Prepared) :
  properties_shared h = true -> is_Some (props m !! "facts") ->
  run_prepare h m tags execute manifest w <> (Ok p, w1).
Proof.
  intros Hsh Hfacts Hrun.
  apply run_prepare_ok in Hrun as (? & ? & ? & ? & (_ & _ & _ & _ & H & _) & _).
  rewrite Hsh, bool_decide_eq_true_2 in H by done. discriminate H.
Qed.




(** ** Tags *)

Lemma join_snoc (sep : string) (l : list string) (x : string) :
  l <> [] -> join sep (l ++ [x]) = join sep l +:+ sep +:+ x.
Proof.
  unfold join. induction l as [|a l IH]; [done|]. intros _.
  destruct l as [|b l]; [reflexivity|].
  change (String.concat sep ((a :: b :: l) ++ [x]))
    with (a +:+ sep +:+ String.concat sep ((b :: l) ++ [x])).
  rewrite IH by done.
  change (String.concat sep (a :: b :: l))
    with (a +:+ sep +:+ String.concat sep (b :: l)).
  by rewrite !string_app_assoc.
Qed.

(** With tags, the command is the command without tags followed by
    [--tags] and the tags joined by commas. *)
Lemma build_cmd_tags (rc : list string) (tags : list string) :
  tags <> [] ->
  build_cmd rc (Some tags) =
  build_cmd rc None +:+ " --tags " +:+ join "," tags.
Proof.
  intros Ht. unfold build_cmd.
  destruct tags as [|t ts]; [done|].
  set (cmd := ["puppet"] ++ rc ++ _).
  change (cmd ++ ["--tags"; join "," (t :: ts)])
    with (cmd ++ [ "--tags" ] ++ [ join "," (t :: ts) ]).
  rewrite app_assoc, !join_snoc; [|done|by destruct cmd].
  by rewrite !string_app_assoc.
Qed.

(** A tag list that the tag pattern of the module refuses. *)
Example tags_outside_the_pattern :
  forallb PUPPET_TAG_RE_match ["Web Server"; "; reboot"] = false /\
  build_cmd ["agent"; "--onetime"; "--no-daemonize"]
    (Some ["Web Server"; "; reboot"]) =
  "puppet agent --onetime --no-daemonize --detailed-exitcodes --logdest console --logdest syslog --tags Web Server,; reboot".
Proof. split; reflexivity. Qed.

(** C10.  For a non-empty list of tags, the command line that [run]
    builds and writes into the run script is the command without tags
    followed by [--tags] and the comma-join of the tags exactly as given:
    the tags are not changed or quoted, and they are not checked, since the
    preparation goes through for any other tags as well. *)
Theorem tags_interpolated (h : Host) (m : Manager) (tags : list string)
  (execute manifest : option string) (w w1 : World) (p : Prepared) :
  tags <> [] ->
  run_prepare h m (Some tags) execute manifest w = (Ok p, w1) ->
  (exists rc script,
     get_runner_cmd h (with_run_args execute manifest m) = Ok rc /\
     pr_cmd p =
       join " " (["puppet"] ++ rc ++
                 ["--detailed-exitcodes"; "--logdest"; "console";
                  "--logdest"; "syslog"]) +:+
       " --tags " +:+ join "," tags /\
     fs w1 !! pr_run_file p = Some (CScript script) /\
     rs_cmd script = pr_cmd p /\
     contains (nl +:+ pr_cmd p +:+ " || e=$?" +:+ nl) (render_script script)) /\
  (forall tags' : option (list string),
     exists p' w1', run_prepare h m tags' execute manifest w = (Ok p', w1')).
Proof.
  intros Ht Hrun.
  apply run_prepare_ok in Hrun
    as (w0 & facts & bundle & rc & Hcond & Hp & Hw).
  split.
  - destruct (prepared_world_files h m (Some tags) execute manifest w0 bundle rc)
      as (_ & _ & Hrf).
    cbv zeta in Hrf. rewrite <- Hp, <- Hw in Hrf.
    exists rc, (run_script_of h (with_run_args execute manifest m)
                  (pr_facts_file p) rc (Some tags)).
    assert (Hcmd : pr_cmd p = build_cmd rc (Some tags)) by (by rewrite Hp).
    split; [apply Hcond|].
    split; [by rewrite Hcmd, build_cmd_tags|].
    split; [exact Hrf|]. split; [by rewrite Hcmd|].
    rewrite Hcmd. unfold render_script. cbn [rs_cmd run_script_of].
    find_in_text.
  - intros tags'. eexists _, _. apply run_prepare_ok.
    exists w0, facts, bundle, rc. split; [exact Hcond|split; reflexivity].
Qed.

Lemma tags_interpolated_witness :
  let m := agent_manager (agent_config "prod1") in
  let tags := ["Web Server"; "; reboot"] in
  tags <> [] /\
  exists p w1,
    run_prepare host_ubuntu m (Some tags) None None world0 = (Ok p, w1) /\
    exists rc script,
      get_runner_cmd host_ubuntu (with_run_args None None m) = Ok rc /\
      pr_cmd p =
        join " " (["puppet"] ++ rc ++
                  ["--detailed-exitcodes"; "--logdest"; "console";
                   "--logdest"; "syslog"]) +:+
        " --tags " +:+ join "," tags /\
      fs w1 !! pr_run_file p = Some (CScript script) /\
      rs_cmd script = pr_cmd p /\
      contains (nl +:+ pr_cmd p +:+ " || e=$?" +:+ nl) (render_script script).
Proof.
  intros m tags.
  assert (Ht : tags <> []) by discriminate.
  split; [exact Ht|].
  destruct (run_prepare host_ubuntu m (Some tags) None None world0)
    as [[p|e] w1] eqn:Hr; [|vm_compute in Hr; discriminate Hr].
  exists p, w1. split; [reflexivity|].
  exact (proj1 (tags_interpolated host_ubuntu m tags None None world0 w1 p Ht Hr)).
Defined.

(* ===================================================================== *)
(** * Further properties of the code *)
(* ===================================================================== *)

(** ** [set_environment] *)

(** X1.  [set_environment] accepts exactly the names that are already a
    non-empty string of [[a-z0-9]] and stores them as given: the
    replacement of ['-'], ['.'] and space never shows in an accepted name,
    since a name with one of them is refused; a value that is not a string
    is a [TypeError]; the other attributes of the manager are untouched. *)
Theorem set_environment_accepts_unchanged (m : Manager) :
  (forall (e : string) (m' : Manager),
     set_environment m (VStr e) = Ok m' ->
     PUPPET_ENV_RE_match e = true /\
     m' = with_environment e m) /\
  (forall e : string,
     PUPPET_ENV_RE_match e = true ->
     set_environment m (VStr e) = Ok (with_environment e m)) /\
  (forall (e : string) (i : nat) (a : ascii),
     String.get i e = Some a -> a ∈ ["-"; "."; " "]%char ->
     exists msg, set_environment m (VStr e) = Raise (PuppetParamsError msg)) /\
  (forall v : value,
     (forall e, v <> VStr e) -> set_environment m v = Raise (Builtin "TypeError")).
Proof.
  split; [|split; [|split]].
  - intros e m'. unfold set_environment.
    destruct (PUPPET_ENV_RE_match (normalize_environment e)) eqn:E;
      cbn [negb]; [|intros H; discriminate H].
    intros [= <-].
    assert (normalize_environment e = e) as Hfix.
    { apply PUPPET_ENV_RE_match_spec in E as [_ E].
      assert (forall i a, String.get i e = Some a -> env_sub_char a = a) as Hc.
      { intros i a Hi. specialize (E i (env_sub_char a)).
        rewrite normalize_environment_get, Hi in E. specialize (E eq_refl).
        rewrite env_sub_char_spec in *.
        destruct (bool_decide (a ∈ ["-"; "."; " "]%char)); [discriminate E|done]. }
      clear E. induction e as [|x e IH]; [reflexivity|]. cbn.
      rewrite (Hc 0%nat x eq_refl), IH; [reflexivity|].
      intros i a Hi. apply (Hc (S i)). exact Hi. }
    rewrite Hfix in *. done.
  - intros e He. unfold set_environment.
    by rewrite (PUPPET_ENV_RE_match_fixed e He), He.
  - intros e i a Hi Ha. unfold set_environment.
    rewrite (replaced_is_rejected e i a Hi Ha). cbn [negb]. eauto.
  - intros v Hv. destruct v; try reflexivity. by destruct (Hv s).
Qed.

Lemma set_environment_accepts_unchanged_witness :
  let m := standalone_manager None None None in
  (PUPPET_ENV_RE_match "stage2" = true /\
   set_environment m (VStr "stage2") = Ok (with_environment "stage2" m)) /\
  (String.get 4 "prod-1" = Some "-"%char /\
   exists msg, set_environment m (VStr "prod-1") = Raise (PuppetParamsError msg)).
Proof.
  intros m. split.
  - split; [reflexivity|].
    exact (proj1 (proj2 (set_environment_accepts_unchanged m)) "stage2" eq_refl).
  - split; [reflexivity|].
    refine (proj1 (proj2 (proj2 (set_environment_accepts_unchanged m)))
              "prod-1" 4%nat "-"%char eq_refl _).
    apply list_elem_of_here.
Defined.

(** ** The installer and runner classes *)

(** X2.  [get_installer_class] picks the Debian installer exactly when the
    lowercased distribution name is [debian], [ubuntu] or [mint], the RHEL
    installer exactly when the name, as it is, is [redhat], [centos] or
    [fedora], and raises the internal logic error for any other name: the
    two tests never both hold, and a name such as [CentOS] is not
    handled. *)
Theorem get_installer_class_selection (h : Host) :
  let distname := (linux_distribution h).1.1 in
  (lower distname ∈ ["debian"; "ubuntu"; "mint"] ->
   get_installer_class h = Ok PuppetDebianInstaller) /\
  (distname ∈ ["redhat"; "centos"; "fedora"] ->
   get_installer_class h = Ok PuppetRHELInstaller) /\
  (lower distname ∉ ["debian"; "ubuntu"; "mint"] ->
   distname ∉ ["redhat"; "centos"; "fedora"] ->
   get_installer_class h =
   Raise (PuppetInternalLogicError "Failed to find correct PuppetInstaller")) /\
  (distname = "CentOS" ->
   get_installer_class h =
   Raise (PuppetInternalLogicError "Failed to find correct PuppetInstaller")).
Proof.
  intros distname. unfold get_installer_class, _installer_handles.
  fold distname. cbn [List.filter].
  assert (Hdisj : forall d : string,
            d ∈ ["redhat"; "centos"; "fedora"] ->
            lower d ∉ ["debian"; "ubuntu"; "mint"]).
  { intros d Hd. apply (proj1 (bool_decide_eq_false _)).
    revert Hd. rewrite !elem_of_cons, elem_of_nil.
    intros [->|[->|[->|[]]]]; reflexivity. }
  specialize (Hdisj distname).
  split; [|split; [|split]].
  - intros Hd. rewrite bool_decide_eq_true_2 by done.
    destruct (bool_decide (distname ∈ ["redhat"; "centos"; "fedora"])) eqn:E;
      [|reflexivity].
    apply bool_decide_eq_true in E. by destruct (Hdisj E).
  - intros Hr. rewrite (bool_decide_eq_false_2 _ (Hdisj Hr)).
    by rewrite bool_decide_eq_true_2.
  - intros Hd Hr. by rewrite !bool_decide_eq_false_2.
  - intros ->. reflexivity.
Qed.

Lemma get_installer_class_selection_witness :
  (lower "Ubuntu" ∈ ["debian"; "ubuntu"; "mint"] /\
   get_installer_class host_ubuntu = Ok PuppetDebianInstaller) /\
  ("redhat" ∈ ["redhat"; "centos"; "fedora"] /\
   get_installer_class host_redhat = Ok PuppetRHELInstaller).
Proof.
  assert (H1 : lower "Ubuntu" ∈ ["debian"; "ubuntu"; "mint"])
    by (apply list_elem_of_further, list_elem_of_here).
  assert (H2 : "redhat" ∈ ["redhat"; "centos"; "fedora"])
    by apply list_elem_of_here.
  split.
  - split; [exact H1|].
    exact (proj1 (get_installer_class_selection host_ubuntu) H1).
  - split; [exact H2|].
    exact (proj1 (proj2 (get_installer_class_selection host_redhat)) H2).
Defined.

(** X3.  What the construction checks, for a context whose
    [puppet_config] is the mapping [p] on a host with a known installer.
    With a [server] key the agent runner is chosen: a missing [environment]
    is a parameter error, an [environment] whose normalised name is
    refused is a parameter error, and one that is accepted gives a manager
    with that environment set.  Without a [server] key the standalone
    runner is chosen: an [environment] is optional, but when there is one
    it is checked first, and a refused name is a parameter error whatever
    the rest of the configuration; after that, [modules] that is not a list
    is a [RuntimeError], raised before the check that [execute] or
    [manifest] is in the configuration, whose failure is a parameter error;
    a configuration that passes is built with the environment it names, or
    none. *)
Theorem construction_checks (h : Host) (c : Ctx) (p : dict) (i : installer_class) :
  properties c !! "puppet_config" = Some (VDict p) ->
  get_installer_class h = Ok i ->
  let new r := {| runner := r; installer := i; ctx := c; props := p;
                  environment := None; execute := None; manifest := None |} in
  let refused s :=
    PuppetManager h c =
    Raise (PuppetParamsError
             ("puppet_config.environment must contain only alphanumeric " +:+
              "characters, you gave '" +:+ normalize_environment s +:+ "'")) in
  (is_Some (p !! "server") ->
   get_runner_class c = Ok PuppetAgentRunner /\
   (p !! "environment" = None ->
    PuppetManager h c =
    Raise (PuppetParamsError "puppet_config.environment is missing")) /\
   (forall s, p !! "environment" = Some (VStr s) ->
      PUPPET_ENV_RE_match (normalize_environment s) = false -> refused s) /\
   (forall s, p !! "environment" = Some (VStr s) ->
      PUPPET_ENV_RE_match (normalize_environment s) = true ->
      PuppetManager h c =
      Ok (with_environment (normalize_environment s) (new PuppetAgentRunner)))) /\
  (p !! "server" = None ->
   get_runner_class c = Ok PuppetStandaloneRunner /\
   (forall s, p !! "environment" = Some (VStr s) ->
      PUPPET_ENV_RE_match (normalize_environment s) = false -> refused s) /\
   (forall m1,
      (p !! "environment" = None /\ m1 = new PuppetStandaloneRunner) \/
      (exists s, p !! "environment" = Some (VStr s) /\
                 PUPPET_ENV_RE_match (normalize_environment s) = true /\
                 m1 = with_environment (normalize_environment s)
                        (new PuppetStandaloneRunner)) ->
      (forall v, p !! "modules" = Some v -> is_list v = false ->
       PuppetManager h c = Raise (RuntimeError "puppet_config.modules must be a list")) /\
      ((forall v, p !! "modules" = Some v -> is_list v = true) ->
       p !! "execute" = None -> p !! "manifest" = None ->
       exists msg, PuppetManager h c = Raise (PuppetParamsError msg)) /\
      ((forall v, p !! "modules" = Some v -> is_list v = true) ->
       is_Some (p !! "execute") \/ is_Some (p !! "manifest") ->
       PuppetManager h c = Ok m1))).
Proof.
  intros Hp Hi new refused. subst refused.
  assert (Hcfg : puppet_config c = Ok p) by (unfold puppet_config; by rewrite Hp).
  unfold PuppetManager, get_runner_class. rewrite Hcfg, Hi. cbn [rbind].
  split.
  - intros Hs. rewrite bool_decide_eq_true_2 by done. cbn [rbind].
    unfold process_properties. cbn [runner props new].
    split; [reflexivity|]. split; [|split].
    + intros He. by rewrite He.
    + intros s He Hre. rewrite He. unfold set_environment. by rewrite Hre.
    + intros s He Hre. rewrite He. unfold set_environment. by rewrite Hre.
  - intros Hs.
    rewrite bool_decide_eq_false_2 by (rewrite Hs; by intros [? ?]).
    cbn [rbind]. unfold process_properties. cbn [runner props new].
    split; [reflexivity|]. split.
    + intros s He Hre. rewrite He. unfold set_environment. by rewrite Hre.
    + intros m1 Henv.
      assert (Hfirst : match p !! "environment" with
                       | Some e => set_environment (new PuppetStandaloneRunner) e
                       | None => Ok (new PuppetStandaloneRunner)
                       end = Ok m1).
      { destruct Henv as [[-> ->]|(s & -> & Hre & ->)]; [reflexivity|].
        unfold set_environment. by rewrite Hre. }
      subst new. cbv beta in Hfirst. rewrite Hfirst. cbn [rbind].
      split; [|split].
      * intros v Hm Hl. by rewrite Hm, Hl.
      * intros Hm Hex Hman.
        destruct (p !! "modules") as [v|] eqn:E;
          [rewrite (Hm v eq_refl)|]; cbn [negb rbind];
          rewrite !bool_decide_eq_true_2 by done; eauto.
      * intros Hm Hone.
        destruct (p !! "modules") as [v|] eqn:E;
          [rewrite (Hm v eq_refl)|]; cbn [negb rbind].
        all: destruct Hone as [[x Hx]|[x Hx]]; rewrite Hx;
          rewrite ?(bool_decide_eq_false_2 (Some x = None)) by done;
          by rewrite ?andb_false_r.
Qed.

Lemma construction_checks_witness :
  let p : dict := <["server" := VStr "puppetmaster.example"]> ∅ in
  let q : dict := <["environment" := VStr "Prod-1"]>
                    (<["modules" := VStr "apache"]> ∅) in
  (properties (ctx_web3 p) !! "puppet_config" = Some (VDict p) /\
   get_installer_class host_ubuntu = Ok PuppetDebianInstaller /\
   is_Some (p !! "server") /\ p !! "environment" = None /\
   get_runner_class (ctx_web3 p) = Ok PuppetAgentRunner /\
   PuppetManager host_ubuntu (ctx_web3 p) =
   Raise (PuppetParamsError "puppet_config.environment is missing")) /\
  (properties (ctx_web3 q) !! "puppet_config" = Some (VDict q) /\
   q !! "server" = None /\ q !! "environment" = Some (VStr "Prod-1") /\
   PUPPET_ENV_RE_match (normalize_environment "Prod-1") = false /\
   get_runner_class (ctx_web3 q) = Ok PuppetStandaloneRunner /\
   PuppetManager host_ubuntu (ctx_web3 q) =
   Raise (PuppetParamsError
            ("puppet_config.environment must contain only alphanumeric " +:+
             "characters, you gave '" +:+ normalize_environment "Prod-1" +:+ "'"))).
Proof.
  intros p q.
  assert (H2 : get_installer_class host_ubuntu = Ok PuppetDebianInstaller)
    by reflexivity.
  split.
  - assert (H1 : properties (ctx_web3 p) !! "puppet_config" = Some (VDict p))
      by reflexivity.
    assert (H3 : is_Some (p !! "server")) by (eexists; reflexivity).
    assert (H4 : p !! "environment" = None) by reflexivity.
    repeat (split; [assumption|]).
    destruct (proj1 (construction_checks host_ubuntu (ctx_web3 p) p
                       PuppetDebianInstaller H1 H2) H3) as (Hr & Hm & _).
    split; [exact Hr|exact (Hm H4)].
  - assert (H1 : properties (ctx_web3 q) !! "puppet_config" = Some (VDict q))
      by reflexivity.
    assert (H3 : q !! "server" = None) by reflexivity.
    assert (H4 : q !! "environment" = Some (VStr "Prod-1")) by reflexivity.
    assert (H5 : PUPPET_ENV_RE_match (normalize_environment "Prod-1") = false)
      by reflexivity.
    repeat (split; [assumption|]).
    destruct (proj2 (construction_checks host_ubuntu (ctx_web3 q) q
                       PuppetDebianInstaller H1 H2) H3) as (Hr & Hbad & _).
    split; [exact Hr|exact (Hbad "Prod-1" H4 H5)].
Defined.

(** ** Quoting *)

Lemma sh_word_value_in_single (s : string) :
  sh_word_value_from InSingle
    (replace_char squote_char ("'" +:+ dquote +:+ "'" +:+ dquote +:+ "'") s +:+ "'")
  = Some s.
Proof.
  induction s as [|c s IH]; [reflexivity|].
  cbn [replace_char]. destruct (Ascii.eqb_spec c squote_char) as [->|Hc].
  - rewrite string_app_assoc.
    change (sh_word_value_from InSingle
              (("'" +:+ dquote +:+ "'" +:+ dquote +:+ "'") +:+
               replace_char squote_char
                 ("'" +:+ dquote +:+ "'" +:+ dquote +:+ "'") s +:+ "'"))
      with (String squote_char <$>
            sh_word_value_from InSingle
              (replace_char squote_char
                 ("'" +:+ dquote +:+ "'" +:+ dquote +:+ "'") s +:+ "'")).
    by rewrite IH.
  - rewrite string_app_cons. cbn [sh_word_value_from].
    destruct (Ascii.eqb_spec c "'") as [->|_]; [done|].
    by rewrite IH.
Qed.

(** X4.  The shell reads the word [quote_shell_arg s] back as [s], for
    every string [s]: single quotes, spaces and shell metacharacters
    included, the quoted text is one word with exactly the characters of
    [s]. *)
Theorem quote_shell_arg_round_trip (s : string) :
  sh_word_value (quote_shell_arg s) = Some s.
Proof.
  unfold sh_word_value, quote_shell_arg.
  change (sh_word_value_from Unquoted
            ("'" +:+ replace_char squote_char
                       ("'" +:+ dquote +:+ "'" +:+ dquote +:+ "'") s +:+ "'"))
    with (sh_word_value_from InSingle
            (replace_char squote_char
               ("'" +:+ dquote +:+ "'" +:+ dquote +:+ "'") s +:+ "'")).
  apply sh_word_value_in_single.
Qed.

(** Text that is not quoted is not read as a quoted word. *)
Example sh_word_value_unquoted :
  sh_word_value "notify{'x':}" = None /\
  sh_word_value (quote_shell_arg "it's; rm -rf /") = Some "it's; rm -rf /".
Proof. split; reflexivity. Qed.

(** ** The manifest of the standalone command *)

(** X5.  The manifest argument of the standalone command is
    [os.path.join(local_repo, manifest)], quoted: a relative manifest is
    looked up under the local repository, and an absolute one is taken as it
    is, outside the repository. *)
Theorem manifest_path (h : Host) (m : Manager) (f : string) :
  runner m = PuppetStandaloneRunner ->
  str_truthy (execute m) = false ->
  manifest m = Some f -> f <> "" ->
  (startswith "/" f = true ->
   get_runner_cmd h m = Ok (standalone_base h m ++ [quote_shell_arg f])) /\
  (startswith "/" f = false ->
   local_repo h <> "" -> endswith "/" (local_repo h) = false ->
   get_runner_cmd h m =
   Ok (standalone_base h m ++ [quote_shell_arg (local_repo h +:+ "/" +:+ f)])).
Proof.
  intros Hr He Hm Hf.
  rewrite (get_runner_cmd_standalone h m Hr), He, Hm.
  assert (str_truthy (Some f) = true) as ->
    by (cbn; by apply negb_true_iff, String.eqb_neq).
  change (default "" (Some f)) with f. unfold path_join. split.
  - by intros ->.
  - intros -> Hne Hend. rewrite Hend.
    by rewrite (proj2 (String.eqb_neq _ _) Hne).
Qed.

Lemma manifest_path_witness :
  let m := standalone_manager None None (Some "/etc/passwd.pp") in
  runner m = PuppetStandaloneRunner /\ str_truthy (execute m) = false /\
  manifest m = Some "/etc/passwd.pp" /\ startswith "/" "/etc/passwd.pp" = true /\
  get_runner_cmd host_ubuntu m =
  Ok (standalone_base host_ubuntu m ++ [quote_shell_arg "/etc/passwd.pp"]).
Proof.
  intros m. repeat (split; [reflexivity|]).
  exact (proj1 (manifest_path host_ubuntu m "/etc/passwd.pp" eq_refl eq_refl
                  eq_refl ltac:(discriminate)) eq_refl).
Defined.

(** ** The override of the repository package *)

(** X6.  [get_repo_package_url] uses the entry of [props['repos']['deb']]
    only when it is true in Python's sense: an entry that is [None], an
    empty string, 0, or an empty list or mapping gives the default URL; any
    other entry is returned as it is, string or not; [repos] or [deb] that
    is not a mapping is an [AttributeError]. *)
Theorem repo_override_edge_cases (h : Host) (m : Manager) (ver : string) :
  installer m = PuppetDebianInstaller ->
  debian_release (linux_distribution h) = Ok ver ->
  (forall u, override_entry (props m) ver u -> truthy u = false ->
   get_repo_package_url h m = Ok (VStr (default_repo_url ver))) /\
  (forall u, override_entry (props m) ver u -> truthy u = true ->
   get_repo_package_url h m = Ok u) /\
  (forall v, props m !! "repos" = Some v -> (forall d, v <> VDict d) ->
   get_repo_package_url h m = Raise (Builtin "AttributeError")) /\
  (forall repos v,
     props m !! "repos" = Some (VDict repos) -> repos !! "deb" = Some v ->
     (forall d, v <> VDict d) ->
     get_repo_package_url h m = Raise (Builtin "AttributeError")).
Proof.
  intros Hi Hver. unfold get_repo_package_url. rewrite Hi, Hver. cbn [rbind].
  split; [|split; [|split]].
  - intros u He Hu. by rewrite (repo_override_entry _ _ _ He); cbn [rbind]; rewrite Hu.
  - intros u He Hu. by rewrite (repo_override_entry _ _ _ He); cbn [rbind]; rewrite Hu.
  - intros v Hv Hnd. unfold repo_override, value_get. rewrite Hv. cbn.
    destruct v; try reflexivity. by destruct (Hnd d).
  - intros repos v Hr Hv Hnd. unfold repo_override, value_get.
    rewrite Hr. cbn. rewrite Hv. cbn.
    destruct v; try reflexivity. by destruct (Hnd d).
Qed.

Lemma repo_override_edge_cases_witness :
  let p : dict :=
    <["repos" := VDict (<["deb" := VDict (<["12.04" := VStr ""]> ∅)]> ∅)]> ∅ in
  let m := with_props p (agent_manager (agent_config "prod1")) in
  installer m = PuppetDebianInstaller /\
  debian_release (linux_distribution host_ubuntu) = Ok "12.04" /\
  override_entry (props m) "12.04" (VStr "") /\ truthy (VStr "") = false /\
  get_repo_package_url host_ubuntu m = Ok (VStr (default_repo_url "12.04")).
Proof.
  intros p m.
  assert (He : override_entry (props m) "12.04" (VStr "")).
  { exists (<["deb" := VDict (<["12.04" := VStr ""]> ∅)]> ∅),
           (<["12.04" := VStr ""]> ∅).
    split; [reflexivity|split; reflexivity]. }
  split; [reflexivity|split; [reflexivity|split; [exact He|split; [reflexivity|]]]].
  exact (proj1 (repo_override_edge_cases host_ubuntu m "12.04" eq_refl eq_refl)
           (VStr "") He eq_refl).
Defined.

(** ** The list of installed modules *)

Lemma followed_by_paren_nil (name : string) : ~ followed_by_paren [] name.
Proof. intros (i & t & H & _). by rewrite lookup_nil in H. Qed.

Lemma followed_by_paren_cons (cur : string) (out : list string) (name : string) :
  followed_by_paren (cur :: out) name <->
  (name = cur /\ exists t out', out = t :: out' /\ startswith "(" t = true) \/
  followed_by_paren out name.
Proof.
  split.
  - intros ([|i] & t & Hi & Ht & Hp).
    + left. injection Hi as <-. split; [done|].
      destruct out as [|t' out']; [discriminate Ht|].
      injection Ht as ->. eauto.
    + right. exists i, t. done.
  - intros [[-> (t & out' & -> & Hp)]|(i & t & Hi & Ht & Hp)].
    + exists 0%nat, t. done.
    + exists (S i), t. done.
Qed.

Lemma installed_modules_loop_elem (out : list string) (prev : option string)
  (ret : list (option string)) (x : option string) :
  x ∈ installed_modules_loop out prev ret <->
  x ∈ ret \/
  (x = prev /\ exists t out', out = t :: out' /\ startswith "(" t = true) \/
  (exists name, x = Some name /\ followed_by_paren out name).
Proof.
  revert prev ret. induction out as [|cur out IH]; intros prev ret.
  - cbn [installed_modules_loop]. split; [by left|].
    intros [H|[(_ & t & out' & H & _)|(name & _ & H)]];
      [done|discriminate H|by destruct (followed_by_paren_nil name)].
  - cbn [installed_modules_loop]. rewrite IH.
    setoid_rewrite followed_by_paren_cons. split.
    + intros [H|[(-> & t & out' & -> & Hp)|(name & -> & H)]].
      * destruct (startswith "(" cur) eqn:E; [|by left].
        apply elem_of_cons in H as [->|H]; [|by left].
        right. left. split; [done|]. eauto.
      * right. right. exists cur. split; [done|]. left. split; [done|]. eauto.
      * right. right. exists name. split; [done|]. by right.
    + intros [H|[(-> & t & out' & [= <- <-] & Hp)|(name & -> & [[-> H]|H])]].
      * left. destruct (startswith "(" cur); [by apply list_elem_of_further|done].
      * left. rewrite Hp. apply list_elem_of_here.
      * right. left. done.
      * right. right. eauto.
Qed.

Lemma get_installed_modules_parse_ok (h : Host) (w : World) (out err : string) :
  sudo_result h (trace w) (module_list_cmd h) = (0, out, err) ->
  exists mods,
    get_installed_modules h w = (Ok mods, emit (ESudo (module_list_cmd h)) w) /\
    (forall name, Some name ∈ mods <-> followed_by_paren (String.words out) name) /\
    (None ∈ mods <->
     exists t out', String.words out = t :: out' /\ startswith "(" t = true).
Proof.
  intros Hs.
  unfold get_installed_modules, bind, _sudo, ret, module_list_cmd in *.
  cbv beta iota. rewrite Hs. cbn [sudo_effect fst snd Z.eqb].
  eexists. split; [reflexivity|]. split.
  - intros name. rewrite installed_modules_loop_elem. split.
    + intros [H|[(H & _)|(n & [= <-] & H)]];
        [by apply elem_of_nil in H|discriminate H|done].
    + intros H. right. right. eauto.
  - rewrite installed_modules_loop_elem. split.
    + intros [H|[(_ & H)|(n & H & _)]];
        [by apply elem_of_nil in H|done|discriminate H].
    + intros H. right. left. done.
Qed.

(** X7.  [get_installed_modules] runs [puppet module list] and, when that
    succeeds, reports a name exactly when, in the output split at white
    space, the name stands right before a word that begins with an opening
    parenthesis; [None] is in the set exactly when the very first word does;
    when the command fails, the [SudoError] is passed on. *)
Theorem get_installed_modules_parse (h : Host) (w : World)
  (status : Z) (out err : string) :
  sudo_result h (trace w) (module_list_cmd h) = (status, out, err) ->
  (status = 0 ->
   exists mods,
     get_installed_modules h w = (Ok mods, emit (ESudo (module_list_cmd h)) w) /\
     (forall name, Some name ∈ mods <-> followed_by_paren (String.words out) name) /\
     (None ∈ mods <->
      exists t out', String.words out = t :: out' /\ startswith "(" t = true)) /\
  (status <> 0 ->
   get_installed_modules h w =
   (Raise (SudoError (module_list_cmd h) status out err),
    emit (ESudo (module_list_cmd h)) w)).
Proof.
  intros Hs. split.
  - intros ->. exact (get_installed_modules_parse_ok h w out err Hs).
  - intros Hne.
    unfold get_installed_modules, bind, _sudo, ret, module_list_cmd in *.
    cbv beta iota. rewrite Hs. by rewrite (proj2 (Z.eqb_neq _ _) Hne).
Qed.

Lemma get_installed_modules_parse_witness :
  sudo_result host_with_apt (trace world0) (module_list_cmd host_with_apt) =
    (0, "/etc/puppet/modules puppetlabs-apt (v1.4.0)", "") /\
  exists mods,
    get_installed_modules host_with_apt world0 =
      (Ok mods, emit (ESudo (module_list_cmd host_with_apt)) world0) /\
    (forall name,
       Some name ∈ mods <->
       followed_by_paren
         (String.words "/etc/puppet/modules puppetlabs-apt (v1.4.0)") name) /\
    (None ∈ mods <->
     exists t out',
       String.words "/etc/puppet/modules puppetlabs-apt (v1.4.0)" = t :: out' /\
       startswith "(" t = true).
Proof.
  assert (H1 : sudo_result host_with_apt (trace world0)
                 (module_list_cmd host_with_apt) =
               (0, "/etc/puppet/modules puppetlabs-apt (v1.4.0)", ""))
    by reflexivity.
  split; [exact H1|].
  exact (proj1 (get_installed_modules_parse host_with_apt world0 _ _ _ H1) eq_refl).
Defined.

(** A directory without modules is listed with a remark in parentheses,
    and so the directory itself is taken for an installed module. *)
Example installed_modules_example :
  installed_modules_loop
    (String.words
       "/etc/puppet/modules (no modules installed) /opt/m puppetlabs-apt (v1.4.0)")
    None [] =
  [Some "puppetlabs-apt"; Some "/etc/puppet/modules"].
Proof. reflexivity. Qed.

(** X8.  One round of the module loop of the standalone [configure]: the
    modules are listed, and [puppet module install <name>] is run exactly
    when the list does not report [name]; a module that is reported costs
    the list command only. *)
Theorem configure_module_installs_missing (h : Host) (name : string) (w : World)
  (out err : string) :
  sudo_result h (trace w) (module_list_cmd h) = (0, out, err) ->
  (followed_by_paren (String.words out) name ->
   configure_module h (VStr name) w =
   (Ok tt, emit (ESudo (module_list_cmd h)) w)) /\
  (~ followed_by_paren (String.words out) name ->
   exists r w',
     configure_module h (VStr name) w = (r, w') /\
     trace w' = trace w ++ [ESudo (module_list_cmd h);
                            ESudo (module_install_cmd name)] /\
     (is_ok r = true <->
      (sudo_result h (trace w ++ [ESudo (module_list_cmd h)])
         (module_install_cmd name)).1.1 = 0)).
Proof.
  intros Hs.
  destruct (get_installed_modules_parse_ok h w out err Hs) as (mods & Hm & Hiff & _).
  unfold configure_module, bind. rewrite Hm. split.
  - intros Hf. by rewrite bool_decide_eq_true_2 by (by apply Hiff).
  - intros Hf. rewrite bool_decide_eq_false_2 by (by rewrite Hiff).
    unfold bind, _sudo, ret, module_install_cmd. cbv beta iota.
    cbn [trace emit sudo_effect].
    destruct (sudo_result h (trace w ++ [ESudo (module_list_cmd h)])
                ["/usr/bin/sudo"; "puppet"; "module"; "install"; name])
      as [[st o] e].
    cbn [fst]. destruct (Z.eqb_spec st 0) as [->|Hne].
    + eexists _, _. split; [reflexivity|]. cbn [trace emit].
      split; [by rewrite <- app_assoc|done].
    + eexists _, _. split; [reflexivity|]. cbn [trace emit].
      split; [by rewrite <- app_assoc|]. split; [discriminate|done].
Qed.

Lemma configure_module_installs_missing_witness :
  sudo_result host_with_apt (trace world0) (module_list_cmd host_with_apt) =
    (0, "/etc/puppet/modules puppetlabs-apt (v1.4.0)", "") /\
  followed_by_paren
    (String.words "/etc/puppet/modules puppetlabs-apt (v1.4.0)") "puppetlabs-apt" /\
  configure_module host_with_apt (VStr "puppetlabs-apt") world0 =
    (Ok tt, emit (ESudo (module_list_cmd host_with_apt)) world0).
Proof.
  assert (H1 : sudo_result host_with_apt (trace world0)
                 (module_list_cmd host_with_apt) =
               (0, "/etc/puppet/modules puppetlabs-apt (v1.4.0)", ""))
    by reflexivity.
  assert (H2 : followed_by_paren
                 (String.words "/etc/puppet/modules puppetlabs-apt (v1.4.0)")
                 "puppetlabs-apt").
  { exists 1%nat, "(v1.4.0)". split; [reflexivity|split; reflexivity]. }
  split; [exact H1|split; [exact H2|]].
  exact (proj1 (configure_module_installs_missing host_with_apt "puppetlabs-apt"
                  world0 _ _ H1) H2).
Defined.

(** ** More on the lock *)

Lemma enter_loop_failure (h : Host) (n k : nat) (l : RetryingLock.t) (w : World)
  (cls : string) :
  (k < n)%nat ->
  (forall j, (j < k)%nat ->
     acquire_result h (trace w ++ repeat (RetryingLock.attempt l) j)
       (RetryingLock.path l) (RetryingLock.sleep l) = LockTimeout) ->
  acquire_result h (trace w ++ repeat (RetryingLock.attempt l) k)
    (RetryingLock.path l) (RetryingLock.sleep l) = LockFailure cls ->
  exists w',
    RetryingLock.enter_loop h n l w = (Raise (LockError cls), l, w') /\
    trace w' = trace w ++ repeat (RetryingLock.attempt l) (S k) /\
    held w' = held w /\ fs w' = fs w.
Proof.
  revert n w. induction k as [|k IH]; intros n w Hk Hpre Hfail.
  - destruct n as [|n]; [lia|].
    cbn [RetryingLock.enter_loop]. unfold RetryingLock.file_acquire.
    cbn in Hfail. rewrite app_nil_r in Hfail. rewrite Hfail.
    eexists. split; [reflexivity|]. done.
  - destruct n as [|n]; [lia|].
    cbn [RetryingLock.enter_loop]. unfold RetryingLock.file_acquire.
    pose proof (Hpre 0%nat ltac:(lia)) as H0. cbn in H0.
    rewrite app_nil_r in H0. rewrite H0.
    match goal with |- context [RetryingLock.enter_loop h n l ?w1] =>
      destruct (IH n w1) as (w' & Hrun & Htr & Hheld & Hfs) end.
    { lia. }
    { intros j Hj. cbn [trace logger_info emit].
      fold (RetryingLock.attempt l). rewrite repeat_shift. apply Hpre. lia. }
    { cbn [trace logger_info emit].
      fold (RetryingLock.attempt l). rewrite repeat_shift. apply Hfail. }
    exists w'. rewrite Hrun. cbn [trace logger_info emit] in Htr.
    fold (RetryingLock.attempt l) in Htr. rewrite repeat_shift in Htr.
    repeat split; done.
Qed.

(** X9.  Two edges of [__enter__].  With [retries <= 0] the loop body
    never runs: the acquisition error is raised without a single attempt,
    whether the lock is free or not.  An error of the lock file other than
    a timeout is not retried: it is passed on at once, after the attempts
    made so far, and [acquired] stays false. *)
Theorem enter_edge_cases (h : Host) (l : RetryingLock.t) (w : World) :
  (RetryingLock.retries l <= 0 ->
   exists w',
     RetryingLock.enter h l w =
       (Raise (RuntimeError (RetryingLock.failure_message l)), l, w') /\
     trace w' = trace w /\ held w' = held w) /\
  (forall (k : nat) (cls : string),
     (k < Z.to_nat (RetryingLock.retries l))%nat ->
     (forall j, (j < k)%nat ->
        acquire_result h (trace w ++ repeat (RetryingLock.attempt l) j)
          (RetryingLock.path l) (RetryingLock.sleep l) = LockTimeout) ->
     acquire_result h (trace w ++ repeat (RetryingLock.attempt l) k)
       (RetryingLock.path l) (RetryingLock.sleep l) = LockFailure cls ->
     exists w',
       RetryingLock.enter h l w = (Raise (LockError cls), l, w') /\
       trace w' = trace w ++ repeat (RetryingLock.attempt l) (S k) /\
       held w' = held w).
Proof.
  split.
  - intros Hn. unfold RetryingLock.enter.
    replace (Z.to_nat (RetryingLock.retries l)) with 0%nat by lia.
    eexists. split; [reflexivity|]. done.
  - intros k cls Hk Hpre Hfail. unfold RetryingLock.enter.
    destruct (enter_loop_failure h (Z.to_nat (RetryingLock.retries l)) k l
                (logger_info ("Using lock file " +:+ RetryingLock.path l) w) cls)
      as (w' & Hrun & Htr & Hheld & _); [exact Hk|exact Hpre|exact Hfail|].
    exists w'. done.
Qed.

Lemma enter_edge_cases_witness :
  let l0 := RetryingLock.init host_ubuntu "puppet-install.lock" 0 10 in
  let l := RetryingLock.init host_lock_broken "puppet-install.lock" 30 10 in
  (RetryingLock.retries l0 <= 0 /\
   exists w',
     RetryingLock.enter host_ubuntu l0 world0 =
       (Raise (RuntimeError (RetryingLock.failure_message l0)), l0, w') /\
     trace w' = trace world0 /\ held w' = held world0) /\
  (exists w',
     RetryingLock.enter host_lock_broken l world0 =
       (Raise (LockError "LockFailed"), l, w') /\
     trace w' = trace world0 ++ repeat (RetryingLock.attempt l) 2 /\
     held w' = held world0).
Proof.
  intros l0 l. split.
  - assert (H0 : RetryingLock.retries l0 <= 0) by (vm_compute; discriminate).
    split; [exact H0|].
    exact (proj1 (enter_edge_cases host_ubuntu l0 world0) H0).
  - apply (proj2 (enter_edge_cases host_lock_broken l world0) 1%nat "LockFailed").
    + vm_compute. lia.
    + intros j Hj. destruct j as [|j]; [reflexivity|lia].
    + reflexivity.
Defined.

(** ** [install] *)

(** A [with RetryingLock(...)] block whose lock is free at the first
    attempt: the body runs right after the acquisition and the lock is
    released after it. *)
Lemma with_lock_first_try {A} (h : Host) (name : string) (retries sleep : Z)
  (body : M A) (w : World) :
  0 < retries ->
  let l := RetryingLock.init h name retries sleep in
  acquire_result h (trace w) (RetryingLock.path l) sleep = Locked ->
  RetryingLock.path l ∉ held w ->
  preserves_held body ->
  exists w1,
    trace w1 = trace w ++ [EAcquire (RetryingLock.path l) sleep] /\
    fs w1 = fs w /\ ntemp w1 = ntemp w /\
    exists w3,
      with_lock h (name, retries, sleep) body w = ((body w1).1, w3) /\
      trace w3 = trace (body w1).2 ++ [ERelease (RetryingLock.path l)] /\
      fs w3 = fs (body w1).2 /\ ntemp w3 = ntemp (body w1).2 /\
      held w3 = held w.
Proof.
  intros Hr l Hacq Hfree Hbody.
  set (w1 := logger_info
               ("Acquired lock the file '" +:+ RetryingLock.path l +:+ "'.")
               (set_held ({[ RetryingLock.path l ]} ∪ held w)
                  (emit (EAcquire (RetryingLock.path l) sleep)
                     (logger_info ("Using lock file " +:+ RetryingLock.path l) w)))).
  exists w1. split; [reflexivity|split; [reflexivity|split; [reflexivity|]]].
  assert (Henter : RetryingLock.enter h l w =
                   (Ok tt, RetryingLock.set_acquired true l, w1)).
  { unfold RetryingLock.enter. change (RetryingLock.retries l) with retries.
    destruct (Z.to_nat retries) as [|n] eqn:En; [lia|].
    cbn [RetryingLock.enter_loop]. unfold RetryingLock.file_acquire.
    cbn [trace logger_info]. change (RetryingLock.sleep l) with sleep.
    by rewrite Hacq. }
  unfold with_lock, RetryingLock.scope. fold l. rewrite Henter.
  specialize (Hbody w1). destruct (body w1) as [r w2]. cbn [fst snd] in *.
  unfold RetryingLock.exit, RetryingLock.file_release.
  cbn [RetryingLock.acquired RetryingLock.set_acquired RetryingLock.path negb].
  assert (Hheld : held w2 = {[ RetryingLock.path l ]} ∪ held w)
    by (by rewrite Hbody).
  rewrite bool_decide_eq_true_2 by (rewrite Hheld; set_solver).
  eexists. split; [reflexivity|].
  cbn [trace fs ntemp held logger_info set_held emit].
  repeat split. rewrite Hheld. set_solver.
Qed.

(** Sets the body of the [with] block of [install] aside and opens the
    block with [with_lock_first_try]. *)
Ltac open_install_lock h m w Hacq Hfree :=
  unfold install, PUPPET_INSTALL_LOCK;
  match goal with
  | |- context [with_lock h _ ?b w] =>
      let body := fresh "body" in
      set (body := b);
      destruct (with_lock_first_try h "puppet-install.lock" 30 10 body w
                  ltac:(lia) Hacq Hfree (preserves_held_install_body h m))
        as (?w1 & ?Htr1 & ?Hfs1 & ?Hnt1 & ?w3 & ?Hrun & ?Htr3 & ?Hfs3 & ?Hnt3 & ?Hheld3);
      change (RetryingLock.path (RetryingLock.init h "puppet-install.lock" 30 10))
        with (install_lock_path h) in *
  end.

(** X10.  [install] is a no-operation on a host that has Puppet: when the
    install lock is free and [sudo which puppet] succeeds, [install] returns
    after taking the lock, asking [which], and giving the lock back; no
    command is run, nothing is fetched and no file is written. *)
Theorem install_noop_when_installed (h : Host) (m : Manager) (w : World) :
  acquire_result h (trace w) (install_lock_path h) 10 = Locked ->
  install_lock_path h ∉ held w ->
  which_status h (trace w ++ [EAcquire (install_lock_path h) 10]) "puppet" = 0 ->
  exists w',
    install h m w = (Ok tt, w') /\
    trace w' = trace w ++ [EAcquire (install_lock_path h) 10; EWhich "puppet";
                           ERelease (install_lock_path h)] /\
    fs w' = fs w /\ ntemp w' = ntemp w /\ held w' = held w.
Proof.
  intros Hacq Hfree Hwhich.
  open_install_lock h m w Hacq Hfree.
  assert (Hb : body w1 = (Ok tt, emit (EWhich "puppet") w1)).
  { unfold body, bind, puppet_is_installed, _prog_available_for_root.
    rewrite Htr1. by rewrite Hwhich. }
  rewrite Hb in *. cbn [fst snd trace fs ntemp emit] in *.
  exists w3. split; [exact Hrun|].
  rewrite Htr3, Htr1, Hfs3, Hfs1, Hnt3, Hnt1, <- !app_assoc. done.
Qed.

Lemma install_noop_when_installed_witness :
  let m := agent_manager (agent_config "prod1") in
  acquire_result host_ubuntu (trace world0) (install_lock_path host_ubuntu) 10
    = Locked /\
  (install_lock_path host_ubuntu ∉ held world0) /\
  exists w',
    install host_ubuntu m world0 = (Ok tt, w') /\
    trace w' = trace world0 ++
               [EAcquire (install_lock_path host_ubuntu) 10; EWhich "puppet";
                ERelease (install_lock_path host_ubuntu)] /\
    fs w' = fs world0 /\ ntemp w' = ntemp world0 /\ held w' = held world0.
Proof.
  intros m.
  assert (H1 : acquire_result host_ubuntu (trace world0)
                 (install_lock_path host_ubuntu) 10 = Locked) by reflexivity.
  assert (H2 : install_lock_path host_ubuntu ∉ held world0)
    by apply not_elem_of_empty.
  split; [exact H1|split; [exact H2|]].
  exact (install_noop_when_installed host_ubuntu m world0 H1 H2 eq_refl).
Defined.

(** X11.  [install] on a host without Puppet stops before any command
    when it has no package to install: when [get_repo_package_url] raises
    (the RHEL installer always does, with [NotImplementedError]; the Debian
    one when the release cannot be told), that error is passed on; when the
    [HEAD] request for the URL does not answer 200, a [PuppetError] that
    names the URL is raised.  In both cases the lock is given back and no
    sudo command was run. *)
Theorem install_stops_without_package (h : Host) (m : Manager) (w : World) :
  acquire_result h (trace w) (install_lock_path h) 10 = Locked ->
  install_lock_path h ∉ held w ->
  which_status h (trace w ++ [EAcquire (install_lock_path h) 10]) "puppet" <> 0 ->
  (forall e,
     get_repo_package_url h m = Raise e ->
     exists w',
       install h m w = (Raise e, w') /\
       trace w' = trace w ++ [EAcquire (install_lock_path h) 10; EWhich "puppet";
                              ERelease (install_lock_path h)] /\
       fs w' = fs w /\ held w' = held w) /\
  (installer m = PuppetRHELInstaller ->
   exists w', install h m w = (Raise NotImplementedError, w') /\ held w' = held w) /\
  (forall url u,
     get_repo_package_url h m = Ok url -> py_str url = Ok u ->
     head_status h (trace w ++ [EAcquire (install_lock_path h) 10; EWhich "puppet"])
       url <> 200 ->
     exists w',
       install h m w =
         (Raise (PuppetError ("Repo package is not available (at " +:+ u +:+ ")")),
          w') /\
       trace w' = trace w ++ [EAcquire (install_lock_path h) 10; EWhich "puppet";
                              EHead url; ERelease (install_lock_path h)] /\
       fs w' = fs w /\ held w' = held w).
Proof.
  intros Hacq Hfree Hwhich.
  assert (Hno : forall e,
     get_repo_package_url h m = Raise e ->
     exists w',
       install h m w = (Raise e, w') /\
       trace w' = trace w ++ [EAcquire (install_lock_path h) 10; EWhich "puppet";
                              ERelease (install_lock_path h)] /\
       fs w' = fs w /\ held w' = held w).
  { intros e He. open_install_lock h m w Hacq Hfree.
    assert (Hb : body w1 = (Raise e, emit (EWhich "puppet") w1)).
    { unfold body, bind, puppet_is_installed, _prog_available_for_root, lift.
      rewrite Htr1.
      rewrite (proj2 (Z.eqb_neq _ _) Hwhich). by rewrite He. }
    rewrite Hb in *. cbn [fst snd trace fs ntemp emit] in *.
    exists w3. split; [exact Hrun|].
    rewrite Htr3, Htr1, Hfs3, Hfs1, <- !app_assoc. done. }
  split; [exact Hno|split].
  - intros Hi. destruct (Hno NotImplementedError) as (w' & H & _ & _ & Hh).
    + unfold get_repo_package_url. by rewrite Hi.
    + eauto.
  - intros url u Hurl Hu Hhead. open_install_lock h m w Hacq Hfree.
    assert (Hb : body w1 =
      (Raise (PuppetError ("Repo package is not available (at " +:+ u +:+ ")")),
       emit (EHead url) (emit (EWhich "puppet") w1))).
    { unfold body, bind, puppet_is_installed, _prog_available_for_root, lift,
        requests_head, raise.
      rewrite Htr1.
      rewrite (proj2 (Z.eqb_neq _ _) Hwhich). rewrite Hurl.
      cbn [trace emit]. rewrite Htr1, <- app_assoc. cbn [app].
      rewrite (proj2 (Z.eqb_neq _ _) Hhead). cbn [negb]. by rewrite Hu. }
    rewrite Hb in *. cbn [fst snd trace fs ntemp emit] in *.
    exists w3. split; [exact Hrun|].
    rewrite Htr3, Htr1, Hfs3, Hfs1, <- !app_assoc. done.
Qed.

Lemma install_stops_without_package_witness :
  let m := agent_manager (agent_config "prod1") in
  let url := VStr "http://apt.puppetlabs.com/puppetlabs-release-12.04.deb" in
  acquire_result host_repo_down (trace world0) (install_lock_path host_repo_down) 10
    = Locked /\
  (install_lock_path host_repo_down ∉ held world0) /\
  which_status host_repo_down
    (trace world0 ++ [EAcquire (install_lock_path host_repo_down) 10]) "puppet" <> 0 /\
  get_repo_package_url host_repo_down m = Ok url /\
  exists w',
    install host_repo_down m world0 =
      (Raise (PuppetError
                ("Repo package is not available (at " +:+
                 "http://apt.puppetlabs.com/puppetlabs-release-12.04.deb" +:+ ")")),
       w') /\
    trace w' = trace world0 ++
               [EAcquire (install_lock_path host_repo_down) 10; EWhich "puppet";
                EHead url; ERelease (install_lock_path host_repo_down)] /\
    fs w' = fs world0 /\ held w' = held world0.
Proof.
  intros m url.
  assert (H1 : acquire_result host_repo_down (trace world0)
                 (install_lock_path host_repo_down) 10 = Locked) by reflexivity.
  assert (H2 : install_lock_path host_repo_down ∉ held world0)
    by apply not_elem_of_empty.
  assert (H3 : which_status host_repo_down
                 (trace world0 ++ [EAcquire (install_lock_path host_repo_down) 10])
                 "puppet" <> 0) by discriminate.
  assert (H4 : get_repo_package_url host_repo_down m = Ok url) by reflexivity.
  split; [exact H1|split; [exact H2|split; [exact H3|split; [exact H4|]]]].
  refine (proj2 (proj2 (install_stops_without_package host_repo_down m world0
                          H1 H2 H3)) url _ H4 eq_refl _).
  discriminate.
Defined.

(** X12.  When the install lock is never free, [install] gives up after
    its 30 attempts with the acquisition error: the body of the block does
    not run (not even [which]), no file is written and no lock is held. *)
Theorem install_lock_exhausted (h : Host) (m : Manager) (w : World) :
  (forall j, (j < 30)%nat ->
     acquire_result h
       (trace w ++ repeat (EAcquire (install_lock_path h) 10) j)
       (install_lock_path h) 10 = LockTimeout) ->
  exists w',
    install h m w =
      (Raise (RuntimeError
                ("Failed to lock the file '" +:+ install_lock_path h +:+ "'.")),
       w') /\
    trace w' = trace w ++ repeat (EAcquire (install_lock_path h) 10) 30 /\
    fs w' = fs w /\ held w' = held w.
Proof.
  intros Hall. unfold install, PUPPET_INSTALL_LOCK, with_lock, RetryingLock.scope,
    RetryingLock.enter.
  set (l := RetryingLock.init h "puppet-install.lock" 30 10).
  destruct (enter_loop_timeouts h 30 l
              (logger_info ("Using lock file " +:+ RetryingLock.path l) w))
    as (w' & Hrun & Htr & Hheld & Hfs); [exact Hall|].
  change (Z.to_nat (RetryingLock.retries l)) with 30%nat.
  rewrite Hrun. exists w'. done.
Qed.

Lemma install_lock_exhausted_witness :
  exists w',
    install host_busy (agent_manager (agent_config "prod1")) world0 =
      (Raise (RuntimeError
                ("Failed to lock the file '" +:+ install_lock_path host_busy +:+ "'.")),
       w') /\
    trace w' = trace world0 ++ repeat (EAcquire (install_lock_path host_busy) 10) 30 /\
    fs w' = fs world0 /\ held w' = held world0.
Proof.
  apply (install_lock_exhausted host_busy). intros j _. reflexivity.
Defined.

(** ** Files written through sudo *)

(** X13.  [_sudo_write_file] writes the contents to a new temporary file
    and moves it into place with [sudo mv].  When the move succeeds the
    target holds the contents and the temporary file is gone; when it fails
    the [SudoError] is raised, the target is untouched and the temporary
    file stays behind with the contents.  No other file changes. *)
Theorem sudo_write_file_outcome (h : Host) (filename contents : string)
  (w : World) (status : Z) (out err : string) :
  let temp := path_join (gettempdir h) ("tmp" +:+ temp_random h (ntemp w) +:+ "") in
  let cmd := ["/usr/bin/sudo"; "mv"; temp; filename] in
  sudo_result h (trace w) cmd = (status, out, err) ->
  temp <> filename ->
  (status = 0 ->
   exists w',
     _sudo_write_file h filename contents w = (Ok tt, w') /\
     fs w' !! filename = Some (CText contents) /\
     fs w' !! temp = None /\
     (forall f, f <> filename -> f <> temp -> fs w' !! f = fs w !! f)) /\
  (status <> 0 ->
   exists w',
     _sudo_write_file h filename contents w =
       (Raise (SudoError cmd status out err), w') /\
     fs w' !! temp = Some (CText contents) /\
     (forall f, f <> temp -> fs w' !! f = fs w !! f)).
Proof.
  intros temp cmd Hs Hne.
  unfold _sudo_write_file, bind, temp_file, file_write, _sudo, ret.
  change (has_slash "tmp") with false.
  cbv beta iota. cbn [fs trace ntemp set_fs emit]. fold temp. fold cmd.
  rewrite Hs. split.
  - intros ->. cbn [Z.eqb]. eexists. split; [reflexivity|].
    unfold sudo_effect. change (String.eqb "mv" "mv") with true.
    cbn [fs set_fs emit]. rewrite lookup_insert_eq. cbn [fs set_fs].
    split; [by rewrite lookup_insert_eq|].
    split; [by rewrite lookup_insert_ne, lookup_delete_eq|].
    intros f Hf Hft.
    by rewrite lookup_insert_ne, lookup_delete_ne, !lookup_insert_ne.
  - intros Hst. rewrite (proj2 (Z.eqb_neq _ _) Hst).
    eexists. split; [reflexivity|]. cbn [fs set_fs emit].
    split; [by rewrite lookup_insert_eq|].
    intros f Hft. by rewrite !lookup_insert_ne.
Qed.

Lemma sudo_write_file_outcome_witness :
  let temp := path_join (gettempdir host_sudo_fails)
                ("tmp" +:+ temp_random host_sudo_fails (ntemp world0) +:+ "") in
  let cmd := ["/usr/bin/sudo"; "mv"; temp; "/etc/puppet/puppet.conf"] in
  sudo_result host_sudo_fails (trace world0) cmd = (1, "", "denied") /\
  temp <> "/etc/puppet/puppet.conf" /\
  exists w',
    _sudo_write_file host_sudo_fails "/etc/puppet/puppet.conf" "[main]" world0 =
      (Raise (SudoError cmd 1 "" "denied"), w') /\
    fs w' !! temp = Some (CText "[main]") /\
    (forall f, f <> temp -> fs w' !! f = fs world0 !! f).
Proof.
  intros temp cmd.
  assert (H1 : sudo_result host_sudo_fails (trace world0) cmd = (1, "", "denied"))
    by reflexivity.
  assert (H2 : temp <> "/etc/puppet/puppet.conf") by discriminate.
  split; [exact H1|split; [exact H2|]].
  refine (proj2 (sudo_write_file_outcome host_sudo_fails "/etc/puppet/puppet.conf"
                   "[main]" world0 1 "" "denied" H1 H2) _).
  discriminate.
Defined.



(** ** More on [run] *)









Lemma second_run_raises_witness :
  let m := agent_manager (<["facts" := VDict ∅]> (agent_config "prod1")) in
  is_Some (props m !! "facts") /\
  exists m' w',
    run host_ubuntu m None None None world0 = (Ok m', w') /\
    exists e w3, run host_ubuntu m' None None None w' = (Raise e, w3).
Proof.
  intros m.
  assert (H1 : is_Some (props m !! "facts")) by (eexists; reflexivity).
  split; [exact H1|].
  destruct (run host_ubuntu m None None None world0) as [[m'|e] w'] eqn:Hr;
    [|vm_compute in Hr; discriminate Hr].
  exists m', w'. split; [reflexivity|].
  exact (second_run_raises host_ubuntu m m' None None None world0 w' H1 Hr
           None None None w').
Defined.

(** ** No lock outlives a call *)

Lemma preserves_held_json_dump (h : Host) (m : Manager) (bundle : dict)
  (name : string) :
  preserves_held (json_dump h m bundle name).
Proof. unfold json_dump. held_steps. Qed.

Lemma preserves_held_run_execute (h : Host) (p : Prepared) :
  preserves_held (run_execute h p).
Proof. unfold run_execute. held_steps. Qed.

Lemma held_bind_step {A B} (m : M A) (f : A -> M B) (w : World)
  (hs : gset string) :
  held (m w).2 = hs ->
  (forall a w', held w' = hs -> held (f a w').2 = hs) ->
  held (bind m f w).2 = hs.
Proof.
  intros Hm Hf. unfold bind. destruct (m w) as [[a|e] w1]; cbn [snd] in *;
    [by apply Hf|exact Hm].
Qed.

(** X18.  [run] holds no lock when it is over, however it ends: with the
    two lock files free at the start, the set of held locks after [run] is
    the set before it. *)
Theorem run_holds_no_lock (h : Host) (m : Manager) (tags : option (list string))
  (execute manifest : option string) (w : World) :
  install_lock_path h ∉ held w ->
  config_lock_path h ∉ held w ->
  held (run h m tags execute manifest w).2 = held w.
Proof.
  intros Hi Hc. unfold run.
  apply held_bind_step;
    [|intros p w' <-; apply preserves_held_run_execute].
  unfold run_prepare. cbv zeta.
  apply held_bind_step; [by apply install_gives_lock_back|].
  intros _ wi Hwi.
  apply held_bind_step.
  { rewrite <- Hwi. apply configure_gives_lock_back.
    unfold config_lock_path in Hc. by rewrite Hwi. }
  intros _ w0 <-.
  match goal with
  | |- held (?f w0).2 = held w0 =>
      assert (Hp : preserves_held f); [|apply Hp]
  end.
  held_steps. apply preserves_held_json_dump.
Qed.

Lemma run_holds_no_lock_witness :
  let m := agent_manager (agent_config "prod1") in
  (install_lock_path host_agent_fails ∉ held world0) /\
  (config_lock_path host_agent_fails ∉ held world0) /\
  held (run host_agent_fails m None None None world0).2 = held world0.
Proof.
  intros m.
  assert (H1 : install_lock_path host_agent_fails ∉ held world0)
    by apply not_elem_of_empty.
  assert (H2 : config_lock_path host_agent_fails ∉ held world0)
    by apply not_elem_of_empty.
  split; [exact H1|split; [exact H2|]].
  exact (run_holds_no_lock host_agent_fails m None None None world0 H1 H2).
Defined.

